(** * Order-paper question extraction: [extract_parliament_questions]

    A shallow embedding of [extract_parliament_questions] from
    [data mining/scrap.py] and the properties of its metadata scan and of
    its question segmenter.

    Text is modelled as [string]: a sequence of characters with code points
    below 256.  On that range the character classes of Python's [str] and
    [re] are written out in full ([str.isspace], [\d], [str.lower]). *)

From Stdlib Require Import String Ascii List Bool Arith Lia.
Import ListNotations.
Open Scope string_scope.
Open Scope list_scope.
Open Scope nat_scope.

(* ================================================================== *)
(** * Characters and strings as Python sees them *)
(* ================================================================== *)

Module PyStr.

(** [\d] on code points below 256: the ten ASCII digits. *)
Definition is_digit (c : ascii) : bool :=
  let n := nat_of_ascii c in (48 <=? n) && (n <=? 57).

(** [str.isspace] and [\s] on code points below 256: TAB..CR, FS..US,
    SPACE, NEL (0x85) and NBSP (0xA0). *)
Definition is_space (c : ascii) : bool :=
  let n := nat_of_ascii c in
  ((9 <=? n) && (n <=? 13)) || ((28 <=? n) && (n <=? 32))
  || (n =? 133) || (n =? 160).

(** [.] without DOTALL: anything but a line feed. *)
Definition not_newline (c : ascii) : bool :=
  negb (nat_of_ascii c =? 10).

(** The class [[a-z]]. *)
Definition is_lower_az (c : ascii) : bool :=
  let n := nat_of_ascii c in (97 <=? n) && (n <=? 122).

(** [str.lower] on one character below 256: A-Z and the Latin-1 capitals
    (0xC0..0xDE but the multiplication sign 0xD7) move up by 32. *)
Definition lower_char (c : ascii) : ascii :=
  let n := nat_of_ascii c in
  if ((65 <=? n) && (n <=? 90))
     || ((192 <=? n) && (n <=? 222) && negb (n =? 215))
  then ascii_of_nat (n + 32) else c.

Fixpoint lower (s : string) : string :=
  match s with
  | EmptyString => EmptyString
  | String c s' => String (lower_char c) (lower s')
  end.

(** [s.startswith(p)], returning what follows the prefix. *)
Fixpoint strip_prefix (p s : string) : option string :=
  match p, s with
  | EmptyString, _ => Some s
  | String a p', String b s' =>
      if Ascii.eqb a b then strip_prefix p' s' else None
  | String _ _, EmptyString => None
  end.

Definition starts_with (p s : string) : bool :=
  match strip_prefix p s with Some _ => true | None => false end.

(** [needle in hay]. *)
Fixpoint contains (needle hay : string) : bool :=
  starts_with needle hay
  || match hay with
     | EmptyString => false
     | String _ hay' => contains needle hay'
     end.

(** [s.replace(old, new)] for a non-empty [old]: occurrences are replaced
    left to right and do not overlap; [skip] counts the characters of the
    occurrence just replaced that are still to be passed over. *)
Fixpoint replace_from (old new : string) (skip : nat) (s : string) : string :=
  match s with
  | EmptyString => EmptyString
  | String c s' =>
      match skip with
      | S k => replace_from old new k s'
      | O =>
          if starts_with old s
          then (new ++ replace_from old new (String.length old - 1) s')%string
          else String c (replace_from old new 0 s')
      end
  end.

Definition replace (old new s : string) : string := replace_from old new 0 s.

(** [s.lstrip()], [s.rstrip()], [s.strip()]. *)
Fixpoint lstrip (s : string) : string :=
  match s with
  | EmptyString => EmptyString
  | String c s' => if is_space c then lstrip s' else s
  end.

Fixpoint rstrip (s : string) : string :=
  match s with
  | EmptyString => EmptyString
  | String c s' =>
      match rstrip s' with
      | EmptyString => if is_space c then EmptyString else String c EmptyString
      | r => String c r
      end
  end.

Definition strip (s : string) : string := rstrip (lstrip s).

(** [s.split('\n')]: never empty, the last field may be the empty string. *)
Fixpoint split_nl (s : string) : list string :=
  match s with
  | EmptyString => [EmptyString]
  | String c s' =>
      if (nat_of_ascii c =? 10) then EmptyString :: split_nl s'
      else match split_nl s' with
           | [] => [String c EmptyString]
           | f :: fs => String c f :: fs
           end
  end.

(** Truth value of a string: non-empty. *)
Definition truthy (s : string) : bool :=
  match s with EmptyString => false | _ => true end.

Fixpoint all_chars (p : ascii -> bool) (s : string) : bool :=
  match s with
  | EmptyString => true
  | String c s' => p c && all_chars p s'
  end.

End PyStr.

(* ================================================================== *)
(** * The fragment of [re] the scraper uses, with backtracking order *)
(* ================================================================== *)

Module Re.
Import PyStr.

(** Patterns.  Repetition is only ever applied to a character class in the
    source, so [Plus] carries the class and whether it is greedy. *)
Inductive regex : Type :=
| Lit (t : string)                          (* literal text *)
| One (c : ascii -> bool)                   (* one character of a class *)
| Plus (greedy : bool) (c : ascii -> bool)  (* [X+] and [X+?] *)
| Opt (a : ascii)                           (* [a?], greedy *)
| Grp (n : nat) (r : regex)                 (* capturing group number [n] *)
| Cat (r1 r2 : regex)
| Eos.                                      (* [$] without MULTILINE *)

Definition captures := nat -> option string.

Definition no_captures : captures := fun _ => None.

Definition set_group (n : nat) (v : string) (g : captures) : captures :=
  fun m => if Nat.eqb m n then Some v else g m.

(** What was consumed between input [s] and its suffix [s']. *)
Fixpoint take (n : nat) (s : string) : string :=
  match n, s with
  | S n', String c s' => String c (take n' s')
  | _, _ => EmptyString
  end.

Definition taken (s s' : string) : string :=
  take (String.length s - String.length s') s.

Definition or_else {A} (x y : option A) : option A :=
  match x with Some _ => x | None => y end.

(** [X+]: one [X], then as many more as possible before the rest is tried. *)
Fixpoint plus_greedy {A} (c : ascii -> bool) (s : string)
         (k : string -> option A) : option A :=
  match s with
  | EmptyString => None
  | String a s' =>
      if c a then or_else (plus_greedy c s' k) (k s') else None
  end.

(** [X+?]: one [X], then the rest is tried before any further [X]. *)
Fixpoint plus_lazy {A} (c : ascii -> bool) (s : string)
         (k : string -> option A) : option A :=
  match s with
  | EmptyString => None
  | String a s' =>
      if c a then or_else (k s') (plus_lazy c s' k) else None
  end.

(** [$]: at the end, or just before a line feed that ends the string. *)
Definition at_end (s : string) : bool :=
  match s with
  | EmptyString => true
  | String c EmptyString => nat_of_ascii c =? 10
  | _ => false
  end.

(** The backtracking matcher, in continuation-passing style: [k] is the rest
    of the pattern, and the first alternative that lets [k] succeed wins. *)
Fixpoint rmatch (r : regex) (s : string) (g : captures)
         (k : string -> captures -> option captures) : option captures :=
  match r with
  | Lit t =>
      match strip_prefix t s with Some s' => k s' g | None => None end
  | One c =>
      match s with
      | String a s' => if c a then k s' g else None
      | EmptyString => None
      end
  | Plus true c => plus_greedy c s (fun s' => k s' g)
  | Plus false c => plus_lazy c s (fun s' => k s' g)
  | Opt a =>
      match s with
      | String b s' =>
          if Ascii.eqb a b then or_else (k s' g) (k s g) else k s g
      | EmptyString => k s g
      end
  | Grp n r1 => rmatch r1 s g (fun s' g' => k s' (set_group n (taken s s') g'))
  | Cat r1 r2 => rmatch r1 s g (fun s' g' => rmatch r2 s' g' k)
  | Eos => if at_end s then k s g else None
  end.

(** [re.match(pattern, s)]: anchored at the start of [s] (so a leading [^]
    adds nothing), free at its end. *)
Definition re_match (r : regex) (s : string) : option captures :=
  rmatch r s no_captures (fun _ g => Some g).

(** [m.group(n)] of a group that took part in the match. *)
Definition group (g : captures) (n : nat) : string :=
  match g n with Some v => v | None => EmptyString end.

Fixpoint groups_of (r : regex) : list nat :=
  match r with
  | Grp n r1 => n :: groups_of r1
  | Cat r1 r2 => groups_of r1 ++ groups_of r2
  | _ => []
  end.

End Re.

(* ================================================================== *)
(** * [scrap.py]: the data and the function *)
(* ================================================================== *)

Module Scrap.
Import PyStr Re.

(** ** Patterns of the segmenter *)

Notation "r1 ;; r2" := (Cat r1 r2) (at level 61, right associativity).

(** [r'^(\d+)\s+(.+?)\s+-\s+to ask the (.+?):?$'] *)
Definition question_pattern : regex :=
  Grp 1 (Plus true is_digit) ;; Plus true is_space ;;
  Grp 2 (Plus false not_newline) ;; Plus true is_space ;;
  Lit "-" ;; Plus true is_space ;; Lit "to ask the " ;;
  Grp 3 (Plus false not_newline) ;; Opt ":" ;; Eos.

(** [r'^\([a-z]\)'] *)
Definition part_pattern : regex :=
  Lit "(" ;; One is_lower_az ;; Lit ")".

Definition is_match (m : option captures) : bool :=
  match m with Some _ => true | None => false end.

(** ** Records *)

(** A question dict: the five keys set at creation and the optional
    ["question_text"] key. *)
Record Question : Type := mkQuestion {
  question_number : string;
  asked_by : string;
  minister : string;
  section : option string;
  parts : list string;
  question_text : option string
}.

(** The metadata dict: three keys set at creation ([title] may be [None]),
    four keys that the scan may add. *)
Record Metadata : Type := mkMetadata {
  title : option string;
  source_url : string;
  document_type : string;
  parliament : option string;
  session : option string;
  date : option string;
  time : option string
}.

(** The success dict (its ["status"] is ["success"]). *)
Record Document : Type := mkDocument {
  metadata : Metadata;
  questions : list Question;
  question_count : nat
}.

(** What the function returns. *)
Inductive Result : Type :=
| Success (d : Document)
| Error (message url : string).

Definition status (r : Result) : string :=
  match r with Success _ => "success" | Error _ _ => "error" end.

(** ** Line extraction *)

(** [[line.strip() for line in text_content.split('\n') if line.strip()]] *)
Definition extract_lines (text_content : string) : list string :=
  map strip (filter (fun line => truthy (strip line)) (split_nl text_content)).

(** ** Metadata scan *)

Definition set_parliament (v : string) (m : Metadata) : Metadata :=
  mkMetadata (title m) (source_url m) (document_type m)
             (Some v) (session m) (date m) (time m).
Definition set_session (v : string) (m : Metadata) : Metadata :=
  mkMetadata (title m) (source_url m) (document_type m)
             (parliament m) (Some v) (date m) (time m).
Definition set_date (v : string) (m : Metadata) : Metadata :=
  mkMetadata (title m) (source_url m) (document_type m)
             (parliament m) (session m) (Some v) (time m).
Definition set_time (v : string) (m : Metadata) : Metadata :=
  mkMetadata (title m) (source_url m) (document_type m)
             (parliament m) (session m) (date m) (Some v).

Definition has_weekday (line : string) : bool :=
  contains "MONDAY" line || contains "TUESDAY" line
  || contains "WEDNESDAY" line || contains "THURSDAY" line
  || contains "FRIDAY" line.

(** The body of [for line in lines[:20]]. *)
Definition metadata_step (m : Metadata) (line : string) : Metadata :=
  if contains "NATIONAL ASSEMBLY OF ZAMBIA" line then
    set_parliament line m
  else if contains "SESSION OF THE" line && contains "ASSEMBLY" line then
    set_session line m
  else if contains "ORDER PAPER" line && has_weekday line then
    set_date (replace "ORDER PAPER - " "" line) m
  else if contains "AT" line && contains "HOURS" line then
    set_time line m
  else m.

Definition scan_metadata (m : Metadata) (lines : list string) : Metadata :=
  fold_left metadata_step (firstn 20 lines) m.

(** ** Question segmenter *)

(** The loop variables. *)
Record seg_state : Type := mkState {
  st_questions : list Question;
  current_question : option Question;
  in_questions_section : bool;
  current_section : option string
}.

Definition initial_state : seg_state := mkState [] None false None.

(** How one pass through the loop body ends: it falls through or
    [continue]s to the next line, or [break]s. *)
Inductive flow : Type :=
| Next (s : seg_state)
| Break.

Definition is_section_start (line : string) : bool :=
  contains "QUESTIONS FOR ORAL ANSWER" line.

Definition is_terminator (line : string) : bool :=
  contains "MOTIONS" line || contains "ORDERS OF THE DAY" line
  || contains "HIS HONOUR THE VICE PRESIDENT'S QUESTION TIME" line.

(** [questions.append(current_question)] under [if current_question:]. *)
Definition flush (qs : list Question) (cq : option Question) : list Question :=
  match cq with Some q => qs ++ [q] | None => qs end.

Definition with_current (s : seg_state) (q : Question) : seg_state :=
  mkState (st_questions s) (Some q) (in_questions_section s) (current_section s).

(** [parts[-1] += " " + line]; only called on a non-empty list. *)
Fixpoint extend_last (ps : list string) (line : string) : list string :=
  match ps with
  | [] => []
  | [p] => [(p ++ " " ++ line)%string]
  | p :: ps' => p :: extend_last ps' line
  end.

(** The body under [if in_questions_section:]. *)
Definition classify (s : seg_state) (line : string) : seg_state :=
  match re_match question_pattern line with
  | Some question_match =>
      mkState (flush (st_questions s) (current_question s))
              (Some (mkQuestion (group question_match 1)
                                (strip (group question_match 2))
                                (strip (group question_match 3))
                                (current_section s)
                                []
                                None))
              (in_questions_section s) (current_section s)
  | None =>
      match current_question s with
      | None => s
      | Some q =>
          if is_match (re_match part_pattern (lower line)) then
            with_current s
              (mkQuestion (question_number q) (asked_by q) (minister q)
                          (section q) (parts q ++ [line]) (question_text q))
          else match parts q with
          | _ :: _ =>
            with_current s
              (mkQuestion (question_number q) (asked_by q) (minister q)
                          (section q) (extend_last (parts q) line)
                          (question_text q))
          | [] =>
            if negb (contains "to ask the" line) then
              with_current s
                (mkQuestion (question_number q) (asked_by q) (minister q)
                            (section q) (parts q)
                            (Some (match question_text q with
                                   | Some t => t
                                   | None => ""
                                   end ++ " " ++ line)%string))
            else s
          end
      end
  end.

(** The body of [for line in lines]. *)
Definition loop_body (s : seg_state) (line : string) : flow :=
  if is_section_start line then
    Next (mkState (st_questions s) (current_question s) true (Some line))
  else if is_terminator line && in_questions_section s then
    Break
  else if in_questions_section s then
    Next (classify s line)
  else Next s.

(** [for line in lines]: the state when the loop is left, and whether it
    was left by [break]. *)
Fixpoint for_lines (lines : list string) (s : seg_state) : seg_state * bool :=
  match lines with
  | [] => (s, false)
  | line :: rest =>
      match loop_body s line with
      | Next s' => for_lines rest s'
      | Break => (s, true)
      end
  end.

(** The clean-up loop: [del question["question_text"]] when the key is there
    and its text is blank. *)
Definition clean_question (q : Question) : Question :=
  match question_text q with
  | Some t =>
      if negb (truthy (strip t)) then
        mkQuestion (question_number q) (asked_by q) (minister q)
                   (section q) (parts q) None
      else q
  | None => q
  end.

(** From the line list to the final [questions] list. *)
Definition finish (s : seg_state) : list Question :=
  map clean_question (flush (st_questions s) (current_question s)).

Definition segment (lines : list string) : list Question :=
  finish (fst (for_lines lines initial_state)).

(** ** The outside world and the whole function *)

(** An expression that returns or raises an [Exception]. *)
Inductive outcome (A : Type) : Type :=
| Returned (a : A)
| Raised (message : string).
Arguments Returned {A} a.
Arguments Raised {A} message.

Definition bind {A B} (x : outcome A) (f : A -> outcome B) : outcome B :=
  match x with Returned a => f a | Raised m => Raised m end.

Notation "x <- e1 ;;; e2" := (bind e1 (fun x => e2))
  (at level 62, e1 at next level, right associativity).

(** What the function asks of [requests] and [BeautifulSoup]. *)
Record World : Type := mkWorld {
  (** [requests.get(url, ...)] then [raise_for_status()]: [response.text] *)
  requests_get : string -> outcome string;
  (** [soup.find('h1', id='page-title')], then its [get_text(strip=True)] *)
  find_title : string -> outcome (option string);
  (** [soup.find('div', class_='field-name-body')], then its
      [get_text('\n')] *)
  find_body : string -> outcome (option string)
}.

(** The [try] block. *)
Definition try_block (w : World) (url : string) : outcome Document :=
  html <- requests_get w url ;;;
  title <- find_title w html ;;;
  content_div <- find_body w html ;;;
  match content_div with
  | None => Raised "Could not find the main content div"
  | Some text_content =>
      let metadata0 := mkMetadata title url "Order Paper" None None None None in
      let lines := extract_lines text_content in
      let metadata := scan_metadata metadata0 lines in
      let questions := segment lines in
      Returned (mkDocument metadata questions (List.length questions))
  end.

(** [try: ... except Exception as e: return {"status": "error", ...}] *)
Definition extract_parliament_questions (w : World) (url : string) : Result :=
  match try_block w url with
  | Returned d => Success d
  | Raised m => Error m url
  end.

End Scrap.

Import PyStr Re Scrap.

(* ================================================================== *)
(** * Inputs used in the statements below *)
(* ================================================================== *)

(** The line sequence of the specification's worked example. *)
Definition spec_example : list string :=
  [ "QUESTIONS FOR ORAL ANSWER";
    "12 Mr Banda - to ask the Minister of Health:";
    "(a) What is the budget?";
    "continued here";
    "13 Mrs Phiri - to ask the Minister of Education";
    "MOTIONS" ].

Definition question_12 : Question :=
  mkQuestion "12" "Mr Banda" "Minister of Health"
             (Some "QUESTIONS FOR ORAL ANSWER")
             ["(a) What is the budget? continued here"] None.

Definition question_13 : Question :=
  mkQuestion "13" "Mrs Phiri" "Minister of Education"
             (Some "QUESTIONS FOR ORAL ANSWER") [] None.

(** The header fields the worked example is about. *)
Definition header_fields (q : Question) :=
  (question_number q, asked_by q, minister q, parts q).

(** The last line of a list that satisfies [p]. *)
Fixpoint last_such (p : string -> bool) (ls : list string) : option string :=
  match ls with
  | [] => None
  | l :: rest =>
      match last_such p rest with
      | Some x => Some x
      | None => if p l then Some l else None
      end
  end.

(** Which branch of the metadata [if]/[elif] chain a line takes. *)
Definition to_parliament (line : string) : bool :=
  contains "NATIONAL ASSEMBLY OF ZAMBIA" line.
Definition to_session (line : string) : bool :=
  negb (to_parliament line)
  && (contains "SESSION OF THE" line && contains "ASSEMBLY" line).
Definition to_date (line : string) : bool :=
  negb (to_parliament line)
  && negb (contains "SESSION OF THE" line && contains "ASSEMBLY" line)
  && (contains "ORDER PAPER" line && has_weekday line).
Definition to_time (line : string) : bool :=
  negb (to_parliament line)
  && negb (contains "SESSION OF THE" line && contains "ASSEMBLY" line)
  && negb (contains "ORDER PAPER" line && has_weekday line)
  && (contains "AT" line && contains "HOURS" line).

(** A world whose fetch fails, and one that serves a fixed page body. *)
Definition offline : World :=
  mkWorld (fun _ => Raised "connection refused")
          (fun _ => Returned None) (fun _ => Returned None).

Definition serving (title : option string) (body : option string) : World :=
  mkWorld (fun _ => Returned "<html>")
          (fun _ => Returned title) (fun _ => Returned body).

Definition newline : string := String (ascii_of_nat 10) EmptyString.

(** A page body: the worked example, one line per text line. *)
Definition example_body : string :=
  String.concat newline spec_example.

(** What [re.match(r'^\([a-z]\)', s)] decides. *)
Definition begins_part (s : string) : bool :=
  match s with
  | String a (String b (String c _)) =>
      Ascii.eqb "(" a && is_lower_az b && Ascii.eqb ")" c
  | _ => false
  end.

(** A sub-part line as the segmenter tests it:
    [re.match(r'^\([a-z]\)', p.lower())]. *)
Definition is_part_line (p : string) : bool :=
  is_match (re_match part_pattern (lower p)).

Definition parts_lettered (q : Question) : Prop :=
  Forall (fun p => is_part_line p = true) (parts q).

(** A property [P] of questions holds of the loop variables: of every
    collected question and of the open one. *)
Definition state_inv (P : Question -> Prop) (s : seg_state) : Prop :=
  Forall P (st_questions s)
  /\ forall q, current_question s = Some q -> P q.

(** The question a header match opens. *)
Definition opened (m : captures) (sec : option string) : Question :=
  mkQuestion (group m 1) (strip (group m 2)) (strip (group m 3)) sec [] None.

(** Lines in which a terminator word and the section title overlap. *)
Definition overlap_before : list string :=
  [ "QUESTIONS FOR ORAL ANSWER";
    "1 Mr Banda - to ask the Minister of Health:" ].
Definition overlap_line : string := "MOTIONS AND QUESTIONS FOR ORAL ANSWER".
Definition overlap_after : list string :=
  [ "2 Mrs Phiri - to ask the Minister of Education:" ].

(** A header line that carries a terminator word. *)
Definition header_with_terminator : string :=
  "7 Mr Zulu - to ask the Minister in charge of MOTIONS:".

(** Two lines that both name the assembly. *)
Definition assembly_line_1 : string := "NATIONAL ASSEMBLY OF ZAMBIA".
Definition assembly_line_2 : string :=
  "CLERK OF THE NATIONAL ASSEMBLY OF ZAMBIA".

Definition empty_metadata (url : string) : Metadata :=
  mkMetadata None url "Order Paper" None None None None.

(* ================================================================== *)
(** * The segmenter over all code points *)
(* ================================================================== *)

(** The header pattern is compiled without [re.ASCII], so its [\d] takes
    the decimal digits of every script, and a question number may hold
    characters above code point 255.  Here the segmenter is given over all
    code points.  The tables of the Python build ([\d], [\s] and
    [str.isspace], [str.lower]) are parameters. *)

From Stdlib Require Import NArith.

Module Wide.

(** A character is a code point; a [str] is a list of them. *)
Definition char := N.
Definition text := list char.

(** The text of a string literal of the source. *)
Definition lit (s : string) : text :=
  map N_of_ascii (list_ascii_of_string s).

Fixpoint strip_prefix (p s : text) : option text :=
  match p, s with
  | [], _ => Some s
  | a :: p', b :: s' => if N.eqb a b then strip_prefix p' s' else None
  | _ :: _, [] => None
  end.

Definition starts_with (p s : text) : bool :=
  match strip_prefix p s with Some _ => true | None => false end.

(** [needle in hay] *)
Fixpoint contains (needle hay : text) : bool :=
  starts_with needle hay
  || match hay with
     | [] => false
     | _ :: hay' => contains needle hay'
     end.

Definition truthy (s : text) : bool :=
  match s with [] => false | _ => true end.

(** [.] without DOTALL, and the class [[a-z]]. *)
Definition not_newline (c : char) : bool := negb (N.eqb c 10).
Definition is_lower_az (c : char) : bool := (N.leb 97 c) && (N.leb c 122).

Inductive regex : Type :=
| Lit (t : text)
| One (c : char -> bool)
| Plus (greedy : bool) (c : char -> bool)
| Opt (a : char)
| Grp (n : nat) (r : regex)
| Cat (r1 r2 : regex)
| Eos.

Definition captures := nat -> option text.
Definition no_captures : captures := fun _ => None.
Definition set_group (n : nat) (v : text) (g : captures) : captures :=
  fun m => if Nat.eqb m n then Some v else g m.

Definition taken (s s' : text) : text :=
  firstn (List.length s - List.length s') s.

Fixpoint plus_greedy {A} (c : char -> bool) (s : text)
         (k : text -> option A) : option A :=
  match s with
  | [] => None
  | a :: s' => if c a then Re.or_else (plus_greedy c s' k) (k s') else None
  end.

Fixpoint plus_lazy {A} (c : char -> bool) (s : text)
         (k : text -> option A) : option A :=
  match s with
  | [] => None
  | a :: s' => if c a then Re.or_else (k s') (plus_lazy c s' k) else None
  end.

(** [$]: at the end, or just before a line feed that ends the string. *)
Definition at_end (s : text) : bool :=
  match s with
  | [] => true
  | [c] => N.eqb c 10
  | _ => false
  end.

Fixpoint rmatch (r : regex) (s : text) (g : captures)
         (k : text -> captures -> option captures) : option captures :=
  match r with
  | Lit t =>
      match strip_prefix t s with Some s' => k s' g | None => None end
  | One c =>
      match s with
      | a :: s' => if c a then k s' g else None
      | [] => None
      end
  | Plus true c => plus_greedy c s (fun s' => k s' g)
  | Plus false c => plus_lazy c s (fun s' => k s' g)
  | Opt a =>
      match s with
      | b :: s' =>
          if N.eqb a b then Re.or_else (k s' g) (k s g) else k s g
      | [] => k s g
      end
  | Grp n r1 => rmatch r1 s g (fun s' g' => k s' (set_group n (taken s s') g'))
  | Cat r1 r2 => rmatch r1 s g (fun s' g' => rmatch r2 s' g' k)
  | Eos => if at_end s then k s g else None
  end.

(** [re.match(pattern, s)] *)
Definition re_match (r : regex) (s : text) : option captures :=
  rmatch r s no_captures (fun _ g => Some g).

Definition group (g : captures) (n : nat) : text :=
  match g n with Some v => v | None => [] end.

Fixpoint groups_of (r : regex) : list nat :=
  match r with
  | Grp n r1 => n :: groups_of r1
  | Cat r1 r2 => groups_of r1 ++ groups_of r2
  | _ => []
  end.

Definition is_match (m : option captures) : bool :=
  match m with Some _ => true | None => false end.

(** A question dict. *)
Record Question : Type := mkQuestion {
  question_number : text;
  asked_by : text;
  minister : text;
  section : option text;
  parts : list text;
  question_text : option text
}.

(** The loop variables. *)
Record seg_state : Type := mkState {
  st_questions : list Question;
  current_question : option Question;
  in_questions_section : bool;
  current_section : option text
}.

Definition initial_state : seg_state := mkState [] None false None.

Inductive flow : Type :=
| Next (s : seg_state)
| Break.

Definition is_section_start (line : text) : bool :=
  contains (lit "QUESTIONS FOR ORAL ANSWER") line.

Definition is_terminator (line : text) : bool :=
  contains (lit "MOTIONS") line || contains (lit "ORDERS OF THE DAY") line
  || contains (lit "HIS HONOUR THE VICE PRESIDENT'S QUESTION TIME") line.

Definition flush (qs : list Question) (cq : option Question) : list Question :=
  match cq with Some q => qs ++ [q] | None => qs end.

Definition with_current (s : seg_state) (q : Question) : seg_state :=
  mkState (st_questions s) (Some q) (in_questions_section s) (current_section s).

(** [parts[-1] += " " + line] *)
Fixpoint extend_last (ps : list text) (line : text) : list text :=
  match ps with
  | [] => []
  | [p] => [p ++ lit " " ++ line]
  | p :: ps' => p :: extend_last ps' line
  end.

Section Tables.

(** [\d]: the decimal digits of the Unicode data of the Python build. *)
Variable is_decimal : char -> bool.
(** [\s] and [str.isspace]. *)
Variable is_space : char -> bool.
(** [str.lower]. *)
Variable lower : text -> text.

(** [r'^(\d+)\s+(.+?)\s+-\s+to ask the (.+?):?$'] *)
Definition question_pattern : regex :=
  Cat (Grp 1 (Plus true is_decimal))
  (Cat (Plus true is_space)
  (Cat (Grp 2 (Plus false not_newline))
  (Cat (Plus true is_space)
  (Cat (Lit (lit "-"))
  (Cat (Plus true is_space)
  (Cat (Lit (lit "to ask the "))
  (Cat (Grp 3 (Plus false not_newline))
  (Cat (Opt 58%N) Eos)))))))).

(** [r'^\([a-z]\)'] *)
Definition part_pattern : regex :=
  Cat (Lit (lit "(")) (Cat (One is_lower_az) (Lit (lit ")"))).

Fixpoint lstrip (s : text) : text :=
  match s with
  | [] => []
  | c :: s' => if is_space c then lstrip s' else s
  end.

Fixpoint rstrip (s : text) : text :=
  match s with
  | [] => []
  | c :: s' =>
      match rstrip s' with
      | [] => if is_space c then [] else [c]
      | r => c :: r
      end
  end.

Definition strip (s : text) : text := rstrip (lstrip s).

(** The body under [if in_questions_section:]. *)
Definition classify (s : seg_state) (line : text) : seg_state :=
  match re_match question_pattern line with
  | Some question_match =>
      mkState (flush (st_questions s) (current_question s))
              (Some (mkQuestion (group question_match 1)
                                (strip (group question_match 2))
                                (strip (group question_match 3))
                                (current_section s)
                                []
                                None))
              (in_questions_section s) (current_section s)
  | None =>
      match current_question s with
      | None => s
      | Some q =>
          if is_match (re_match part_pattern (lower line)) then
            with_current s
              (mkQuestion (question_number q) (asked_by q) (minister q)
                          (section q) (parts q ++ [line]) (question_text q))
          else match parts q with
          | _ :: _ =>
            with_current s
              (mkQuestion (question_number q) (asked_by q) (minister q)
                          (section q) (extend_last (parts q) line)
                          (question_text q))
          | [] =>
            if negb (contains (lit "to ask the") line) then
              with_current s
                (mkQuestion (question_number q) (asked_by q) (minister q)
                            (section q) (parts q)
                            (Some (match question_text q with
                                   | Some t => t
                                   | None => []
                                   end ++ lit " " ++ line)))
            else s
          end
      end
  end.

(** The body of [for line in lines]. *)
Definition loop_body (s : seg_state) (line : text) : flow :=
  if is_section_start line then
    Next (mkState (st_questions s) (current_question s) true (Some line))
  else if is_terminator line && in_questions_section s then
    Break
  else if in_questions_section s then
    Next (classify s line)
  else Next s.

Fixpoint for_lines (lines : list text) (s : seg_state) : seg_state * bool :=
  match lines with
  | [] => (s, false)
  | line :: rest =>
      match loop_body s line with
      | Next s' => for_lines rest s'
      | Break => (s, true)
      end
  end.

(** The clean-up loop. *)
Definition clean_question (q : Question) : Question :=
  match question_text q with
  | Some t =>
      if negb (truthy (strip t)) then
        mkQuestion (question_number q) (asked_by q) (minister q)
                   (section q) (parts q) None
      else q
  | None => q
  end.

Definition finish (s : seg_state) : list Question :=
  map clean_question (flush (st_questions s) (current_question s)).

(** From the line list to the final [questions] list. *)
Definition segment (lines : list text) : list Question :=
  finish (fst (for_lines lines initial_state)).

(** A question number as the header pattern takes it: a non-empty run of
    characters of [\d]. *)
Definition number_is_decimal (q : Question) : Prop :=
  question_number q <> []
  /\ forallb is_decimal (question_number q) = true.

Definition numbers_are_decimal (s : seg_state) : Prop :=
  Forall number_is_decimal (st_questions s)
  /\ forall q, current_question s = Some q -> number_is_decimal q.

End Tables.

(** Tables for the examples: the digits 0-9 and the Arabic-Indic digits
    U+0660 to U+0669, the white space below 256, and lower case for A-Z. *)
Definition two_scripts_decimal (c : char) : bool :=
  (N.leb 48 c && N.leb c 57) || (N.leb 1632 c && N.leb c 1641).

Definition basic_space (c : char) : bool :=
  (N.leb 9 c && N.leb c 13) || (N.leb 28 c && N.leb c 32)
  || N.eqb c 133 || N.eqb c 160.

Definition basic_lower (s : text) : text :=
  map (fun c => if N.leb 65 c && N.leb c 90 then (c + 32)%N else c) s.

(** A header whose number is written with the Arabic-Indic digits one and
    two. *)
Definition arabic_indic_lines : list text :=
  [ lit "QUESTIONS FOR ORAL ANSWER";
    [1633%N; 1634%N] ++ lit " Mr Banda - to ask the Minister of Health:";
    lit "(a) What is the budget?" ].

Definition arabic_indic_question : Question :=
  mkQuestion [1633%N; 1634%N] (lit "Mr Banda") (lit "Minister of Health")
             (Some (lit "QUESTIONS FOR ORAL ANSWER"))
             [lit "(a) What is the budget?"] None.

End Wide.

(* ================================================================== *)
(** * [re.search] with alternation, counted repetition and [\b] *)
(* ================================================================== *)

From Stdlib Require Import ZArith DecimalString DecimalNat Permutation Sorted
  Finite.

Module Rx.
Import PyStr Re.

(** [\w] on code points below 256: what [str.isalnum] accepts, and "_". *)
Definition is_word (c : ascii) : bool :=
  let n := nat_of_ascii c in
  ((48 <=? n) && (n <=? 57)) || ((65 <=? n) && (n <=? 90))
  || ((97 <=? n) && (n <=? 122)) || (n =? 95)
  || (n =? 170) || (n =? 178) || (n =? 179) || (n =? 181)
  || (n =? 185) || (n =? 186) || ((188 <=? n) && (n <=? 190))
  || ((192 <=? n) && (n <=? 214)) || ((216 <=? n) && (n <=? 246))
  || ((248 <=? n) && (n <=? 255)).

(** The class [[A-Za-z]]. *)
Definition is_alpha_az (c : ascii) : bool :=
  let n := nat_of_ascii c in
  ((65 <=? n) && (n <=? 90)) || ((97 <=? n) && (n <=? 122)).

(** Patterns of the listing code.  Repetition is over a character class
    and greedy throughout. *)
Inductive rx : Type :=
| SLit (t : string)                         (* literal text *)
| SRep (lo hi : nat) (c : ascii -> bool)    (* [X{lo,hi}] *)
| SPlus (c : ascii -> bool)                 (* [X+] *)
| SAlt (r1 r2 : rx)                         (* [r1|r2] *)
| SGrp (n : nat) (r : rx)                   (* capturing group number [n] *)
| SCat (r1 r2 : rx)
| SWordB.                                   (* [\b] *)

(** The character before the current position, when there is one. *)
Definition before := option ascii.

Fixpoint last_of (t : string) (prev : before) : before :=
  match t with
  | EmptyString => prev
  | String c t' => last_of t' (Some c)
  end.

(** [X{lo,hi}]: as many [X] as possible up to [hi], giving one back at a
    time while at least [lo] are left. *)
Fixpoint rep_greedy {A} (c : ascii -> bool) (lo hi : nat) (prev : before)
         (s : string) (k : before -> string -> option A) : option A :=
  let stop := if lo =? 0 then k prev s else None in
  match hi with
  | O => stop
  | S hi' =>
      match s with
      | String a s' =>
          if c a
          then or_else (rep_greedy c (lo - 1) hi' (Some a) s' k) stop
          else stop
      | EmptyString => stop
      end
  end.

(** [X+] *)
Fixpoint many_greedy {A} (c : ascii -> bool) (s : string)
         (k : before -> string -> option A) : option A :=
  match s with
  | EmptyString => None
  | String a s' =>
      if c a then or_else (many_greedy c s' k) (k (Some a) s') else None
  end.

(** [\b]: exactly one of the characters around the position is a word
    character; outside the string there is none. *)
Definition at_word_boundary (prev : before) (s : string) : bool :=
  xorb (match prev with Some a => is_word a | None => false end)
       (match s with String b _ => is_word b | EmptyString => false end).

Definition kont := before -> string -> captures -> option captures.

(** The backtracking matcher: [prev] is the character before the input
    [s], [k] the rest of the pattern. *)
Fixpoint smatch (r : rx) (prev : before) (s : string) (g : captures)
         (k : kont) : option captures :=
  match r with
  | SLit t =>
      match strip_prefix t s with
      | Some s' => k (last_of t prev) s' g
      | None => None
      end
  | SRep lo hi c => rep_greedy c lo hi prev s (fun p s' => k p s' g)
  | SPlus c => many_greedy c s (fun p s' => k p s' g)
  | SAlt r1 r2 => or_else (smatch r1 prev s g k) (smatch r2 prev s g k)
  | SGrp n r1 =>
      smatch r1 prev s g (fun p s' g' => k p s' (set_group n (taken s s') g'))
  | SCat r1 r2 => smatch r1 prev s g (fun p s' g' => smatch r2 p s' g' k)
  | SWordB => if at_word_boundary prev s then k prev s g else None
  end.

Definition accept : kont := fun _ _ g => Some g.

(** [re.search(pattern, s)]: the match at the leftmost position that has
    one. *)
Fixpoint search_at (r : rx) (prev : before) (s : string) : option captures :=
  or_else (smatch r prev s no_captures accept)
          (match s with
           | String a s' => search_at r (Some a) s'
           | EmptyString => None
           end).

Definition re_search (r : rx) (s : string) : option captures :=
  search_at r None s.

Fixpoint sgroups_of (r : rx) : list nat :=
  match r with
  | SGrp n r1 => n :: sgroups_of r1
  | SCat r1 r2 | SAlt r1 r2 => sgroups_of r1 ++ sgroups_of r2
  | _ => []
  end.

(** The texts a pattern can consume. *)
Fixpoint denotes (r : rx) (w : string) : Prop :=
  match r with
  | SLit t => w = t
  | SRep lo hi c =>
      all_chars c w = true /\ lo <= String.length w <= hi
  | SPlus c => all_chars c w = true /\ w <> EmptyString
  | SAlt r1 r2 => denotes r1 w \/ denotes r2 w
  | SGrp _ r1 => denotes r1 w
  | SCat r1 r2 =>
      exists w1 w2, w = (w1 ++ w2)%string /\ denotes r1 w1 /\ denotes r2 w2
  | SWordB => w = EmptyString
  end.

End Rx.

(* ================================================================== *)
(** * [scrap.py]: years of titles and the listing pages *)
(* ================================================================== *)

Module Listing.
Import PyStr Re Rx Scrap.

(** ** [extract_year_from_title] *)

(** [(?:st|nd|rd|th)] *)
Definition ordinal : rx :=
  SAlt (SLit "st") (SAlt (SLit "nd") (SAlt (SLit "rd") (SLit "th"))).

(** [r'\d{1,2}(?:st|nd|rd|th) [A-Za-z]+, (\d{4})'] *)
Definition year_pattern_1 : rx :=
  SCat (SRep 1 2 is_digit)
  (SCat ordinal
  (SCat (SLit " ")
  (SCat (SPlus is_alpha_az)
  (SCat (SLit ", ")
        (SGrp 1 (SRep 4 4 is_digit)))))).

(** [r'\b(20\d{2})\b'] *)
Definition year_pattern_2 : rx :=
  SCat SWordB
  (SCat (SGrp 1 (SCat (SLit "20") (SRep 2 2 is_digit)))
        SWordB).

(** [r'(\d{2}) [A-Za-z]+, 20(\d{2})'] *)
Definition year_pattern_3 : rx :=
  SCat (SGrp 1 (SRep 2 2 is_digit))
  (SCat (SLit " ")
  (SCat (SPlus is_alpha_az)
  (SCat (SLit ", 20")
        (SGrp 2 (SRep 2 2 is_digit))))).

Definition patterns : list rx :=
  [year_pattern_1; year_pattern_2; year_pattern_3].

(** The body under [if match:]. *)
Definition year_of_match (m : captures) : string :=
  let year := group m 1 in
  if String.length year =? 2 then ("20" ++ year)%string else year.

(** [for pattern in patterns: ...], then [return None]. *)
Fixpoint first_year (ps : list rx) (title : string) : option string :=
  match ps with
  | [] => None
  | pattern :: rest =>
      match re_search pattern title with
      | Some m => Some (year_of_match m)
      | None => first_year rest title
      end
  end.

Definition extract_year_from_title (title : string) : option string :=
  first_year patterns title.

(** ** [int(year)] *)

(** The white space [int] passes over around a literal, below 256. *)
Definition is_int_space (c : ascii) : bool :=
  let n := nat_of_ascii c in
  ((9 <=? n) && (n <=? 13)) || (n =? 32) || (n =? 133) || (n =? 160).

Fixpoint lstrip_by (p : ascii -> bool) (s : string) : string :=
  match s with
  | EmptyString => EmptyString
  | String c s' => if p c then lstrip_by p s' else s
  end.

Fixpoint rstrip_by (p : ascii -> bool) (s : string) : string :=
  match s with
  | EmptyString => EmptyString
  | String c s' =>
      match rstrip_by p s' with
      | EmptyString => if p c then EmptyString else String c EmptyString
      | r => String c r
      end
  end.

Definition digit_value (c : ascii) : Z := Z.of_nat (nat_of_ascii c - 48).

(** Digits, with single underscores between them. *)
Fixpoint int_digits (s : string) (acc : Z) (after_digit : bool) : option Z :=
  match s with
  | EmptyString => if after_digit then Some acc else None
  | String c s' =>
      if is_digit c then int_digits s' (10 * acc + digit_value c)%Z true
      else if Ascii.eqb c "_" && after_digit then int_digits s' acc false
      else None
  end.

(** [int(s)] for a string: [None] stands for the [ValueError]. *)
Definition py_int (s : string) : option Z :=
  match rstrip_by is_int_space (lstrip_by is_int_space s) with
  | String "+" body => int_digits body 0%Z false
  | String "-" body => option_map Z.opp (int_digits body 0%Z false)
  | body => int_digits body 0%Z false
  end.

(** ** [get_order_paper_urls_all_pages] *)

Definition BASE_URL : string := "https://www.parliament.gov.zm".

(** An entry of [all_paper_links]. *)
Record PaperLink : Type := mkLink {
  link_url : string;
  link_title : string;
  link_year : string
}.

(** What the listing code asks of [requests], [BeautifulSoup] and
    [urllib]. *)
Record ListingWorld : Type := mkListingWorld {
  (** fetching and parsing a listing page, then for each element of
      [soup.select('a[href^="/node/"]')], in order, its
      [get_text(strip=True)] and its [href] *)
  get_listing : string -> outcome (list (string * string));
  (** [urljoin(base, href)] *)
  urljoin : string -> string -> outcome string;
  (** the text of the [ValueError] that [int] raises on a string *)
  int_error : string -> string
}.

Definition int_of (w : ListingWorld) (s : string) : outcome Z :=
  match py_int s with
  | Some z => Returned z
  | None => Raised (int_error w s)
  end.

(** [r"\d{1,2}(st|nd|rd|th) [A-Za-z]+, \d{4}"] *)
Definition listing_date_pattern : rx :=
  SCat (SRep 1 2 is_digit)
  (SCat (SGrp 1 ordinal)
  (SCat (SLit " ")
  (SCat (SPlus is_alpha_az)
  (SCat (SLit ", ")
        (SRep 4 4 is_digit))))).

Definition looks_like_order_paper (title : string) : bool :=
  contains "order-paper" (lower title)
  || is_match (re_search listing_date_pattern title).

(** The variables of the loop over the links of one page. *)
Record page_state : Type := mkPage {
  page_links : list PaperLink;
  earliest_year_on_page : option Z
}.

(** The body of [for link in soup.select(...)]. *)
Definition link_step (w : ListingWorld) (target_year : Z)
           (st : page_state) (link : string * string) : outcome page_state :=
  let title := fst link in
  if negb (looks_like_order_paper title) then Returned st
  else match extract_year_from_title title with
  | None => Returned st
  | Some year =>
      if negb (truthy year) then Returned st
      else
        bind (int_of w year) (fun year_int =>
        let earliest :=
          match earliest_year_on_page st with
          | None => Some year_int
          | Some e => if (year_int <? e)%Z then Some year_int else Some e
          end in
        if (year_int <? target_year)%Z
        then Returned (mkPage (page_links st) earliest)
        else
          bind (urljoin w BASE_URL (snd link)) (fun full_url =>
          Returned (mkPage (page_links st ++ [mkLink full_url title year])
                           earliest)))
  end.

Fixpoint for_links (w : ListingWorld) (target_year : Z)
         (links : list (string * string)) (st : page_state)
  : outcome page_state :=
  match links with
  | [] => Returned st
  | link :: rest =>
      bind (link_step w target_year st link)
           (fun st' => for_links w target_year rest st')
  end.

(** [base_url] for page 0, [f"{base_url}?page={page_num}"] otherwise. *)
Definition page_url (base_url : string) (page_num : nat) : string :=
  if page_num =? 0 then base_url
  else (base_url ++ "?page="
        ++ NilEmpty.string_of_uint (Nat.to_uint page_num))%string.

(** The [try] block of one page, up to [all_paper_links.extend]. *)
Definition scrape_page (w : ListingWorld) (base_url : string)
           (target_year : Z) (page_num : nat) : outcome page_state :=
  bind (get_listing w (page_url base_url page_num)) (fun links =>
  for_links w target_year links (mkPage [] None)).

(** [earliest_year_on_page and earliest_year_on_page < target_year and
    all_paper_links] *)
Definition reached_target (earliest : option Z) (target_year : Z)
           (all_paper_links : list PaperLink) : bool :=
  match earliest with
  | Some e =>
      negb (e =? 0)%Z && (e <? target_year)%Z
      && match all_paper_links with [] => false | _ => true end
  | None => false
  end.

(** How one pass through the page loop ends, with [all_paper_links]. *)
Inductive page_flow : Type :=
| NextPage (all_paper_links : list PaperLink)
| StopPaging (all_paper_links : list PaperLink).

(** The body of [for page_num in range(0, 18)]. *)
Definition page_body (w : ListingWorld) (base_url : string)
           (target_year : Z) (all_paper_links : list PaperLink)
           (page_num : nat) : page_flow :=
  match scrape_page w base_url target_year page_num with
  | Returned st =>
      let all' := all_paper_links ++ page_links st in
      if reached_target (earliest_year_on_page st) target_year all'
      then StopPaging all'
      else NextPage all'
  | Raised _ => NextPage all_paper_links
  end.

(** The page loop: [all_paper_links] when it is left, and whether it was
    left by [break]. *)
Fixpoint for_pages (w : ListingWorld) (base_url : string) (target_year : Z)
         (pages : list nat) (all_paper_links : list PaperLink)
  : list PaperLink * bool :=
  match pages with
  | [] => (all_paper_links, false)
  | page_num :: rest =>
      match page_body w base_url target_year all_paper_links page_num with
      | NextPage all' => for_pages w base_url target_year rest all'
      | StopPaging all' => (all', true)
      end
  end.

(** [sort(key=..., reverse=True)] on keyed entries: descending keys, equal
    keys in their original order. *)
Fixpoint insert_desc {A} (x : Z * A) (l : list (Z * A)) : list (Z * A) :=
  match l with
  | [] => [x]
  | y :: l' =>
      if (fst x <? fst y)%Z then y :: insert_desc x l' else x :: l
  end.

Fixpoint sort_desc {A} (l : list (Z * A)) : list (Z * A) :=
  match l with
  | [] => []
  | x :: l' => insert_desc x (sort_desc l')
  end.

(** The keys [int(x['year'])], computed before the sort moves anything. *)
Fixpoint keyed (w : ListingWorld) (l : list PaperLink)
  : outcome (list (Z * PaperLink)) :=
  match l with
  | [] => Returned []
  | x :: l' =>
      bind (int_of w (link_year x)) (fun k =>
      bind (keyed w l') (fun kl => Returned ((k, x) :: kl)))
  end.

(** The function; the page loop reads pages 0 to 17. *)
Definition get_order_paper_urls_all_pages (w : ListingWorld)
           (base_url : string) (target_year : Z) : outcome (list PaperLink) :=
  let all_paper_links :=
    fst (for_pages w base_url target_year (seq 0 18) []) in
  bind (keyed w all_paper_links) (fun kl =>
  Returned (map snd (sort_desc kl))).

End Listing.

Import Rx Listing.

(* ================================================================== *)
(** * [scrap.py]: the batch over all papers *)
(* ================================================================== *)

Module Batch.
Import PyStr Re Rx Scrap Listing.

(** The file system as the batch sees it: the paths that exist.  Writing
    a file makes its path exist and changes no other path. *)
Definition paths := list string.

(** [os.path.exists(p)] *)
Definition path_exists (fs : paths) (p : string) : bool :=
  existsb (String.eqb p) fs.

(** What is dumped into a file. *)
Inductive file_content : Type :=
| PaperJson (result : Document)
| CombinedJson (all_results : list Document).

(** What the batch asks of the outside, besides the listing and the
    paper pages. *)
Record BatchWorld : Type := mkBatchWorld {
  listing : ListingWorld;
  pages : World;
  (** [os.path.splitext] *)
  splitext : string -> string * string;
  (** the exception of [os.makedirs('datasets')], if it raises *)
  makedirs_error : paths -> option string;
  (** the exception of [open(filename, 'w')] or of [json.dump], if one
      raises *)
  open_error : paths -> string -> option string;
  (** the exception of [print(text)], if the standard output refuses the
      text (a [UnicodeEncodeError] where it cannot encode it) *)
  print_error : Wide.text -> option string
}.

(** [print(text)] *)
Definition py_print (w : BatchWorld) (text : Wide.text) : outcome unit :=
  match print_error w text with
  | None => Returned tt
  | Some msg => Raised msg
  end.

(** [ensure_datasets_folder] *)
Definition ensure_datasets_folder (w : BatchWorld) (fs : paths)
  : outcome paths :=
  if negb (path_exists fs "datasets") then
    match makedirs_error w fs with
    | None => Returned ("datasets" :: fs)
    | Some msg => Raised msg
    end
  else Returned fs.

(** [with open(filename, 'w', ...) as f: json.dump(..., f, ...)] *)
Definition write_file (w : BatchWorld) (fs : paths) (filename : string)
  : outcome paths :=
  match open_error w fs filename with
  | None => Returned (if path_exists fs filename then fs else filename :: fs)
  | Some msg => Raised msg
  end.

(** [re.sub(r'[^\w\s-]', '', s)] *)
Fixpoint keep_chars (p : ascii -> bool) (s : string) : string :=
  match s with
  | EmptyString => EmptyString
  | String c s' => if p c then String c (keep_chars p s') else keep_chars p s'
  end.

Definition is_safe_char (c : ascii) : bool :=
  is_word c || is_space c || Ascii.eqb c "-".

(** [f"{n}"] for a counter. *)
Definition decimal (n : nat) : string :=
  NilEmpty.string_of_uint (Nat.to_uint n).

(** The name under [datasets/] chosen for a result, before it is made
    unique. *)
Definition paper_filename (result : Document) (paper : PaperLink) : string :=
  let date_str :=
    replace " " "_"
      (replace "," ""
         (match date (metadata result) with Some t => t | None => "" end)) in
  let date_str :=
    if negb (truthy date_str) then
      let safe_title := keep_chars is_safe_char (link_title paper) in
      (replace " " "_" safe_title ++ "_" ++ link_year paper)%string
    else date_str in
  ("datasets/paper_" ++ date_str ++ ".json")%string.

(** [f"{base}_{counter}{ext}"] *)
Definition numbered (base_ext : string * string) (counter : nat) : string :=
  (fst base_ext ++ "_" ++ decimal counter ++ snd base_ext)%string.

(** [while os.path.exists(filename): ...], run for at most [fuel] passes:
    [None] when the passes are used up. *)
Fixpoint unique_filename (w : BatchWorld) (fs : paths)
         (original_filename : string) (fuel : nat)
         (filename : string) (counter : nat) : option string :=
  if path_exists fs filename then
    match fuel with
    | O => None
    | S fuel' =>
        unique_filename w fs original_filename fuel'
          (numbered (splitext w original_filename) counter) (S counter)
    end
  else Some filename.

(** The variables of the loop over the papers, and the files written. *)
Record batch_state : Type := mkBatch {
  fs_now : paths;
  written : list (string * file_content);
  all_results : list Document;
  successful_count : nat
}.

(** [f"{z}"] for an integer. *)
Definition decimal_Z (z : Z) : string :=
  if (z <? 0)%Z then ("-" ++ decimal (Z.to_nat (- z)))%string
  else decimal (Z.to_nat z).

(** The text of [f"Processing {i}/{len(papers)}: {paper['title']}
    (Year: {paper['year']})"]. *)
Definition processing_text (i total : nat) (paper : PaperLink) : Wide.text :=
  Wide.lit ("Processing " ++ decimal i ++ "/" ++ decimal total ++ ": "
            ++ link_title paper ++ " (Year: " ++ link_year paper ++ ")").

(** The text of [f"  ✓ Saved {len(result['questions'])} questions to
    {filename}"]; the mark is U+2713. *)
Definition saved_text (result : Document) (filename : string) : Wide.text :=
  Wide.lit "  " ++ [10003%N]
  ++ Wide.lit (" Saved " ++ decimal (List.length (questions result))
               ++ " questions to " ++ filename).

(** The text of [f"  ✗ Failed: {result['message']}"]; the mark is
    U+2717. *)
Definition failed_text (message : string) : Wide.text :=
  Wide.lit "  " ++ [10007%N] ++ Wide.lit (" Failed: " ++ message).

(** The body of [for i, paper in enumerate(papers, 1)], for a list of
    [total] papers.  The inner loop gets one pass more than there are
    paths, which is always enough. *)
Definition paper_step (w : BatchWorld) (total i : nat) (st : batch_state)
           (paper : PaperLink) : option (outcome batch_state) :=
  match py_print w (processing_text i total paper) with
  | Raised msg => Some (Raised msg)
  | Returned _ =>
      match extract_parliament_questions (pages w) (link_url paper) with
      | Success result =>
          let original_filename := paper_filename result paper in
          match unique_filename w (fs_now st) original_filename
                                (S (List.length (fs_now st)))
                                original_filename 1 with
          | None => None
          | Some filename =>
              Some (bind (write_file w (fs_now st) filename) (fun fs' =>
                    bind (py_print w (saved_text result filename)) (fun _ =>
                    Returned
                      (mkBatch fs'
                               (written st ++ [(filename, PaperJson result)])
                               (all_results st ++ [result])
                               (S (successful_count st))))))
          end
      | Error message _ =>
          Some (bind (py_print w (failed_text message)) (fun _ => Returned st))
      end
  end.

Fixpoint for_papers (w : BatchWorld) (total i : nat)
         (papers : list PaperLink) (st : batch_state)
  : option (outcome batch_state) :=
  match papers with
  | [] => Some (Returned st)
  | paper :: rest =>
      match paper_step w total i st paper with
      | None => None
      | Some (Raised msg) => Some (Raised msg)
      | Some (Returned st') => for_papers w total (S i) rest st'
      end
  end.

Definition list_url : string :=
  "https://www.parliament.gov.zm/publications/order-paper-date".

Definition combined_filename : string :=
  "datasets/all_parliament_questions.json".

(** ['=' * 60] *)
Definition rule : string := String.concat "" (repeat "=" 60).

(** [r'\d{4}'], with the whole match as group 0. *)
Definition year_in_date : rx := SGrp 0 (SRep 4 4 is_digit).

(** The loop that fills [years] from the dates of the results. *)
Fixpoint years_of (w : BatchWorld) (results : list Document)
  : outcome (list Z) :=
  match results with
  | [] => Returned []
  | result :: rest =>
      bind
        (match date (metadata result) with
         | Some d =>
             if truthy d then
               match re_search year_in_date d with
               | Some year_match =>
                   bind (int_of (listing w) (group year_match 0))
                        (fun y => Returned [y])
               | None => Returned []
               end
             else Returned []
         | None => Returned []
         end)
        (fun ys => bind (years_of w rest) (fun more => Returned (ys ++ more)))
  end.

(** [min(years)] and [max(years)] of a non-empty list. *)
Definition min_of (y : Z) (ys : list Z) : Z := fold_left Z.min ys y.
Definition max_of (y : Z) (ys : list Z) : Z := fold_left Z.max ys y.

(** The prints after the combined file is written. *)
Definition print_summary (w : BatchWorld) (n_papers : nat) (st : batch_state)
  : outcome unit :=
  let total_questions :=
    list_sum (map (fun r => List.length (questions r)) (all_results st)) in
  bind (py_print w (Wide.lit (String (ascii_of_nat 10) rule))) (fun _ =>
  bind (py_print w (Wide.lit "SCRAPING COMPLETE")) (fun _ =>
  bind (py_print w (Wide.lit rule)) (fun _ =>
  bind (py_print w (Wide.lit ("Successfully processed: "
                              ++ decimal (successful_count st) ++ "/"
                              ++ decimal n_papers ++ " papers"))) (fun _ =>
  bind (py_print w (Wide.lit ("Total questions extracted: "
                              ++ decimal total_questions))) (fun _ =>
  bind (py_print w (Wide.lit ("Combined results saved to: "
                              ++ combined_filename))) (fun _ =>
  bind (match all_results st with
        | [] => Returned tt
        | _ :: _ =>
            bind (years_of w (all_results st)) (fun years =>
            match years with
            | [] => Returned tt
            | y :: ys =>
                py_print w (Wide.lit ("Date range covered: "
                                      ++ decimal_Z (min_of y ys) ++ " - "
                                      ++ decimal_Z (max_of y ys)))
            end)
        end) (fun _ =>
  py_print w (Wide.lit "Individual papers saved in: ./datasets/ folder")))))))).

(** [process_all_papers], started on the file system [fs]: the files it
    wrote and the final loop variables, or the exception that ended it.
    Every [print] of the function is there; those inside
    [get_order_paper_urls_all_pages] are not. *)
Definition process_all_papers (w : BatchWorld) (target_year : Z) (fs : paths)
  : option (outcome batch_state) :=
  match ensure_datasets_folder w fs with
  | Raised msg => Some (Raised msg)
  | Returned fs1 =>
      match get_order_paper_urls_all_pages (listing w) list_url target_year with
      | Raised msg => Some (Raised msg)
      | Returned [] =>
          Some (bind (py_print w
                        (Wide.lit "No papers found matching the criteria"))
                     (fun _ => Returned (mkBatch fs1 [] [] 0)))
      | Returned papers =>
          match for_papers w (List.length papers) 1 papers
                           (mkBatch fs1 [] [] 0) with
          | None => None
          | Some (Raised msg) => Some (Raised msg)
          | Some (Returned st) =>
              Some (bind (write_file w (fs_now st) combined_filename)
                   (fun fs' =>
                    let st' :=
                      mkBatch fs'
                              (written st
                               ++ [(combined_filename,
                                    CombinedJson (all_results st))])
                              (all_results st)
                              (successful_count st) in
                    bind (print_summary w (List.length papers) st')
                         (fun _ => Returned st')))
          end
      end
  end.

End Batch.

Import Batch.

(** The success results among the results of the papers, in order. *)
Fixpoint successes (rs : list Result) : list Document :=
  match rs with
  | [] => []
  | Success d :: rest => d :: successes rest
  | Error _ _ :: rest => successes rest
  end.

(** A line that is not blank. *)
Definition not_blank (line : string) : Prop := truthy (strip line) = true.

(** A [question_text] that is there is not blank. *)
Definition text_not_blank (q : Question) : Prop :=
  forall t, question_text q = Some t -> truthy (strip t) = true.

(** A section title among the lines [lines]. *)
Definition section_title_of (lines : list string) (sec : option string)
  : Prop :=
  exists l, sec = Some l /\ In l lines /\ is_section_start l = true.

(** What holds of the loop variables when [Q] holds of the section title
    inside the questions section and [P] of every question. *)
Definition line_inv (Q : option string -> Prop) (P : Question -> Prop)
           (s : seg_state) : Prop :=
  (in_questions_section s = true -> Q (current_section s))
  /\ state_inv P s.

(** The three header fields of a question. *)
Definition header_of (q : Question) : string * string * string :=
  (question_number q, asked_by q, minister q).

(** The header lines the loop reads, with their three fields: the lines
    that match the header pattern, taken inside the questions section up to
    the line that breaks the loop. *)
Fixpoint headers_read (in_section : bool) (lines : list string)
  : list (string * string * string) :=
  match lines with
  | [] => []
  | line :: rest =>
      if is_section_start line then headers_read true rest
      else if is_terminator line && in_section then []
      else if in_section then
        match re_match question_pattern line with
        | Some m =>
            (group m 1, strip (group m 2), strip (group m 3))
            :: headers_read true rest
        | None => headers_read true rest
        end
      else headers_read false rest
  end.

(** A page body whose question runs on before its first part. *)
Definition running_body : string :=
  String.concat newline
    [ "QUESTIONS FOR ORAL ANSWER";
      "12 Mr Banda - to ask the Minister of Health:";
      "whether the budget is ready";
      "(a) and when" ].

Definition running_question : Question :=
  mkQuestion "12" "Mr Banda" "Minister of Health"
             (Some "QUESTIONS FOR ORAL ANSWER")
             ["(a) and when"] (Some " whether the budget is ready").

(** A pattern without its capturing groups. *)
Fixpoint ungroup (r : rx) : rx :=
  match r with
  | SGrp _ r1 => ungroup r1
  | SCat r1 r2 => SCat (ungroup r1) (ungroup r2)
  | SAlt r1 r2 => SAlt (ungroup r1) (ungroup r2)
  | _ => r
  end.

Definition is_some {A} (o : option A) : bool :=
  match o with Some _ => true | None => false end.

(** A character that is neither a space nor a comma. *)
Definition plain_char (c : ascii) : bool :=
  negb (Ascii.eqb c " ") && negb (Ascii.eqb c ",").

(** A part that starts with a whole sub-part line of [lines]. *)
Definition starts_with_part_line (lines : list string) (p : string) : Prop :=
  exists line rest,
    In line lines /\ is_part_line line = true /\ p = (line ++ rest)%string.

(** The results of extracting the papers, in order. *)
Definition results_of (w : BatchWorld) (papers : list PaperLink)
  : list Result :=
  map (fun paper => extract_parliament_questions (pages w) (link_url paper))
      papers.

(** What the loop over the papers keeps true, for a start on the paths
    [fs0]: every success so far has its own file, whose name was free. *)
Definition batch_inv (fs0 : paths) (st : batch_state) : Prop :=
  incl fs0 (fs_now st)
  /\ successful_count st = List.length (all_results st)
  /\ exists names,
       List.length names = List.length (all_results st)
       /\ written st = combine names (map PaperJson (all_results st))
       /\ NoDup names
       /\ incl names (fs_now st)
       /\ forall f, In f names -> ~ In f fs0.

(** An exception that comes from creating the folder, from writing a file
    or from a print. *)
Definition from_outside (w : BatchWorld) (msg : string) : Prop :=
  (exists fs', makedirs_error w fs' = Some msg)
  \/ (exists fs' f, open_error w fs' f = Some msg)
  \/ (exists text, print_error w text = Some msg).

(** The names of the per-paper files among the files written. *)
Fixpoint paper_files (fl : list (string * file_content)) : list string :=
  match fl with
  | [] => []
  | (f, PaperJson _) :: rest => f :: paper_files rest
  | (_, CombinedJson _) :: rest => paper_files rest
  end.

(** [posixpath.splitext]: the extension starts at the last dot of the last
    component, unless only dots stand before it there. *)
Fixpoint rfind_from (c : ascii) (s : string) (i : nat) (found : option nat)
  : option nat :=
  match s with
  | EmptyString => found
  | String a s' =>
      rfind_from c s' (S i) (if Ascii.eqb a c then Some i else found)
  end.

Definition posix_splitext (p : string) : string * string :=
  match rfind_from "." p 0 None with
  | None => (p, EmptyString)
  | Some dotIndex =>
      let first := match rfind_from "/" p 0 None with
                   | Some sepIndex => S sepIndex
                   | None => 0
                   end in
      if (first <=? dotIndex)
         && negb (all_chars (Ascii.eqb ".")
                            (substring first (dotIndex - first) p))
      then (substring 0 dotIndex p,
            substring dotIndex (String.length p - dotIndex) p)
      else (p, EmptyString)
  end.

(** A listing of three papers, two of them of the same day. *)
Definition demo_batch_listing : ListingWorld :=
  mkListingWorld
    (fun u =>
       if String.eqb u list_url then
         Returned [ ("Order Paper - Tuesday, 3rd March, 2020", "/node/3");
                    ("Order Paper - Friday, 21st June, 2024", "/node/1");
                    ("Order Paper - Friday, 21st June, 2024", "/node/2") ]
       else Returned [])
    (fun b h => Returned (b ++ h)%string)
    (fun t => t).

(** The worked example under a dated heading. *)
Definition demo_body : string :=
  ("ORDER PAPER - FRIDAY, 21ST JUNE, 2024" ++ newline ++ example_body)%string.

(** A batch world: that listing, pages that all carry [demo_body] but for
    one that cannot be fetched, and a file system that accepts every
    write. *)
Definition demo_batch : BatchWorld :=
  mkBatchWorld
    demo_batch_listing
    (mkWorld (fun url =>
                if String.eqb url "https://www.parliament.gov.zm/node/1"
                then Raised "503 Server Error" else Returned "<html>")
             (fun _ => Returned (Some "Order Paper"))
             (fun _ => Returned (Some demo_body)))
    posix_splitext
    (fun _ => None)
    (fun _ _ => None)
    (fun _ => None).

(** A file system where a paper of that day is already stored. *)
Definition demo_fs : paths :=
  ["datasets"; "datasets/paper_FRIDAY_21ST_JUNE_2024.json"].

(** The same world with a standard output that encodes ASCII only. *)
Definition demo_batch_ascii_stdout : BatchWorld :=
  mkBatchWorld
    (listing demo_batch) (pages demo_batch) (splitext demo_batch)
    (makedirs_error demo_batch) (open_error demo_batch)
    (fun text =>
       if forallb (fun c => N.leb c 127) text then None
       else Some "UnicodeEncodeError").

(** The state in which the batch ends on that world and file system. *)
Definition demo_batch_end : batch_state :=
  match process_all_papers demo_batch 2006%Z demo_fs with
  | Some (Returned st) => st
  | _ => mkBatch [] [] [] 0
  end.

(** The value of a string of digits, read left to right from [acc]. *)
Fixpoint digits_from (s : string) (acc : Z) : Z :=
  match s with
  | EmptyString => acc
  | String c s' => digits_from s' (10 * acc + digit_value c)%Z
  end.

(** A string of exactly four decimal digits. *)
Definition four_digits (y : string) : Prop :=
  String.length y = 4 /\ all_chars is_digit y = true.

(** The sort key of an entry: [int] of its year (0 where [int] fails). *)
Definition year_key (x : PaperLink) : Z :=
  match py_int (link_year x) with Some z => z | None => 0%Z end.

(** [all_paper_links] when the page loop is left. *)
Definition collected (w : ListingWorld) (base_url : string) (target_year : Z)
  : list PaperLink :=
  fst (for_pages w base_url target_year (seq 0 18) []).

(** What holds of every entry the page loop appends. *)
Definition link_ok (target_year : Z) (x : PaperLink) : Prop :=
  four_digits (link_year x)
  /\ extract_year_from_title (link_title x) = Some (link_year x)
  /\ looks_like_order_paper (link_title x) = true
  /\ (target_year <= year_key x)%Z.

(** Newest first. *)
Definition newest_first (a b : PaperLink) : Prop :=
  (year_key b <= year_key a)%Z.

Definition desc {A} (a b : Z * A) : Prop := (fst b <= fst a)%Z.

(** The entries of a given year, in the order of the list. *)
Definition of_year (y : Z) (l : list PaperLink) : list PaperLink :=
  filter (fun x => (year_key x =? y)%Z) l.


(** Two worlds that give the same answers on the first [n] pages. *)
Definition same_pages (w1 w2 : ListingWorld) (base_url : string) (n : nat)
  : Prop :=
  (forall k, k < n ->
     get_listing w1 (page_url base_url k) = get_listing w2 (page_url base_url k))
  /\ (forall b h, urljoin w1 b h = urljoin w2 b h)
  /\ (forall t, int_error w1 t = int_error w2 t).

(** A listing of three pages: two order papers and another link, then a
    page that cannot be fetched, then a page with a paper of 2005; every
    other address gives an empty page. *)
Definition demo_listing : ListingWorld :=
  mkListingWorld
    (fun u =>
       if String.eqb u "L" then
         Returned [ ("Order Paper - Tuesday, 3rd March, 2020", "/node/3");
                    ("About the Assembly", "/node/2");
                    ("Order Paper - Friday, 21st June, 2024", "/node/1") ]
       else if String.eqb u "L?page=1" then Raised "timed out"
       else if String.eqb u "L?page=2" then
         Returned [ ("order-paper 2005", "/node/9") ]
       else Returned [])
    (fun b h => Returned (b ++ h)%string)
    (fun t => ("invalid literal for int(): " ++ t)%string).

(** The same listing with one more paper on a later page. *)
Definition demo_listing_longer : ListingWorld :=
  mkListingWorld
    (fun u =>
       if String.eqb u "L?page=5" then
         Returned [ ("Order Paper - Monday, 1st July, 2024", "/node/50") ]
       else get_listing demo_listing u)
    (urljoin demo_listing) (int_error demo_listing).

(** The same listing with a paper at an address the page loop never
    asks for. *)
Definition demo_listing_elsewhere : ListingWorld :=
  mkListingWorld
    (fun u =>
       if String.eqb u "L?page=18" then
         Returned [ ("Order Paper - Monday, 1st July, 2024", "/node/50") ]
       else get_listing demo_listing u)
    (urljoin demo_listing) (int_error demo_listing).

Definition paper_2024 : PaperLink :=
  mkLink "https://www.parliament.gov.zm/node/1"
         "Order Paper - Friday, 21st June, 2024" "2024".

Definition paper_2020 : PaperLink :=
  mkLink "https://www.parliament.gov.zm/node/3"
         "Order Paper - Tuesday, 3rd March, 2020" "2020".

(** One of "st", "nd", "rd", "th". *)
Definition is_ordinal (t : string) : Prop :=
  t = "st" \/ t = "nd" \/ t = "rd" \/ t = "th".

(* ================================================================== *)
(** * Lemmas on strings and on the matcher *)
(* ================================================================== *)

Section MatcherFacts.

Lemma or_else_Some {A} (x y : option A) (r : A) :
  or_else x y = Some r -> x = Some r \/ y = Some r.
Proof. destruct x; simpl; auto. Qed.

Lemma length_app (a b : string) :
  String.length (a ++ b) = String.length a + String.length b.
Proof. induction a as [|c a IH]; simpl; [reflexivity|]. now rewrite IH. Qed.

Lemma take_app (pre s' : string) :
  take (String.length pre) (pre ++ s') = pre.
Proof.
  induction pre as [|c pre IH]; simpl.
  - destruct s'; reflexivity.
  - now rewrite IH.
Qed.

Lemma taken_app (pre s' : string) : taken (pre ++ s')%string s' = pre.
Proof.
  unfold taken. rewrite length_app.
  replace (String.length pre + String.length s' - String.length s')
    with (String.length pre) by lia.
  apply take_app.
Qed.

(** A successful [X+] consumed a non-empty run of the class and then let
    the rest of the pattern succeed. *)
Lemma plus_greedy_inv {A} c s (k : string -> option A) r :
  plus_greedy c s k = Some r ->
  exists pre s', s = (pre ++ s')%string /\ pre <> EmptyString /\
                 all_chars c pre = true /\ k s' = Some r.
Proof.
  revert r. induction s as [|a s IH]; simpl; intros r H; [discriminate|].
  destruct (c a) eqn:Ca; [|discriminate].
  apply or_else_Some in H. destruct H as [H|H].
  - destruct (IH _ H) as (pre & s' & -> & _ & Hall & Hk).
    exists (String a pre), s'. simpl. rewrite Ca, Hall.
    repeat split; auto; discriminate.
  - exists (String a EmptyString), s. simpl. rewrite Ca.
    repeat split; auto; discriminate.
Qed.

Lemma plus_lazy_inv {A} c s (k : string -> option A) r :
  plus_lazy c s k = Some r ->
  exists pre s', s = (pre ++ s')%string /\ pre <> EmptyString /\
                 all_chars c pre = true /\ k s' = Some r.
Proof.
  revert r. induction s as [|a s IH]; simpl; intros r H; [discriminate|].
  destruct (c a) eqn:Ca; [|discriminate].
  apply or_else_Some in H. destruct H as [H|H].
  - exists (String a EmptyString), s. simpl. rewrite Ca.
    repeat split; auto; discriminate.
  - destruct (IH _ H) as (pre & s' & -> & _ & Hall & Hk).
    exists (String a pre), s'. simpl. rewrite Ca, Hall.
    repeat split; auto; discriminate.
Qed.

(** A successful match of [r] reaches its continuation, and on the way only
    the groups of [r] are written. *)
Lemma rmatch_frame r : forall s g k res,
  rmatch r s g k = Some res ->
  exists s' g', k s' g' = Some res /\
                forall n, ~ In n (groups_of r) -> g' n = g n.
Proof.
  induction r as [t|c|b c|a|n r1 IH|r1 IH1 r2 IH2|]; simpl; intros s g k res H.
  - destruct (strip_prefix t s) as [s'|]; [|discriminate]. eauto.
  - destruct s as [|a s']; [discriminate|].
    destruct (c a); [|discriminate]. eauto.
  - destruct b.
    + apply plus_greedy_inv in H. destruct H as (_ & s' & _ & _ & _ & Hk). eauto.
    + apply plus_lazy_inv in H. destruct H as (_ & s' & _ & _ & _ & Hk). eauto.
  - destruct s as [|b s']; [eauto|].
    destruct (Ascii.eqb a b); [|eauto].
    apply or_else_Some in H. destruct H; eauto.
  - apply IH in H. destruct H as (s' & g' & Hk & Hg).
    exists s', (set_group n (taken s s') g'). split; [exact Hk|].
    intros m Hm. unfold set_group.
    destruct (Nat.eqb_spec m n) as [->|Hne]; [exfalso; apply Hm; now left|].
    apply Hg. intro Hin. apply Hm. now right.
  - apply IH1 in H. destruct H as (s1 & g1 & H & Hg1).
    apply IH2 in H. destruct H as (s2 & g2 & H & Hg2).
    exists s2, g2. split; [exact H|].
    intros n Hn. rewrite Hg2, Hg1; auto; intro Hin; apply Hn;
      apply in_or_app; auto.
  - destruct (at_end s); [|discriminate]. eauto.
Qed.

(** When a pattern opens with a group around [X+] whose number no later
    group reuses, that group of a match is a non-empty run of [X]. *)
Lemma leading_group_run n b c tail s m :
  ~ In n (groups_of tail) ->
  re_match (Cat (Grp n (Plus b c)) tail) s = Some m ->
  group m n <> EmptyString /\ all_chars c (group m n) = true.
Proof.
  intros Hn H. unfold re_match in H. cbn [rmatch] in H.
  assert (Hrun : exists pre s', s = (pre ++ s')%string /\ pre <> EmptyString /\
             all_chars c pre = true /\
             rmatch tail s' (set_group n (taken s s') no_captures)
                    (fun _ g => Some g) = Some m).
  { destruct b; [apply plus_greedy_inv in H | apply plus_lazy_inv in H];
      destruct H as (pre & s' & E & Hne & Hall & H); eauto 8. }
  destruct Hrun as (pre & s' & -> & Hne & Hall & Ht).
  rewrite taken_app in Ht.
  apply rmatch_frame in Ht. destruct Ht as (s2 & g2 & Hk & Hg).
  injection Hk as <-.
  unfold group. rewrite (Hg n Hn). unfold set_group.
  rewrite Nat.eqb_refl. auto.
Qed.

Lemma part_pattern_spec s :
  is_match (re_match part_pattern s) = begins_part s.
Proof.
  unfold re_match, part_pattern.
  destruct s as [|a [|b [|c s]]];
    cbn [rmatch strip_prefix begins_part is_match]; try reflexivity;
    destruct (Ascii.eqb "(" a);
    cbn [rmatch strip_prefix is_match andb]; try reflexivity;
    destruct (is_lower_az b);
    cbn [rmatch strip_prefix is_match andb]; try reflexivity;
    destruct (Ascii.eqb ")" c); reflexivity.
Qed.

Lemma lower_app a b : lower (a ++ b) = (lower a ++ lower b)%string.
Proof. induction a as [|c a IH]; simpl; [reflexivity|]. now rewrite IH. Qed.

Lemma begins_part_app s t :
  begins_part s = true -> begins_part (s ++ t) = true.
Proof.
  destruct s as [|a [|b [|c s]]]; cbn [begins_part append];
    try discriminate; auto.
Qed.

(** Once a line starts like a sub-part, text added at its end does not
    change that. *)
Lemma part_match_extend p t :
  is_match (re_match part_pattern (lower p)) = true ->
  is_match (re_match part_pattern (lower (p ++ t))) = true.
Proof.
  rewrite !part_pattern_spec, lower_app. apply begins_part_app.
Qed.

End MatcherFacts.

(* ================================================================== *)
(** * Lemmas on the loop *)
(* ================================================================== *)

Section LoopFacts.

Lemma for_lines_break a b s s' :
  for_lines a s = (s', true) -> for_lines (a ++ b) s = (s', true).
Proof.
  revert s. induction a as [|l a IH]; simpl; intros s H; [discriminate|].
  destruct (loop_body s l); auto.
Qed.

Lemma for_lines_next a b s s' :
  for_lines a s = (s', false) -> for_lines (a ++ b) s = for_lines b s'.
Proof.
  revert s. induction a as [|l a IH]; simpl; intros s H.
  - now injection H as ->.
  - destruct (loop_body s l); [auto|discriminate].
Qed.

(** Outside the questions section a line that is not the section title
    leaves every loop variable as it was. *)
Lemma loop_body_outside s line :
  in_questions_section s = false -> is_section_start line = false ->
  loop_body s line = Next s.
Proof.
  intros Hs Hl. unfold loop_body. rewrite Hl, Hs, andb_false_r. reflexivity.
Qed.

Lemma for_lines_outside pre s :
  in_questions_section s = false ->
  Forall (fun l => is_section_start l = false) pre ->
  for_lines pre s = (s, false).
Proof.
  intros Hs Hpre. induction Hpre as [|l pre Hl _ IH]; simpl; [reflexivity|].
  rewrite (loop_body_outside s l Hs Hl). exact IH.
Qed.

(** Inside the section a terminator line that is not the section title
    breaks. *)
Lemma loop_body_terminator s t :
  in_questions_section s = true -> is_terminator t = true ->
  is_section_start t = false -> loop_body s t = Break.
Proof.
  intros Hs Ht Hn. unfold loop_body. rewrite Hn, Ht, Hs. reflexivity.
Qed.

(** Inside the section a header line that is neither the section title nor
    a terminator flushes the open question and opens the new one. *)
Lemma loop_body_header s line m :
  in_questions_section s = true ->
  re_match question_pattern line = Some m ->
  is_section_start line = false -> is_terminator line = false ->
  loop_body s line =
  Next (mkState (flush (st_questions s) (current_question s))
                (Some (opened m (current_section s)))
                true (current_section s)).
Proof.
  intros Hs Hm Hn Ht. unfold loop_body, classify.
  rewrite Hn, Ht, Hs, Hm. reflexivity.
Qed.

End LoopFacts.

(** ** Properties every emitted question inherits *)

Section QuestionInvariant.

Variable P : Question -> Prop.

Hypothesis P_opened : forall line m sec,
  re_match question_pattern line = Some m -> P (opened m sec).
Hypothesis P_part : forall q line,
  P q -> is_part_line line = true ->
  P (mkQuestion (question_number q) (asked_by q) (minister q) (section q)
                (parts q ++ [line]) (question_text q)).
Hypothesis P_continued : forall q line,
  P q ->
  P (mkQuestion (question_number q) (asked_by q) (minister q) (section q)
                (extend_last (parts q) line) (question_text q)).
Hypothesis P_text : forall q t,
  P q ->
  P (mkQuestion (question_number q) (asked_by q) (minister q) (section q)
                (parts q) t).

Lemma flush_inv s : state_inv P s -> Forall P (flush (st_questions s) (current_question s)).
Proof.
  intros [Hq Hc]. unfold flush. destruct (current_question s) as [q|]; auto.
  apply Forall_app. split; auto.
Qed.

Lemma classify_inv s line : state_inv P s -> state_inv P (classify s line).
Proof.
  intros Hs. pose proof (flush_inv s Hs) as Hf. destruct Hs as [Hq Hc].
  unfold classify.
  destruct (re_match question_pattern line) as [m|] eqn:Hm.
  - split; simpl; [exact Hf|]. intros q [= <-]. eapply P_opened; eauto.
  - destruct (current_question s) as [q|] eqn:Hcur; [|split; auto; congruence].
    specialize (Hc q eq_refl).
    change (is_match (re_match part_pattern (lower line)))
      with (is_part_line line).
    destruct (is_part_line line) eqn:Hp.
    + split; simpl; auto. intros q' [= <-]. now apply P_part.
    + destruct (parts q) as [|p ps] eqn:Hps.
      * destruct (contains "to ask the" line); simpl.
        -- split; auto. intros q' Hq'. rewrite Hcur in Hq'.
           now injection Hq' as <-.
        -- split; simpl; auto. intros q' [= <-].
           rewrite <- Hps. now apply P_text.
      * rewrite <- Hps. split; cbn [with_current st_questions current_question]; auto.
        intros q' [= <-]. now apply P_continued.
Qed.

Lemma loop_body_inv s line s' :
  state_inv P s -> loop_body s line = Next s' -> state_inv P s'.
Proof.
  intros Hs. unfold loop_body.
  destruct (is_section_start line).
  - intros [= <-]. exact Hs.
  - destruct (is_terminator line && in_questions_section s); [discriminate|].
    destruct (in_questions_section s); intros [= <-];
      [now apply classify_inv | exact Hs].
Qed.

Lemma for_lines_inv lines : forall s,
  state_inv P s -> state_inv P (fst (for_lines lines s)).
Proof.
  induction lines as [|l lines IH]; simpl; intros s Hs; [exact Hs|].
  destruct (loop_body s l) as [s'|] eqn:Hl; [|exact Hs].
  apply IH. eapply loop_body_inv; eauto.
Qed.

Lemma clean_question_inv q : P q -> P (clean_question q).
Proof.
  intro Hq. unfold clean_question.
  destruct (question_text q) as [t|]; [|exact Hq].
  destruct (negb (truthy (strip t))); [|exact Hq]. now apply P_text.
Qed.

Lemma segment_inv lines q : In q (segment lines) -> P q.
Proof.
  unfold segment, finish. intro Hin.
  apply in_map_iff in Hin. destruct Hin as (q0 & <- & Hin).
  apply clean_question_inv.
  assert (Hs : state_inv P (fst (for_lines lines initial_state))).
  { apply for_lines_inv. split; simpl; [constructor|discriminate]. }
  apply flush_inv in Hs. rewrite Forall_forall in Hs. now apply Hs.
Qed.

End QuestionInvariant.

Section QuestionFacts.

Lemma extend_last_lettered ps line :
  Forall (fun p => is_part_line p = true) ps ->
  Forall (fun p => is_part_line p = true) (extend_last ps line).
Proof.
  induction ps as [|p ps IH]; intro H; [constructor|].
  inversion H as [|? ? Hp Hps]; subst.
  destruct ps as [|p' ps].
  - simpl. constructor; [|constructor].
    unfold is_part_line in *. now apply part_match_extend.
  - change (extend_last (p :: p' :: ps) line)
      with (p :: extend_last (p' :: ps) line).
    constructor; auto.
Qed.

(** [parts[-1] += " " + line] rewrites the last element and no other. *)
Lemma extend_last_shape ps line :
  ps <> [] ->
  extend_last ps line
  = removelast ps ++ [(last ps EmptyString ++ " " ++ line)%string].
Proof.
  induction ps as [|p ps IH]; intro H; [contradiction|].
  destruct ps as [|p' ps]; [reflexivity|].
  change (extend_last (p :: p' :: ps) line)
    with (p :: extend_last (p' :: ps) line).
  rewrite IH by discriminate. reflexivity.
Qed.

(** How a line that is not a header changes the parts of the open
    question: a sub-part line is appended, any other line is joined to the
    last part, or the parts stay as they are. *)
Lemma classify_parts s line q' :
  re_match question_pattern line = None ->
  current_question (classify s line) = Some q' ->
  exists q,
    current_question s = Some q
    /\ ((is_part_line line = true /\ parts q' = parts q ++ [line])
        \/ (is_part_line line = false /\ parts q <> []
            /\ parts q' = removelast (parts q)
                          ++ [(last (parts q) EmptyString ++ " " ++ line)%string])
        \/ (is_part_line line = false /\ parts q = [] /\ parts q' = [])).
Proof.
  intros Hm. unfold classify. rewrite Hm.
  destruct (current_question s) as [q|] eqn:Hcur; [|congruence].
  change (is_match (re_match part_pattern (lower line)))
    with (is_part_line line).
  destruct (is_part_line line) eqn:Hp.
  - intros [= <-]. exists q. split; auto.
  - destruct (parts q) as [|p ps] eqn:Hps.
    + destruct (contains "to ask the" line); simpl.
      * rewrite Hcur. intros [= <-]. exists q. rewrite Hps.
        split; [reflexivity|]. right; right; auto.
      * intros [= <-]. exists q. simpl. rewrite Hps.
        split; [reflexivity|]. right; right; auto.
    + rewrite <- Hps. cbn [with_current current_question].
      intros [= <-]. exists q. split; auto. right; left.
      cbn [parts]. split; [reflexivity|]. split; [congruence|].
      apply extend_last_shape. congruence.
Qed.

(** Every emitted question has only lettered parts. *)
Lemma segment_parts_lettered lines q :
  In q (segment lines) -> parts_lettered q.
Proof.
  apply segment_inv; unfold parts_lettered; simpl.
  - constructor.
  - intros q0 line Hq Hl. apply Forall_app. split; auto.
  - intros q0 line Hq. now apply extend_last_lettered.
  - auto.
Qed.

(** Without a section title no question is emitted. *)
Lemma segment_no_section lines :
  Forall (fun l => is_section_start l = false) lines -> segment lines = [].
Proof.
  intro H. unfold segment.
  rewrite (for_lines_outside lines initial_state eq_refl H). reflexivity.
Qed.

(** The scan keeps, per field, the last line that took the field's branch. *)
Lemma scan_fold ls : forall m,
  let r := fold_left metadata_step ls m in
  parliament r = or_else (last_such to_parliament ls) (parliament m)
  /\ session r = or_else (last_such to_session ls) (session m)
  /\ date r = or_else (option_map (replace "ORDER PAPER - " "")
                                  (last_such to_date ls)) (date m)
  /\ time r = or_else (last_such to_time ls) (time m).
Proof.
  induction ls as [|l ls IH]; intro m; [simpl; auto|].
  cbn [fold_left last_such]. cbv zeta in *.
  destruct (IH (metadata_step m l)) as (Hp & Hs & Hd & Ht).
  rewrite Hp, Hs, Hd, Ht. clear IH Hp Hs Hd Ht.
  unfold metadata_step, to_time, to_date, to_session, to_parliament.
  destruct (last_such _ ls), (last_such _ ls), (last_such _ ls), (last_such _ ls);
    destruct (contains "NATIONAL ASSEMBLY OF ZAMBIA" l);
    destruct (contains "SESSION OF THE" l && contains "ASSEMBLY" l);
    destruct (contains "ORDER PAPER" l && has_weekday l);
    destruct (contains "AT" l && contains "HOURS" l);
    cbn -[replace]; auto.
Qed.

End QuestionFacts.

(* ================================================================== *)
(** * The worked example *)
(* ================================================================== *)

(** C1, as the code behaves: on the worked example the segmenter yields
    exactly two questions, number 12 asked by "Mr Banda" of the
    "Minister of Health" with the single part
    "(a) What is the budget? continued here", and number 13 asked by
    "Mrs Phiri" of the "Minister of Education" with no parts; the [minister]
    field is everything after "to ask the ".  The loop runs through the five
    lines before "MOTIONS" and is left by [break] at "MOTIONS", so whatever
    follows that line changes nothing. *)
Theorem C1_example_keeps_full_minister_title :
  segment spec_example = [question_12; question_13]
  /\ snd (for_lines (removelast spec_example) initial_state) = false
  /\ snd (for_lines spec_example initial_state) = true
  /\ forall rest, segment (spec_example ++ rest) = [question_12; question_13].
Proof.
  assert (H : for_lines spec_example initial_state
              = (mkState [question_12] (Some question_13) true
                         (Some "QUESTIONS FOR ORAL ANSWER"), true))
    by (vm_compute; reflexivity).
  split; [|split; [|split]].
  - vm_compute; reflexivity.
  - vm_compute; reflexivity.
  - now rewrite H.
  - intro rest. unfold segment.
    rewrite (for_lines_break _ rest _ _ H). reflexivity.
Qed.

(** C1, as stated, fails: the header fields of the two questions are not
    ("12", "Mr Banda", "Health", ...) and ("13", "Mrs Phiri", "Education",
    []). *)
Lemma C1_example_minister_is_not_bare_portfolio :
  map header_fields (segment spec_example)
  <> [ ("12", "Mr Banda", "Health",
        ["(a) What is the budget? continued here"]);
       ("13", "Mrs Phiri", "Education", []) ].
Proof.
  intro H. vm_compute in H. discriminate H.
Qed.

(* ================================================================== *)
(** * Leaving the questions section *)
(* ================================================================== *)

(** C2, as the code behaves: when the loop has reached a line [t] without
    breaking and is in the questions section, and [t] contains "MOTIONS",
    "ORDERS OF THE DAY" or "HIS HONOUR THE VICE PRESIDENT'S QUESTION TIME"
    and does not contain "QUESTIONS FOR ORAL ANSWER", the loop breaks at
    [t] with its variables untouched; the result is the questions collected
    so far with the open question, if any, appended, and it is the same
    whatever lines follow [t]. *)
Theorem C2_terminator_breaks_and_flushes
        (before : list string) (t : string) (after : list string)
        (s : seg_state) :
  for_lines before initial_state = (s, false) ->
  in_questions_section s = true ->
  is_terminator t = true ->
  is_section_start t = false ->
  for_lines (before ++ t :: after) initial_state = (s, true)
  /\ segment (before ++ t :: after)
     = map clean_question (flush (st_questions s) (current_question s))
  /\ segment (before ++ t :: after) = segment before.
Proof.
  intros Hrun Hin Ht Hn.
  assert (H : for_lines (before ++ t :: after) initial_state = (s, true)).
  { rewrite (for_lines_next _ _ _ _ Hrun). simpl.
    now rewrite (loop_body_terminator s t Hin Ht Hn). }
  split; [exact H|].
  unfold segment, finish. rewrite H, Hrun. split; reflexivity.
Qed.

Lemma C2_terminator_breaks_and_flushes_witness :
  segment (removelast spec_example ++ "MOTIONS" :: overlap_after)
  = segment (removelast spec_example).
Proof.
  refine (proj2 (proj2
    (C2_terminator_breaks_and_flushes
       (removelast spec_example) "MOTIONS" overlap_after
       (fst (for_lines (removelast spec_example) initial_state))
       _ _ _ _))); vm_compute; reflexivity.
Defined.

(** C2, as stated, fails: in the questions section, a line that contains
    "MOTIONS" and also "QUESTIONS FOR ORAL ANSWER" does not end
    segmentation, and the header after it adds a question. *)
Lemma C2_terminator_inside_section_title_goes_on :
  in_questions_section (fst (for_lines overlap_before initial_state)) = true
  /\ snd (for_lines overlap_before initial_state) = false
  /\ is_terminator overlap_line = true
  /\ snd (for_lines (overlap_before ++ overlap_line :: overlap_after)
                    initial_state) = false
  /\ List.length (segment (overlap_before ++ overlap_line :: overlap_after)) = 2
  /\ segment (overlap_before ++ overlap_line :: overlap_after)
     <> segment (overlap_before ++ [overlap_line]).
Proof.
  do 5 (split; [vm_compute; reflexivity|]).
  intro H. vm_compute in H. discriminate H.
Qed.

(* ================================================================== *)
(** * Header lines *)
(* ================================================================== *)

(** C3, as the code behaves: when the loop has reached a line without
    breaking and is in the questions section, and the line matches the
    header pattern and contains neither "QUESTIONS FOR ORAL ANSWER" nor a
    terminator phrase, the line opens a new question with empty parts: the
    question that was open, if any, is appended to [questions] first,
    whatever its parts, and the new one follows it in the result. *)
Theorem C3_header_flushes_and_opens
        (before : list string) (line : string) (after : list string)
        (s : seg_state) (m : captures) :
  for_lines before initial_state = (s, false) ->
  in_questions_section s = true ->
  re_match question_pattern line = Some m ->
  is_section_start line = false ->
  is_terminator line = false ->
  for_lines (before ++ line :: after) initial_state
  = for_lines after
      (mkState (flush (st_questions s) (current_question s))
               (Some (opened m (current_section s)))
               true (current_section s))
  /\ segment (before ++ [line])
     = map clean_question
         (flush (st_questions s) (current_question s)
          ++ [opened m (current_section s)])
  /\ parts (opened m (current_section s)) = [].
Proof.
  intros Hrun Hin Hm Hn Ht.
  assert (H : forall rest, for_lines (before ++ line :: rest) initial_state
     = for_lines rest
         (mkState (flush (st_questions s) (current_question s))
                  (Some (opened m (current_section s)))
                  true (current_section s))).
  { intro rest. rewrite (for_lines_next _ _ _ _ Hrun). simpl.
    now rewrite (loop_body_header s line m Hin Hm Hn Ht). }
  split; [apply H|]. split; [|reflexivity].
  unfold segment, finish. rewrite H. reflexivity.
Qed.

Lemma C3_header_flushes_and_opens_witness :
  segment ((firstn 2 spec_example)
           ++ ["13 Mrs Phiri - to ask the Minister of Education"])
  = [ mkQuestion "12" "Mr Banda" "Minister of Health"
                 (Some "QUESTIONS FOR ORAL ANSWER") [] None;
      question_13 ].
Proof.
  refine (eq_trans (proj1 (proj2
    (C3_header_flushes_and_opens
       (firstn 2 spec_example)
       "13 Mrs Phiri - to ask the Minister of Education" []
       (fst (for_lines (firstn 2 spec_example) initial_state))
       (match re_match question_pattern
                "13 Mrs Phiri - to ask the Minister of Education"
        with Some m => m | None => no_captures end)
       _ _ _ _ _))) _); vm_compute; reflexivity.
Defined.

(** C3, as stated, fails: in the questions section, a line that matches the
    header pattern and carries the word "MOTIONS" ends the loop instead of
    opening a question, and the header after it is never read. *)
Lemma C3_header_with_terminator_word_opens_nothing :
  in_questions_section
    (fst (for_lines ["QUESTIONS FOR ORAL ANSWER"] initial_state)) = true
  /\ is_match (re_match question_pattern header_with_terminator) = true
  /\ segment ["QUESTIONS FOR ORAL ANSWER"; header_with_terminator] = []
  /\ segment (["QUESTIONS FOR ORAL ANSWER"; header_with_terminator]
              ++ overlap_after) = [].
Proof.
  do 3 (split; [vm_compute; reflexivity|]). vm_compute; reflexivity.
Qed.

(* ================================================================== *)
(** * Lines before the questions section *)
(* ================================================================== *)

(** C4: lines that come before the first line containing
    "QUESTIONS FOR ORAL ANSWER" leave every loop variable as it was, so no
    header, sub-part or continuation is read from them, and the questions
    found are those found without them. *)
Theorem C4_lines_before_section_are_ignored
        (before rest : list string) :
  Forall (fun l => is_section_start l = false) before ->
  for_lines before initial_state = (initial_state, false)
  /\ for_lines (before ++ rest) initial_state = for_lines rest initial_state
  /\ segment (before ++ rest) = segment rest.
Proof.
  intro H.
  pose proof (for_lines_outside before initial_state eq_refl H) as Hrun.
  split; [exact Hrun|].
  assert (E : for_lines (before ++ rest) initial_state
              = for_lines rest initial_state)
    by apply (for_lines_next _ _ _ _ Hrun).
  split; [exact E|]. unfold segment. now rewrite E.
Qed.

Lemma C4_lines_before_section_are_ignored_witness :
  segment (["9 Mr Zulu - to ask the Minister of Finance:"; "(a) early"]
           ++ spec_example)
  = segment spec_example.
Proof.
  refine (proj2 (proj2
    (C4_lines_before_section_are_ignored
       ["9 Mr Zulu - to ask the Minister of Finance:"; "(a) early"]
       spec_example _))).
  repeat constructor.
Defined.

(* ================================================================== *)
(** * The metadata scan *)
(* ================================================================== *)

(** C5, as the code behaves: the scan looks at the first 20 lines only; each
    line takes the first branch whose test it passes, in the order
    parliament, session, date, time, and stores its value under that key.
    After the scan each of the four fields holds the value of the last line
    that took its branch (for the date, that line without its
    "ORDER PAPER - " occurrences), and is left as it was (unset) when no
    line did; the scan has no failing case. *)
Theorem C5_last_matching_line_wins (m : Metadata) (lines : list string) :
  let r := scan_metadata m lines in
  let head := firstn 20 lines in
  parliament r = or_else (last_such to_parliament head) (parliament m)
  /\ session r = or_else (last_such to_session head) (session m)
  /\ date r = or_else (option_map (replace "ORDER PAPER - " "")
                                  (last_such to_date head)) (date m)
  /\ time r = or_else (last_such to_time head) (time m).
Proof.
  unfold scan_metadata. apply scan_fold.
Qed.

(** C5, as stated, fails: with two lines that both contain
    "NATIONAL ASSEMBLY OF ZAMBIA", the field holds the second, not the
    first. *)
Lemma C5_later_line_overwrites_parliament :
  to_parliament assembly_line_1 = true
  /\ parliament (scan_metadata (empty_metadata "u")
                               [assembly_line_1; assembly_line_2])
     = Some assembly_line_2
  /\ parliament (scan_metadata (empty_metadata "u")
                               [assembly_line_1; assembly_line_2])
     <> Some assembly_line_1.
Proof.
  do 2 (split; [vm_compute; reflexivity|]).
  intro H. vm_compute in H. discriminate H.
Qed.

(* ================================================================== *)
(** * Results of the whole function *)
(* ================================================================== *)

(** C6: whatever the URL and the outside world, an exception raised in the
    [try] block becomes the error result carrying its message and the URL:
    so it is when the fetch raises, when the page has no content container
    (message "Could not find the main content div"), and when looking up
    the title or the container raises.  The function always returns a
    result. *)
Theorem C6_failures_become_error_results (w : World) (url : string) :
  (forall msg, requests_get w url = Raised msg ->
     extract_parliament_questions w url = Error msg url)
  /\ (forall html t, requests_get w url = Returned html ->
        find_title w html = Returned t ->
        find_body w html = Returned None ->
        extract_parliament_questions w url
        = Error "Could not find the main content div" url)
  /\ (forall html msg, requests_get w url = Returned html ->
        find_title w html = Raised msg ->
        extract_parliament_questions w url = Error msg url)
  /\ (forall html t msg, requests_get w url = Returned html ->
        find_title w html = Returned t ->
        find_body w html = Raised msg ->
        extract_parliament_questions w url = Error msg url)
  /\ (forall msg, try_block w url = Raised msg ->
        extract_parliament_questions w url = Error msg url)
  /\ ((exists d, extract_parliament_questions w url = Success d)
      \/ (exists msg, extract_parliament_questions w url = Error msg url)).
Proof.
  unfold extract_parliament_questions, try_block, bind.
  repeat split.
  - intros msg ->. reflexivity.
  - intros html t -> -> ->. reflexivity.
  - intros html msg -> ->. reflexivity.
  - intros html t msg -> -> ->. reflexivity.
  - intros msg H. now rewrite H.
  - destruct (requests_get w url) as [html|msg]; [|eauto].
    destruct (find_title w html) as [t|msg]; [|eauto].
    destruct (find_body w html) as [[text|]|msg]; eauto.
Qed.

Lemma C6_failures_become_error_results_witness :
  extract_parliament_questions offline "https://www.parliament.gov.zm/node/1"
  = Error "connection refused" "https://www.parliament.gov.zm/node/1"
  /\ extract_parliament_questions (serving None None) "u"
     = Error "Could not find the main content div" "u".
Proof.
  split.
  - exact (proj1 (C6_failures_become_error_results
                    offline "https://www.parliament.gov.zm/node/1")
                 "connection refused" eq_refl).
  - exact (proj1 (proj2 (C6_failures_become_error_results
                           (serving None None) "u"))
                 "<html>" None eq_refl eq_refl eq_refl).
Defined.

(** C7: when the page is fetched, its content container is found, and none
    of its lines contains "QUESTIONS FOR ORAL ANSWER", the function returns
    a success result whose questions are empty and whose count is 0. *)
Theorem C7_no_question_section_is_success
        (w : World) (url html text : string) (t : option string) :
  requests_get w url = Returned html ->
  find_title w html = Returned t ->
  find_body w html = Returned (Some text) ->
  Forall (fun l => is_section_start l = false) (extract_lines text) ->
  exists d,
    extract_parliament_questions w url = Success d
    /\ status (extract_parliament_questions w url) = "success"
    /\ questions d = []
    /\ question_count d = 0.
Proof.
  intros Hget Ht Hb Hno.
  unfold extract_parliament_questions, try_block, bind.
  rewrite Hget, Ht, Hb, (segment_no_section _ Hno).
  eexists. repeat split.
Qed.

Lemma C7_no_question_section_is_success_witness :
  exists d,
    extract_parliament_questions
      (serving (Some "Order Paper") (Some "NATIONAL ASSEMBLY OF ZAMBIA")) "u"
    = Success d
    /\ status (extract_parliament_questions
                 (serving (Some "Order Paper")
                          (Some "NATIONAL ASSEMBLY OF ZAMBIA")) "u")
       = "success"
    /\ questions d = []
    /\ question_count d = 0.
Proof.
  refine (C7_no_question_section_is_success
            (serving (Some "Order Paper") (Some "NATIONAL ASSEMBLY OF ZAMBIA"))
            "u" "<html>" "NATIONAL ASSEMBLY OF ZAMBIA" (Some "Order Paper")
            eq_refl eq_refl eq_refl _).
  vm_compute. repeat constructor.
Defined.

(** C8: in every success result the count is the length of the questions
    list. *)
Theorem C8_question_count_is_length
        (w : World) (url : string) (d : Document) :
  extract_parliament_questions w url = Success d ->
  question_count d = List.length (questions d).
Proof.
  unfold extract_parliament_questions, try_block, bind.
  destruct (requests_get w url) as [html|]; [|discriminate].
  destruct (find_title w html) as [t|]; [|discriminate].
  destruct (find_body w html) as [[text|]|]; try discriminate.
  intros [= <-]. reflexivity.
Qed.

Lemma C8_question_count_is_length_witness :
  question_count
    (mkDocument (mkMetadata (Some "T") "u" "Order Paper" None None None None)
                [question_12; question_13] 2)
  = List.length
      (questions
         (mkDocument (mkMetadata (Some "T") "u" "Order Paper"
                                 None None None None)
                     [question_12; question_13] 2)).
Proof.
  refine (C8_question_count_is_length
            (serving (Some "T") (Some example_body)) "u" _ _).
  vm_compute. reflexivity.
Defined.

(* ================================================================== *)
(** * What every emitted question satisfies *)
(* ================================================================== *)

(** C10: every element of the parts of every emitted question starts, once
    lowercased, with "(", one letter a-z, ")": it matches
    [^\([a-z]\)].  The parts of the open question change in two ways only:
    a sub-part line is appended as a new element, and any other line that
    is not a header is joined, after a space, to the last element when
    there is one. *)
Theorem C10_parts_begin_with_letter_in_parentheses :
  (forall (lines : list string) (q : Question) (p : string),
     In q (segment lines) -> In p (parts q) ->
     is_match (re_match part_pattern (lower p)) = true)
  /\ (forall (s : seg_state) (line : string) (q' : Question),
        re_match question_pattern line = None ->
        current_question (classify s line) = Some q' ->
        exists q,
          current_question s = Some q
          /\ ((is_part_line line = true /\ parts q' = parts q ++ [line])
              \/ (is_part_line line = false /\ parts q <> []
                  /\ parts q'
                     = removelast (parts q)
                       ++ [(last (parts q) EmptyString ++ " " ++ line)%string])
              \/ (is_part_line line = false /\ parts q = []
                  /\ parts q' = []))).
Proof.
  split.
  - intros lines q p Hq Hp.
    pose proof (segment_parts_lettered lines q Hq) as H.
    unfold parts_lettered in H. rewrite Forall_forall in H.
    exact (H p Hp).
  - apply classify_parts.
Qed.

Lemma C10_parts_begin_with_letter_in_parentheses_witness :
  is_match (re_match part_pattern
                     (lower "(a) What is the budget? continued here")) = true.
Proof.
  refine (proj1 C10_parts_begin_with_letter_in_parentheses
            spec_example question_12
            "(a) What is the budget? continued here" _ _);
    vm_compute; left; reflexivity.
Defined.

(* ================================================================== *)
(** * Lemmas on [re.search] *)
(* ================================================================== *)

Section SearchFacts.

Lemma rep_greedy_inv {A} c hi : forall lo prev s (k : before -> string -> option A) r,
  rep_greedy c lo hi prev s k = Some r ->
  exists w s' p', s = (w ++ s')%string /\ all_chars c w = true /\
                  lo <= String.length w <= hi /\ k p' s' = Some r.
Proof.
  induction hi as [|hi IH]; intros lo prev s k r H.
  - simpl in H. destruct (Nat.eqb_spec lo 0) as [->|]; [|discriminate].
    exists EmptyString, s, prev. simpl. auto.
  - assert (Hstop : (if lo =? 0 then k prev s else None) = Some r ->
       exists w s' p', s = (w ++ s')%string /\ all_chars c w = true /\
                  lo <= String.length w <= S hi /\ k p' s' = Some r).
    { destruct (Nat.eqb_spec lo 0) as [->|]; [|discriminate].
      intro Hk. exists EmptyString, s, prev. simpl. repeat split; auto; lia. }
    cbn [rep_greedy] in H.
    destruct s as [|a s']; [auto|].
    destruct (c a) eqn:Ca; [|auto].
    apply or_else_Some in H. destruct H as [H|H]; [|auto].
    apply IH in H. destruct H as (w & s2 & p' & -> & Hall & Hlen & Hk).
    exists (String a w), s2, p'. simpl. rewrite Ca, Hall.
    repeat split; auto; lia.
Qed.

Lemma many_greedy_inv {A} c s (k : before -> string -> option A) r :
  many_greedy c s k = Some r ->
  exists w s' p', s = (w ++ s')%string /\ all_chars c w = true /\
                  w <> EmptyString /\ k p' s' = Some r.
Proof.
  revert r. induction s as [|a s IH]; simpl; intros r H; [discriminate|].
  destruct (c a) eqn:Ca; [|discriminate].
  apply or_else_Some in H. destruct H as [H|H].
  - destruct (IH _ H) as (w & s' & p' & -> & Hall & _ & Hk).
    exists (String a w), s', p'. simpl. rewrite Ca, Hall.
    repeat split; auto; discriminate.
  - exists (String a EmptyString), s, (Some a). simpl. rewrite Ca.
    repeat split; auto; discriminate.
Qed.

Lemma strip_prefix_inv t : forall s s',
  strip_prefix t s = Some s' -> s = (t ++ s')%string.
Proof.
  induction t as [|a t IH]; simpl; intros s s' H.
  - now injection H as ->.
  - destruct s as [|b s]; [discriminate|].
    destruct (Ascii.eqb_spec a b) as [->|]; [|discriminate].
    now rewrite (IH _ _ H).
Qed.

Lemma strip_prefix_app t s : strip_prefix t (t ++ s) = Some s.
Proof.
  induction t as [|a t IH]; simpl; [reflexivity|].
  now rewrite Ascii.eqb_refl.
Qed.

Lemma append_assoc (a b c : string) :
  ((a ++ b) ++ c = a ++ (b ++ c))%string.
Proof. induction a as [|x a IH]; simpl; [reflexivity|]. now rewrite IH. Qed.

(** A successful match of [r] consumed a text of [r] and then let the rest
    of the pattern succeed; only the groups of [r] were written. *)
Lemma smatch_inv r : forall prev s g k res,
  smatch r prev s g k = Some res ->
  exists w s' p' g',
    s = (w ++ s')%string /\ denotes r w /\ k p' s' g' = Some res
    /\ forall n, ~ In n (sgroups_of r) -> g' n = g n.
Proof.
  induction r as [t|lo hi c|c|r1 IH1 r2 IH2|n r1 IH|r1 IH1 r2 IH2|];
    cbn [smatch denotes sgroups_of]; intros prev s g k res H.
  - destruct (strip_prefix t s) as [s'|] eqn:E; [|discriminate].
    apply strip_prefix_inv in E. subst s. eauto 10.
  - apply rep_greedy_inv in H.
    destruct H as (w & s' & p' & -> & Hall & Hlen & Hk). eauto 10.
  - apply many_greedy_inv in H.
    destruct H as (w & s' & p' & -> & Hall & Hne & Hk). eauto 10.
  - apply or_else_Some in H. destruct H as [H|H].
    + apply IH1 in H. destruct H as (w & s' & p' & g' & -> & Hd & Hk & Hg).
      exists w, s', p', g'. repeat split; auto.
      intros n Hn. apply Hg. intro Hin. apply Hn, in_or_app. auto.
    + apply IH2 in H. destruct H as (w & s' & p' & g' & -> & Hd & Hk & Hg).
      exists w, s', p', g'. repeat split; auto.
      intros n Hn. apply Hg. intro Hin. apply Hn, in_or_app. auto.
  - apply IH in H. destruct H as (w & s' & p' & g' & -> & Hd & Hk & Hg).
    rewrite taken_app in Hk.
    exists w, s', p', (set_group n w g'). repeat split; auto.
    intros m Hm. unfold set_group.
    destruct (Nat.eqb_spec m n) as [->|]; [exfalso; apply Hm; now left|].
    apply Hg. intro Hin. apply Hm. now right.
  - apply IH1 in H. destruct H as (w1 & s1 & p1 & g1 & -> & Hd1 & H & Hg1).
    apply IH2 in H. destruct H as (w2 & s2 & p2 & g2 & -> & Hd2 & H & Hg2).
    exists (w1 ++ w2)%string, s2, p2, g2. rewrite append_assoc.
    repeat split; eauto.
    intros n Hn. rewrite Hg2, Hg1; auto; intro Hin; apply Hn, in_or_app; auto.
  - destruct (at_word_boundary prev s); [|discriminate].
    exists EmptyString, s, prev, g. auto.
Qed.

Lemma smatch_cat_inv r1 r2 prev s g k res :
  smatch (SCat r1 r2) prev s g k = Some res ->
  exists w s' p' g',
    s = (w ++ s')%string /\ denotes r1 w /\ smatch r2 p' s' g' k = Some res
    /\ forall n, ~ In n (sgroups_of r1) -> g' n = g n.
Proof. cbn [smatch]. apply smatch_inv. Qed.

Lemma smatch_grp_inv n r1 prev s g k res :
  smatch (SGrp n r1) prev s g k = Some res ->
  exists w s' p' g',
    s = (w ++ s')%string /\ denotes r1 w
    /\ k p' s' (set_group n w g') = Some res
    /\ forall m, ~ In m (sgroups_of r1) -> g' m = g m.
Proof.
  cbn [smatch]. intro H. apply smatch_inv in H.
  destruct H as (w & s' & p' & g' & -> & Hd & Hk & Hg).
  rewrite taken_app in Hk. eauto 10.
Qed.

Lemma smatch_grp_cat_inv n r1 r2 prev s g k res :
  smatch (SCat (SGrp n r1) r2) prev s g k = Some res ->
  exists w s' p' g',
    s = (w ++ s')%string /\ denotes r1 w
    /\ smatch r2 p' s' (set_group n w g') k = Some res
    /\ forall m, ~ In m (sgroups_of r1) -> g' m = g m.
Proof.
  cbn [smatch]. intro H. apply smatch_inv in H.
  destruct H as (w & s' & p' & g' & -> & Hd & Hk & Hg).
  rewrite taken_app in Hk. eauto 10.
Qed.

(** A successful search matched at some position of the string. *)
Lemma search_at_inv r : forall s prev m,
  search_at r prev s = Some m ->
  exists pre suf p, s = (pre ++ suf)%string
                    /\ smatch r p suf no_captures accept = Some m.
Proof.
  induction s as [|a s IH]; intros prev m H; cbn [search_at] in H;
    apply or_else_Some in H; destruct H as [H|H].
  - exists EmptyString, EmptyString, prev. auto.
  - discriminate.
  - exists EmptyString, (String a s), prev. auto.
  - apply IH in H. destruct H as (pre & suf & p & -> & H).
    exists (String a pre), suf, p. auto.
Qed.

Lemma set_group_same n v g : group (set_group n v g) n = v.
Proof. unfold group, set_group. now rewrite Nat.eqb_refl. Qed.

(** What the three year patterns leave in group 1. *)
Lemma year_pattern_1_group m title :
  re_search year_pattern_1 title = Some m ->
  denotes (SRep 4 4 is_digit) (group m 1).
Proof.
  intro H. apply search_at_inv in H. destruct H as (pre & suf & p & _ & H).
  unfold year_pattern_1 in H.
  do 5 (apply smatch_cat_inv in H;
        destruct H as (? & ? & ? & ? & _ & _ & H & _)).
  apply smatch_grp_inv in H.
  destruct H as (w & s' & p' & g' & _ & Hd & Hk & _).
  injection Hk as <-. now rewrite set_group_same.
Qed.

Lemma year_pattern_2_group m title :
  re_search year_pattern_2 title = Some m ->
  exists d, group m 1 = ("20" ++ d)%string /\ denotes (SRep 2 2 is_digit) d.
Proof.
  intro H. apply search_at_inv in H. destruct H as (pre & suf & p & _ & H).
  unfold year_pattern_2 in H.
  apply smatch_cat_inv in H. destruct H as (? & s0 & p0 & g0 & _ & _ & H & _).
  apply smatch_grp_cat_inv in H.
  destruct H as (w & s' & p' & g' & _ & (w1 & d & -> & -> & Hd) & H & _).
  cbn [smatch] in H.
  destruct (at_word_boundary p' s'); [|discriminate].
  injection H as <-. rewrite set_group_same.
  exists d. split; [reflexivity|exact Hd].
Qed.

Lemma year_pattern_3_group m title :
  re_search year_pattern_3 title = Some m ->
  exists pre d month yy post,
    title = (pre ++ d ++ " " ++ month ++ ", 20" ++ yy ++ post)%string
    /\ group m 1 = d
    /\ denotes (SRep 2 2 is_digit) d
    /\ denotes (SPlus is_alpha_az) month
    /\ denotes (SRep 2 2 is_digit) yy.
Proof.
  intro H. apply search_at_inv in H. destruct H as (pre & suf & p & -> & H).
  unfold year_pattern_3 in H.
  apply smatch_grp_cat_inv in H.
  destruct H as (d & s1 & p1 & g1 & -> & Hd & H & _).
  apply smatch_cat_inv in H.
  destruct H as (sp & s2 & p2 & g2 & -> & Hsp & H & Hf2).
  apply smatch_cat_inv in H.
  destruct H as (month & s3 & p3 & g3 & -> & Hmonth & H & Hf3).
  apply smatch_cat_inv in H.
  destruct H as (sep & s4 & p4 & g4 & -> & Hsep & H & Hf4).
  apply smatch_grp_inv in H.
  destruct H as (yy & post & p5 & g5 & -> & Hyy & H & Hf5).
  injection H as <-.
  cbn [denotes] in Hsp, Hsep. subst sp sep.
  exists pre, d, month, yy, post.
  split; [reflexivity|]. split; [|auto].
  unfold group. unfold set_group at 1. cbn [Nat.eqb].
  rewrite Hf5, Hf4, Hf3, Hf2 by (simpl; tauto).
  unfold set_group. now rewrite Nat.eqb_refl.
Qed.

End SearchFacts.

(* ================================================================== *)
(** * Lemmas on digits and [int] *)
(* ================================================================== *)

Section IntFacts.

Lemma is_digit_range c :
  is_digit c = true -> 48 <= nat_of_ascii c <= 57.
Proof.
  unfold is_digit. intro H. apply andb_prop in H. destruct H as [H1 H2].
  apply Nat.leb_le in H1. apply Nat.leb_le in H2. lia.
Qed.

Lemma digit_value_range c :
  is_digit c = true -> (0 <= digit_value c <= 9)%Z.
Proof. intro H. apply is_digit_range in H. unfold digit_value. lia. Qed.

Lemma is_digit_not_int_space c :
  is_digit c = true -> is_int_space c = false.
Proof.
  intro H. apply is_digit_range in H. unfold is_int_space.
  set (n := nat_of_ascii c) in *. cbv zeta.
  destruct (Nat.leb_spec 9 n), (Nat.leb_spec n 13), (Nat.eqb_spec n 32),
    (Nat.eqb_spec n 133), (Nat.eqb_spec n 160); simpl; try reflexivity; lia.
Qed.

Lemma rstrip_by_digits s :
  all_chars is_digit s = true -> rstrip_by is_int_space s = s.
Proof.
  induction s as [|c s IH]; simpl; intro H; [reflexivity|].
  apply andb_prop in H. destruct H as [Hc Hs].
  rewrite (IH Hs). destruct s; [|reflexivity].
  now rewrite (is_digit_not_int_space c Hc).
Qed.

Lemma int_digits_digits s : forall acc b,
  all_chars is_digit s = true ->
  (s <> EmptyString \/ b = true) ->
  int_digits s acc b = Some (digits_from s acc).
Proof.
  induction s as [|c s IH]; simpl; intros acc b H Hne.
  - destruct Hne as [Hne| ->]; [contradiction|reflexivity].
  - apply andb_prop in H. destruct H as [Hc Hs]. rewrite Hc.
    apply IH; auto.
Qed.

(** [int] of a non-empty string of digits is its decimal value. *)
Lemma py_int_digits s :
  all_chars is_digit s = true -> s <> EmptyString ->
  py_int s = Some (digits_from s 0).
Proof.
  intros H Hne. unfold py_int.
  destruct s as [|c s]; [contradiction|].
  pose proof H as H0. simpl in H0. apply andb_prop in H0. destruct H0 as [Hc _].
  cbn [lstrip_by]. rewrite (is_digit_not_int_space c Hc).
  rewrite (rstrip_by_digits _ H).
  rewrite <- (int_digits_digits (String c s) 0%Z false H (or_introl Hne)).
  destruct c as [[] [] [] [] [] [] [] []]; try discriminate Hc; reflexivity.
Qed.

Lemma four_digits_value y :
  four_digits y -> (0 <= digits_from y 0 <= 9999)%Z.
Proof.
  intros [Hlen Hd].
  destruct y as [|a [|b [|c [|d [|? ?]]]]]; try discriminate Hlen.
  simpl in Hd.
  repeat (apply andb_prop in Hd; destruct Hd as [?Hc Hd]).
  repeat match goal with
         | Hx : is_digit _ = true |- _ => apply digit_value_range in Hx
         end.
  cbn [digits_from]. lia.
Qed.

Lemma twenty_value d :
  all_chars is_digit d = true -> String.length d = 2 ->
  (2000 <= digits_from ("20" ++ d) 0 <= 2099)%Z.
Proof.
  intros Hd Hlen.
  destruct d as [|a [|b [|? ?]]]; try discriminate Hlen.
  simpl in Hd.
  repeat (apply andb_prop in Hd; destruct Hd as [?Hc Hd]).
  repeat match goal with
         | Hx : is_digit _ = true |- _ => apply digit_value_range in Hx
         end.
  cbn [digits_from append]. change (digit_value "2") with 2%Z.
  change (digit_value "0") with 0%Z. lia.
Qed.

Lemma all_chars_app p a b :
  all_chars p (a ++ b) = all_chars p a && all_chars p b.
Proof.
  induction a as [|c a IH]; simpl; [reflexivity|].
  now rewrite IH, andb_assoc.
Qed.

End IntFacts.

(* ================================================================== *)
(** * The year of a title *)
(* ================================================================== *)

Section YearFacts.

Lemma rep_exact_length c n w :
  denotes (SRep n n c) w -> all_chars c w = true /\ String.length w = n.
Proof. cbn [denotes]. intros [H1 H2]. split; [exact H1|lia]. Qed.

(** How the result comes about: from the first pattern that is found. *)
Lemma extract_year_cases title y :
  extract_year_from_title title = Some y ->
  (exists m, re_search year_pattern_1 title = Some m
             /\ y = group m 1 /\ four_digits y)
  \/ (re_search year_pattern_1 title = None
      /\ exists m d, re_search year_pattern_2 title = Some m
                     /\ group m 1 = ("20" ++ d)%string
                     /\ y = ("20" ++ d)%string
                     /\ all_chars is_digit d = true /\ String.length d = 2)
  \/ (re_search year_pattern_1 title = None
      /\ re_search year_pattern_2 title = None
      /\ exists m d, re_search year_pattern_3 title = Some m
                     /\ group m 1 = d
                     /\ y = ("20" ++ d)%string
                     /\ all_chars is_digit d = true /\ String.length d = 2).
Proof.
  unfold extract_year_from_title, patterns. cbn [first_year].
  destruct (re_search year_pattern_1 title) as [m1|] eqn:E1.
  - intros [= <-]. left. exists m1.
    apply year_pattern_1_group in E1. apply rep_exact_length in E1.
    destruct E1 as [Hd Hlen]. unfold year_of_match. cbv zeta.
    rewrite Hlen. cbn [Nat.eqb]. repeat split; auto.
  - destruct (re_search year_pattern_2 title) as [m2|] eqn:E2.
    + intros [= <-]. right; left. split; [reflexivity|].
      pose proof (year_pattern_2_group _ _ E2) as (d & Hg & Hd).
      apply rep_exact_length in Hd. destruct Hd as [Hd Hlen].
      exists m2, d. unfold year_of_match. cbv zeta. rewrite Hg.
      cbn [String.length append]. rewrite Hlen. cbn [Nat.eqb]. auto 6.
    + destruct (re_search year_pattern_3 title) as [m3|] eqn:E3;
        [|discriminate].
      intros [= <-]. right; right. do 2 (split; [reflexivity|]).
      pose proof (year_pattern_3_group _ _ E3)
        as (pre & d & month & yy & post & _ & Hg & Hd & _).
      apply rep_exact_length in Hd. destruct Hd as [Hd Hlen].
      exists m3, d. unfold year_of_match. cbv zeta. rewrite Hg, Hlen.
      cbn [Nat.eqb]. auto 6.
Qed.

Lemma twenty_four_digits d :
  all_chars is_digit d = true -> String.length d = 2 ->
  four_digits ("20" ++ d).
Proof.
  intros Hd Hlen. split.
  - cbn [append String.length]. now rewrite Hlen.
  - cbn [append all_chars]. rewrite Hd. reflexivity.
Qed.

(** The year of a title is four digits. *)
Lemma extract_year_four_digits title y :
  extract_year_from_title title = Some y -> four_digits y.
Proof.
  intro H. apply extract_year_cases in H.
  destruct H as [(m & _ & _ & H) | [(_ & m & d & _ & _ & -> & Hd & Hl)
                                   | (_ & _ & m & d & _ & _ & -> & Hd & Hl)]];
    auto using twenty_four_digits.
Qed.

Lemma four_digits_int y :
  four_digits y -> py_int y = Some (digits_from y 0).
Proof.
  intros [Hlen Hd]. apply py_int_digits; [exact Hd|].
  intros ->. discriminate Hlen.
Qed.

End YearFacts.

(* ================================================================== *)
(** * [extract_year_from_title] *)
(* ================================================================== *)

(** X1: whenever [extract_year_from_title] returns a year, it is a string of
    exactly four decimal digits, so [int] of it succeeds, with a value
    from 0 to 9999. *)
Theorem X1_year_is_four_digits (title y : string) :
  extract_year_from_title title = Some y ->
  String.length y = 4
  /\ all_chars is_digit y = true
  /\ exists z, py_int y = Some z /\ (0 <= z <= 9999)%Z.
Proof.
  intro H. apply extract_year_four_digits in H.
  destruct H as [Hlen Hd]. repeat split; auto.
  exists (digits_from y 0). split.
  - now apply four_digits_int.
  - now apply four_digits_value.
Qed.

Lemma X1_year_is_four_digits_witness :
  String.length "2024" = 4
  /\ all_chars is_digit "2024" = true
  /\ exists z, py_int "2024" = Some z /\ (0 <= z <= 9999)%Z.
Proof.
  refine (X1_year_is_four_digits
            "Order Paper - Friday, 21st June, 2024" "2024" _).
  vm_compute. reflexivity.
Defined.

(** X2: when the title has no date of the form
    "<1-2 digits><st|nd|rd|th> <letters>, <4 digits>", a returned year is
    "20" followed by two digits: as a number it lies between 2000 and
    2099. *)
Theorem X2_year_without_ordinal_date_is_20xx (title y : string) :
  re_search year_pattern_1 title = None ->
  extract_year_from_title title = Some y ->
  exists d,
    y = ("20" ++ d)%string
    /\ String.length d = 2 /\ all_chars is_digit d = true
    /\ exists z, py_int y = Some z /\ (2000 <= z <= 2099)%Z.
Proof.
  intros H1 H. apply extract_year_cases in H.
  destruct H as [(m & Hm & _) | [(_ & m & d & _ & _ & -> & Hd & Hl)
                                | (_ & _ & m & d & _ & _ & -> & Hd & Hl)]];
    [congruence| |];
    (exists d; repeat split; auto;
     exists (digits_from ("20" ++ d) 0); split;
     [apply four_digits_int; now apply twenty_four_digits
     |now apply twenty_value]).
Qed.

Lemma X2_year_without_ordinal_date_is_20xx_witness :
  exists d,
    "2019" = ("20" ++ d)%string
    /\ String.length d = 2 /\ all_chars is_digit d = true
    /\ exists z, py_int "2019" = Some z /\ (2000 <= z <= 2099)%Z.
Proof.
  refine (X2_year_without_ordinal_date_is_20xx
            "order-paper 2019" "2019" _ _); vm_compute; reflexivity.
Defined.

(** X3: when neither the ordinal-date pattern nor a free-standing "20dd"
    is found, a returned year comes from the third pattern, and it is "20"
    followed by the two digits that stand before the month name, not the
    two digits that follow ", 20". *)
Theorem X3_third_pattern_takes_digits_before_month (title y : string) :
  re_search year_pattern_1 title = None ->
  re_search year_pattern_2 title = None ->
  extract_year_from_title title = Some y ->
  exists pre d month yy post,
    title = (pre ++ d ++ " " ++ month ++ ", 20" ++ yy ++ post)%string
    /\ String.length d = 2 /\ all_chars is_digit d = true
    /\ month <> EmptyString /\ all_chars is_alpha_az month = true
    /\ String.length yy = 2 /\ all_chars is_digit yy = true
    /\ y = ("20" ++ d)%string.
Proof.
  intros H1 H2 H. apply extract_year_cases in H.
  destruct H as [(m & Hm & _) | [(_ & m & d & Hm & _)
                                | (_ & _ & m & d & Hm & Hg & -> & _)]];
    [congruence|congruence|].
  pose proof (year_pattern_3_group _ _ Hm)
    as (pre & d' & month & yy & post & -> & Hg' & Hd & Hmonth & Hyy).
  apply rep_exact_length in Hd. apply rep_exact_length in Hyy.
  destruct Hd as [Hd Hl], Hyy as [Hyy Hly], Hmonth as [Hmo Hne].
  exists pre, d', month, yy, post.
  rewrite <- Hg, Hg'. repeat split; auto.
Qed.

Lemma X3_third_pattern_takes_digits_before_month_witness :
  exists pre d month yy post,
    "12 Aug, 20255"
    = (pre ++ d ++ " " ++ month ++ ", 20" ++ yy ++ post)%string
    /\ String.length d = 2 /\ all_chars is_digit d = true
    /\ month <> EmptyString /\ all_chars is_alpha_az month = true
    /\ String.length yy = 2 /\ all_chars is_digit yy = true
    /\ "2012" = ("20" ++ d)%string.
Proof.
  refine (X3_third_pattern_takes_digits_before_month
            "12 Aug, 20255" "2012" _ _ _); vm_compute; reflexivity.
Defined.

Section YearForward.

Lemma rep_greedy_run {A} c hi : forall lo w prev rest
    (k : before -> string -> option A) r,
  all_chars c w = true ->
  lo <= String.length w <= hi ->
  (String.length w = hi
   \/ match rest with String b _ => c b = false | EmptyString => True end) ->
  k (last_of w prev) rest = Some r ->
  rep_greedy c lo hi prev (w ++ rest) k = Some r.
Proof.
  induction hi as [|hi IH]; intros lo w prev rest k r Hall Hlen Hstop Hk.
  - destruct w; [|simpl in Hlen; lia]. simpl in *.
    replace lo with 0 by lia. exact Hk.
  - destruct w as [|a w].
    + simpl in Hlen, Hk. replace lo with 0 by lia.
      destruct Hstop as [Hstop|Hstop]; [discriminate Hstop|].
      cbn [append rep_greedy Nat.eqb].
      destruct rest as [|b rest]; [exact Hk|]. now rewrite Hstop.
    + simpl in Hall. apply andb_prop in Hall. destruct Hall as [Ha Hall].
      cbn [append rep_greedy]. rewrite Ha.
      rewrite (IH (lo - 1) w (Some a) rest k r); auto.
      * simpl in Hlen. lia.
      * destruct Hstop as [Hstop|Hstop]; [left|right; exact Hstop].
        simpl in Hstop. lia.
Qed.

Lemma many_greedy_run {A} c w : forall prev rest
    (k : before -> string -> option A) r,
  all_chars c w = true -> w <> EmptyString ->
  match rest with String b _ => c b = false | EmptyString => True end ->
  k (last_of w prev) rest = Some r ->
  many_greedy c (w ++ rest) k = Some r.
Proof.
  induction w as [|a w IH]; intros prev rest k r Hall Hne Hstop Hk;
    [contradiction|].
  simpl in Hall. apply andb_prop in Hall. destruct Hall as [Ha Hall].
  cbn [append many_greedy]. rewrite Ha.
  destruct w as [|b w].
  - simpl in Hk. cbn [append].
    destruct rest as [|b rest]; cbn [many_greedy]; [exact Hk|].
    now rewrite Hstop.
  - rewrite (IH (Some a) rest k r); auto. discriminate.
Qed.

(** The first year pattern cannot start at a character that is not a
    digit. *)
Lemma year_pattern_1_needs_digit a t p g k :
  is_digit a = false -> smatch year_pattern_1 p (String a t) g k = None.
Proof.
  intro H. unfold year_pattern_1. cbn [smatch rep_greedy Nat.eqb].
  now rewrite H.
Qed.

Lemma search_at_skip r pre : forall prev s,
  (forall a t p g k, is_digit a = false -> smatch r p (String a t) g k = None) ->
  all_chars (fun a => negb (is_digit a)) pre = true ->
  search_at r prev (pre ++ s) = search_at r (last_of pre prev) s.
Proof.
  induction pre as [|a pre IH]; intros prev s Hr Hpre; [reflexivity|].
  simpl in Hpre. apply andb_prop in Hpre. destruct Hpre as [Ha Hpre].
  apply negb_true_iff in Ha.
  cbn [append search_at last_of]. rewrite (Hr a _ _ _ _ Ha).
  cbn [or_else]. now apply IH.
Qed.

Lemma ordinal_first_char t rest :
  is_ordinal t ->
  match (t ++ rest)%string with
  | String b _ => is_digit b = false
  | EmptyString => True
  end.
Proof. intros [ -> | [ -> | [ -> | -> ] ] ]; reflexivity. Qed.

Lemma smatch_ordinal t prev rest g (k : kont) r :
  is_ordinal t -> k (last_of t prev) rest g = Some r ->
  smatch ordinal prev (t ++ rest) g k = Some r.
Proof.
  intros [ -> | [ -> | [ -> | -> ] ] ] Hk; unfold ordinal; cbn; cbn in Hk;
    now rewrite Hk.
Qed.

(** The first pattern on a date written out in full. *)
Lemma year_pattern_1_on_date d ord month y rest prev :
  all_chars is_digit d = true -> 1 <= String.length d <= 2 ->
  is_ordinal ord ->
  all_chars is_alpha_az month = true -> month <> EmptyString ->
  four_digits y ->
  smatch year_pattern_1 prev
         (d ++ ord ++ " " ++ month ++ ", " ++ y ++ rest) no_captures accept
  = Some (set_group 1 y no_captures).
Proof.
  intros Hd Hdl Hord Hm Hmne [Hyl Hy].
  unfold year_pattern_1.
  change (smatch (SCat ?a ?b) ?p ?s ?g ?k)
    with (smatch a p s g (fun p' s' g' => smatch b p' s' g' k)).
  cbn [smatch].
  apply rep_greedy_run;
    [exact Hd | exact Hdl | right; now apply ordinal_first_char | ].
  change (smatch (SCat ordinal
      (SCat (SLit " ") (SCat (SPlus is_alpha_az) (SCat (SLit ", ")
         (SGrp 1 (SRep 4 4 is_digit))))))
      (last_of d prev) (ord ++ " " ++ month ++ ", " ++ y ++ rest)
      no_captures accept = Some (set_group 1 y no_captures)).
  change (smatch (SCat ?a ?b) ?p ?s ?g ?k)
    with (smatch a p s g (fun p' s' g' => smatch b p' s' g' k)).
  apply smatch_ordinal; [exact Hord|].
  cbn [smatch append strip_prefix]. rewrite Ascii.eqb_refl.
  apply (many_greedy_run is_alpha_az month None);
    [exact Hm | exact Hmne | reflexivity | ].
  cbn [append strip_prefix]. rewrite !Ascii.eqb_refl.
  apply rep_greedy_run; [exact Hy | lia | left; exact Hyl | ].
  unfold accept. now rewrite taken_app.
Qed.

End YearForward.

(** X4: a title that, after any text free of digits, goes on with a date
    "<1-2 digits><st|nd|rd|th> <letters>, <4 digits>" has those four digits
    as its year, whatever follows. *)
Theorem X4_year_of_ordinal_date
        (pre d ord month y rest : string) :
  all_chars (fun a => negb (is_digit a)) pre = true ->
  all_chars is_digit d = true -> 1 <= String.length d <= 2 ->
  is_ordinal ord ->
  all_chars is_alpha_az month = true -> month <> EmptyString ->
  String.length y = 4 -> all_chars is_digit y = true ->
  extract_year_from_title
    (pre ++ d ++ ord ++ " " ++ month ++ ", " ++ y ++ rest)
  = Some y.
Proof.
  intros Hpre Hd Hdl Hord Hm Hmne Hyl Hy.
  unfold extract_year_from_title, patterns. cbn [first_year].
  unfold re_search.
  rewrite (search_at_skip _ pre None _ year_pattern_1_needs_digit Hpre).
  assert (E : search_at year_pattern_1 (last_of pre None)
                (d ++ ord ++ " " ++ month ++ ", " ++ y ++ rest)
              = Some (set_group 1 y no_captures)).
  { destruct d as [|a d']; [simpl in Hdl; lia|].
    cbn [append search_at].
    change (String a (d' ++ ?x)) with (String a d' ++ x)%string.
    rewrite (year_pattern_1_on_date (String a d') ord month y rest);
      auto; split; auto. }
  rewrite E. unfold year_of_match. cbv zeta.
  rewrite set_group_same, Hyl. reflexivity.
Qed.

Lemma X4_year_of_ordinal_date_witness :
  extract_year_from_title
    ("Order Paper - Friday, " ++ "21" ++ "st" ++ " " ++ "June" ++ ", "
     ++ "2024" ++ " (afternoon)")
  = Some "2024".
Proof.
  refine (X4_year_of_ordinal_date
            "Order Paper - Friday, " "21" "st" "June" "2024" " (afternoon)"
            _ _ _ _ _ _ _ _);
    try (vm_compute; reflexivity).
  - split; repeat constructor.
  - left; reflexivity.
  - discriminate.
Defined.

(* ================================================================== *)
(** * Lemmas on the listing loops *)
(* ================================================================== *)

Section ListingFacts.

Variable w : ListingWorld.
Variable target_year : Z.

Lemma year_key_four_digits x :
  four_digits (link_year x) -> py_int (link_year x) = Some (year_key x).
Proof.
  intro H. unfold year_key. now rewrite (four_digits_int _ H).
Qed.

(** A link either leaves the page variables alone or appends one entry
    that passed every test; the entries already there stay. *)
Lemma link_step_ok st link st' :
  Forall (link_ok target_year) (page_links st) ->
  link_step w target_year st link = Returned st' ->
  Forall (link_ok target_year) (page_links st').
Proof.
  intros Hst. unfold link_step. cbv zeta.
  destruct (looks_like_order_paper (fst link)) eqn:Hlook;
    cbn [negb]; [|now intros [= <-]].
  destruct (extract_year_from_title (fst link)) as [year|] eqn:Hy;
    [|now intros [= <-]].
  destruct (truthy year); cbn [negb]; [|now intros [= <-]].
  pose proof (extract_year_four_digits _ _ Hy) as H4.
  unfold int_of. rewrite (four_digits_int _ H4). cbn [bind].
  destruct (digits_from year 0 <? target_year)%Z eqn:Hlt;
    [now intros [= <-]|].
  destruct (urljoin w BASE_URL (snd link)) as [full_url|msg];
    cbn [bind]; [|discriminate].
  intros [= <-]. cbn [page_links]. apply Forall_app. split; [exact Hst|].
  constructor; [|constructor].
  unfold link_ok, year_key. cbn [link_year link_title].
  rewrite (four_digits_int _ H4). apply Z.ltb_ge in Hlt. auto.
Qed.

Lemma for_links_ok links : forall st st',
  Forall (link_ok target_year) (page_links st) ->
  for_links w target_year links st = Returned st' ->
  Forall (link_ok target_year) (page_links st').
Proof.
  induction links as [|link links IH]; cbn [for_links]; intros st st' Hst H.
  - now injection H as <-.
  - destruct (link_step w target_year st link) as [st1|msg] eqn:E;
      cbn [bind] in H; [|discriminate].
    eapply IH; [|exact H]. eapply link_step_ok; eauto.
Qed.

Lemma scrape_page_ok base_url n st :
  scrape_page w base_url target_year n = Returned st ->
  Forall (link_ok target_year) (page_links st).
Proof.
  unfold scrape_page.
  destruct (get_listing w (page_url base_url n)) as [links|msg];
    cbn [bind]; [|discriminate].
  apply for_links_ok. constructor.
Qed.

Lemma page_body_ok base_url all n :
  Forall (link_ok target_year) all ->
  match page_body w base_url target_year all n with
  | NextPage all' | StopPaging all' => Forall (link_ok target_year) all'
  end.
Proof.
  intro Hall. unfold page_body.
  destruct (scrape_page w base_url target_year n) as [st|msg] eqn:E;
    [|exact Hall].
  apply scrape_page_ok in E. cbv zeta.
  destruct (reached_target _ _ _); apply Forall_app; auto.
Qed.

Lemma for_pages_ok base_url pages : forall all,
  Forall (link_ok target_year) all ->
  Forall (link_ok target_year)
         (fst (for_pages w base_url target_year pages all)).
Proof.
  induction pages as [|n pages IH]; cbn [for_pages]; intros all Hall;
    [exact Hall|].
  pose proof (page_body_ok base_url all n Hall) as H.
  destruct (page_body w base_url target_year all n); [now apply IH|exact H].
Qed.

Lemma collected_ok base_url :
  Forall (link_ok target_year) (collected w base_url target_year).
Proof. apply for_pages_ok. constructor. Qed.

(** When every year is four digits the sort keys are all computed. *)
Lemma keyed_four_digits l :
  Forall (fun x => four_digits (link_year x)) l ->
  keyed w l = Returned (map (fun x => (year_key x, x)) l).
Proof.
  induction 1 as [|x l Hx _ IH]; cbn [keyed map]; [reflexivity|].
  unfold int_of. rewrite (year_key_four_digits x Hx). cbn [bind].
  rewrite IH. reflexivity.
Qed.

Lemma for_pages_break base_url a b : forall all all',
  for_pages w base_url target_year a all = (all', true) ->
  for_pages w base_url target_year (a ++ b) all = (all', true).
Proof.
  induction a as [|n a IH]; cbn [for_pages app]; intros all all' H;
    [discriminate|].
  destruct (page_body w base_url target_year all n); auto.
Qed.

End ListingFacts.

Section SortFacts.

Context {A : Type}.

Lemma insert_desc_perm (x : Z * A) l : Permutation (insert_desc x l) (x :: l).
Proof.
  induction l as [|y l IH]; cbn [insert_desc]; [reflexivity|].
  destruct (fst x <? fst y)%Z; [|reflexivity].
  rewrite IH. apply perm_swap.
Qed.

Lemma sort_desc_perm (l : list (Z * A)) : Permutation (sort_desc l) l.
Proof.
  induction l as [|x l IH]; cbn [sort_desc]; [reflexivity|].
  rewrite insert_desc_perm. now constructor.
Qed.

Lemma insert_desc_sorted (x : Z * A) l :
  StronglySorted desc l -> StronglySorted desc (insert_desc x l).
Proof.
  induction 1 as [|y l Hs IH Hy]; cbn [insert_desc].
  - repeat constructor.
  - destruct (fst x <? fst y)%Z eqn:E.
    + apply Z.ltb_lt in E. constructor; [exact IH|].
      rewrite (Forall_forall (desc y)). intros z Hz.
      apply (Permutation_in _ (insert_desc_perm x l)) in Hz.
      destruct Hz as [<-|Hz]; [unfold desc; lia|].
      rewrite Forall_forall in Hy. now apply Hy.
    + apply Z.ltb_ge in E. constructor; [now constructor|].
      constructor; [exact E|].
      eapply Forall_impl; [|exact Hy]. unfold desc. intros z Hz. lia.
Qed.

Lemma sort_desc_sorted (l : list (Z * A)) : StronglySorted desc (sort_desc l).
Proof.
  induction l as [|x l IH]; cbn [sort_desc]; [constructor|].
  now apply insert_desc_sorted.
Qed.

(** Inserting moves an entry past entries of greater key only, so the
    entries of any one key keep their order. *)
Lemma insert_desc_stable (x : Z * A) l y :
  filter (fun p => (fst p =? y)%Z) (insert_desc x l)
  = filter (fun p => (fst p =? y)%Z) (x :: l).
Proof.
  induction l as [|z l IH]; cbn [insert_desc]; [reflexivity|].
  destruct (fst x <? fst z)%Z eqn:E; [|reflexivity].
  apply Z.ltb_lt in E. cbn [filter] in *. rewrite IH.
  destruct (Z.eqb_spec (fst x) y), (Z.eqb_spec (fst z) y);
    try reflexivity. lia.
Qed.

Lemma sort_desc_stable (l : list (Z * A)) y :
  filter (fun p => (fst p =? y)%Z) (sort_desc l)
  = filter (fun p => (fst p =? y)%Z) l.
Proof.
  induction l as [|x l IH]; cbn [sort_desc]; [reflexivity|].
  rewrite insert_desc_stable. cbn [filter]. now rewrite IH.
Qed.

Variable f : A -> Z.

Lemma keyed_map_snd (l : list A) :
  map snd (map (fun x => (f x, x)) l) = l.
Proof. induction l as [|x l IH]; cbn [map]; [reflexivity|]. now rewrite IH. Qed.

Lemma sorted_map_snd (l : list (Z * A)) :
  Forall (fun p => fst p = f (snd p)) l ->
  StronglySorted desc l ->
  StronglySorted (fun a b => (f b <= f a)%Z) (map snd l).
Proof.
  intros Hk Hs. induction Hs as [|p l Hs IH Hp]; cbn [map]; [constructor|].
  inversion Hk as [|? ? Hp0 Hl]; subst.
  constructor; [now apply IH|].
  rewrite Forall_forall in *. intros b Hb.
  apply in_map_iff in Hb. destruct Hb as (q & <- & Hq).
  rewrite <- Hp0, <- (Hl q Hq). now apply Hp.
Qed.

Lemma filter_map_snd (l : list (Z * A)) y :
  Forall (fun p => fst p = f (snd p)) l ->
  filter (fun x => (f x =? y)%Z) (map snd l)
  = map snd (filter (fun p => (fst p =? y)%Z) l).
Proof.
  induction 1 as [|p l Hp _ IH]; cbn [map filter]; [reflexivity|].
  rewrite <- Hp, IH. destruct (fst p =? y)%Z; reflexivity.
Qed.

Lemma keyed_fst (l : list A) :
  Forall (fun p => fst p = f (snd p)) (map (fun x => (f x, x)) l).
Proof. induction l; cbn [map]; constructor; auto. Qed.

End SortFacts.

Section WholeListing.

Variable w : ListingWorld.
Variable base_url : string.
Variable target_year : Z.

(** The function returns the collected entries, sorted. *)
Lemma listing_result :
  get_order_paper_urls_all_pages w base_url target_year
  = Returned
      (map snd (sort_desc (map (fun x => (year_key x, x))
                               (collected w base_url target_year)))).
Proof.
  unfold get_order_paper_urls_all_pages. cbv zeta.
  fold (collected w base_url target_year).
  rewrite keyed_four_digits; [reflexivity|].
  eapply Forall_impl; [|apply collected_ok].
  intros x Hx. exact (proj1 Hx).
Qed.

Lemma listing_perm l :
  get_order_paper_urls_all_pages w base_url target_year = Returned l ->
  Permutation l (collected w base_url target_year).
Proof.
  rewrite listing_result. intros [= <-].
  rewrite <- (keyed_map_snd year_key (collected w base_url target_year)) at 2.
  apply Permutation_map, sort_desc_perm.
Qed.

End WholeListing.

Section ListingExt.

Variables w1 w2 : ListingWorld.
Variable base_url : string.
Variable target_year : Z.

Hypothesis same_urljoin : forall b h, urljoin w1 b h = urljoin w2 b h.
Hypothesis same_int_error : forall t, int_error w1 t = int_error w2 t.

Lemma link_step_ext st link :
  link_step w1 target_year st link = link_step w2 target_year st link.
Proof.
  unfold link_step, int_of. cbv zeta.
  destruct (looks_like_order_paper (fst link)); cbn [negb]; [|reflexivity].
  destruct (extract_year_from_title (fst link)) as [year|]; [|reflexivity].
  destruct (truthy year); cbn [negb]; [|reflexivity].
  rewrite same_int_error.
  destruct (py_int year); cbn [bind]; [|reflexivity].
  now rewrite same_urljoin.
Qed.

Lemma for_links_ext links : forall st,
  for_links w1 target_year links st = for_links w2 target_year links st.
Proof.
  induction links as [|l links IH]; cbn [for_links]; intro st; [reflexivity|].
  rewrite link_step_ext.
  destruct (link_step w2 target_year st l); cbn [bind]; auto.
Qed.

Lemma page_body_ext all n :
  get_listing w1 (page_url base_url n) = get_listing w2 (page_url base_url n) ->
  page_body w1 base_url target_year all n
  = page_body w2 base_url target_year all n.
Proof.
  intro H. unfold page_body, scrape_page. rewrite H.
  destruct (get_listing w2 (page_url base_url n)); cbn [bind]; [|reflexivity].
  now rewrite for_links_ext.
Qed.

Lemma for_pages_ext pages : forall all,
  (forall n, In n pages ->
     get_listing w1 (page_url base_url n)
     = get_listing w2 (page_url base_url n)) ->
  for_pages w1 base_url target_year pages all
  = for_pages w2 base_url target_year pages all.
Proof.
  induction pages as [|n pages IH]; cbn [for_pages]; intros all H;
    [reflexivity|].
  rewrite page_body_ext by (apply H; now left).
  destruct (page_body w2 base_url target_year all n); [|reflexivity].
  apply IH. intros k Hk. apply H. now right.
Qed.

End ListingExt.

(* ================================================================== *)
(** * [get_order_paper_urls_all_pages] *)
(* ================================================================== *)


(** X6: every entry returned has a year of four digits that is the year
    [extract_year_from_title] finds in its title, its title passed the
    order-paper test, and its year as a number is at least
    [target_year]. *)
Theorem X6_listed_papers_are_from_target_year_on
        (w : ListingWorld) (base_url : string) (target_year : Z)
        (l : list PaperLink) (x : PaperLink) :
  get_order_paper_urls_all_pages w base_url target_year = Returned l ->
  In x l ->
  String.length (link_year x) = 4
  /\ all_chars is_digit (link_year x) = true
  /\ extract_year_from_title (link_title x) = Some (link_year x)
  /\ looks_like_order_paper (link_title x) = true
  /\ exists z, py_int (link_year x) = Some z /\ (target_year <= z)%Z.
Proof.
  intros Hl Hx.
  apply (Permutation_in _ (listing_perm _ _ _ _ Hl)) in Hx.
  pose proof (collected_ok w target_year base_url) as Hok.
  rewrite Forall_forall in Hok.
  destruct (Hok x Hx) as ([Hlen Hd] & Hy & Hlook & Hge).
  repeat split; auto.
  exists (year_key x). split; [|exact Hge].
  apply year_key_four_digits. now split.
Qed.

Lemma X6_listed_papers_are_from_target_year_on_witness :
  String.length (link_year paper_2020) = 4
  /\ all_chars is_digit (link_year paper_2020) = true
  /\ extract_year_from_title (link_title paper_2020)
     = Some (link_year paper_2020)
  /\ looks_like_order_paper (link_title paper_2020) = true
  /\ exists z, py_int (link_year paper_2020) = Some z /\ (2006 <= z)%Z.
Proof.
  refine (X6_listed_papers_are_from_target_year_on
            demo_listing "L" 2006%Z [paper_2024; paper_2020] paper_2020 _ _).
  - vm_compute. reflexivity.
  - right. left. reflexivity.
Defined.

(** X7: the returned list is ordered by year, newest first, and entries of
    the same year stay in the order in which the page loop collected
    them. *)
Theorem X7_listing_is_sorted_newest_first_and_stable
        (w : ListingWorld) (base_url : string) (target_year : Z)
        (l : list PaperLink) :
  get_order_paper_urls_all_pages w base_url target_year = Returned l ->
  StronglySorted newest_first l
  /\ forall y, of_year y l = of_year y (collected w base_url target_year).
Proof.
  rewrite listing_result. intros [= <-]. split.
  - apply (sorted_map_snd year_key); [|apply sort_desc_sorted].
    rewrite Forall_forall. intros p Hp.
    apply (Permutation_in _ (sort_desc_perm _)) in Hp.
    pose proof (keyed_fst year_key (collected w base_url target_year)) as H.
    rewrite Forall_forall in H. now apply H.
  - intro y. unfold of_year.
    rewrite (filter_map_snd year_key).
    + rewrite sort_desc_stable.
      rewrite <- (filter_map_snd year_key) by apply keyed_fst.
      now rewrite keyed_map_snd.
    + rewrite Forall_forall. intros p Hp.
      apply (Permutation_in _ (sort_desc_perm _)) in Hp.
      pose proof (keyed_fst year_key (collected w base_url target_year)) as H.
      rewrite Forall_forall in H. now apply H.
Qed.

Lemma X7_listing_is_sorted_newest_first_and_stable_witness :
  StronglySorted newest_first [paper_2024; paper_2020]
  /\ forall y, of_year y [paper_2024; paper_2020]
               = of_year y (collected demo_listing "L" 2006%Z).
Proof.
  refine (X7_listing_is_sorted_newest_first_and_stable
            demo_listing "L" 2006%Z [paper_2024; paper_2020] _).
  vm_compute. reflexivity.
Defined.



(** X9: the function reads eighteen addresses at most, [base_url] and
    [base_url?page=1] to [base_url?page=17]: two worlds that answer alike
    there (and join addresses alike) give the same result. *)
Theorem X9_only_eighteen_pages_are_read
        (w1 w2 : ListingWorld) (base_url : string) (target_year : Z) :
  same_pages w1 w2 base_url 18 ->
  get_order_paper_urls_all_pages w1 base_url target_year
  = get_order_paper_urls_all_pages w2 base_url target_year.
Proof.
  intros (Hp & Hu & Hi).
  rewrite !listing_result. unfold collected.
  rewrite (for_pages_ext w1 w2 base_url target_year Hu Hi); [reflexivity|].
  intros n Hn. apply Hp. apply in_seq in Hn. lia.
Qed.

Lemma X9_only_eighteen_pages_are_read_witness :
  get_order_paper_urls_all_pages demo_listing "L" 2006%Z
  = get_order_paper_urls_all_pages demo_listing_elsewhere "L" 2006%Z.
Proof.
  refine (X9_only_eighteen_pages_are_read
            demo_listing demo_listing_elsewhere "L" 2006%Z _).
  split; [|split; reflexivity].
  intros k Hk.
  do 18 (destruct k as [|k]; [vm_compute; reflexivity|]). lia.
Defined.

(** X10: once the page loop has broken at page [k] or before, no later
    page is read: the entries are those collected up to the break, and a
    world that differs only on later pages gives the same result. *)
Theorem X10_no_page_is_read_after_the_break
        (w1 w2 : ListingWorld) (base_url : string) (target_year : Z)
        (k : nat) :
  k < 18 ->
  snd (for_pages w1 base_url target_year (seq 0 (S k)) []) = true ->
  same_pages w1 w2 base_url (S k) ->
  collected w1 base_url target_year
  = fst (for_pages w1 base_url target_year (seq 0 (S k)) [])
  /\ get_order_paper_urls_all_pages w1 base_url target_year
     = get_order_paper_urls_all_pages w2 base_url target_year.
Proof.
  intros Hk Hbreak (Hp & Hu & Hi).
  assert (Hsplit : seq 0 18 = seq 0 (S k) ++ seq (S k) (18 - S k)).
  { rewrite <- seq_app. f_equal. lia. }
  assert (Hsame : for_pages w1 base_url target_year (seq 0 (S k)) []
                  = for_pages w2 base_url target_year (seq 0 (S k)) []).
  { apply for_pages_ext; auto. intros n Hn. apply Hp.
    apply in_seq in Hn. lia. }
  destruct (for_pages w1 base_url target_year (seq 0 (S k)) [])
    as [all b] eqn:E1.
  cbn [snd] in Hbreak. subst b. cbn [fst].
  assert (C1 : collected w1 base_url target_year = all).
  { unfold collected. rewrite Hsplit.
    now rewrite (for_pages_break _ _ _ _ _ _ _ E1). }
  assert (C2 : collected w2 base_url target_year = all).
  { unfold collected. rewrite Hsplit.
    now rewrite (for_pages_break _ _ _ _ _ _ _ (eq_sym Hsame)). }
  split; [exact C1|]. rewrite !listing_result. now rewrite C1, C2.
Qed.

Lemma X10_no_page_is_read_after_the_break_witness :
  collected demo_listing "L" 2006%Z
  = fst (for_pages demo_listing "L" 2006%Z (seq 0 3) [])
  /\ get_order_paper_urls_all_pages demo_listing "L" 2006%Z
     = get_order_paper_urls_all_pages demo_listing_longer "L" 2006%Z.
Proof.
  refine (X10_no_page_is_read_after_the_break
            demo_listing demo_listing_longer "L" 2006%Z 2 _ _ _).
  - lia.
  - vm_compute. reflexivity.
  - split; [|split; reflexivity].
    intros k Hk.
    do 3 (destruct k as [|k]; [vm_compute; reflexivity|]). lia.
Defined.

(* ================================================================== *)
(** * Lemmas on file names *)
(* ================================================================== *)

Section FileNameFacts.

Lemma path_exists_In fs p : path_exists fs p = true <-> In p fs.
Proof.
  unfold path_exists. rewrite existsb_exists. split.
  - intros (q & Hq & E). apply String.eqb_eq in E. now subst.
  - intro H. exists p. split; [exact H|apply String.eqb_refl].
Qed.

Lemma append_inj_left (a b c : string) :
  (a ++ b = a ++ c)%string -> b = c.
Proof. induction a as [|x a IH]; simpl; [auto|]. intros [= H]. auto. Qed.

Lemma append_inj_right (c : string) : forall a b : string,
  (a ++ c = b ++ c)%string -> a = b.
Proof.
  induction a as [|x a IH]; intros [|y b] H; try reflexivity.
  - apply (f_equal String.length) in H. simpl in H.
    rewrite length_app in H. lia.
  - apply (f_equal String.length) in H. simpl in H.
    rewrite length_app in H. lia.
  - simpl in H. injection H as -> H. f_equal. now apply IH.
Qed.

Lemma decimal_inj j k : decimal j = decimal k -> j = k.
Proof.
  unfold decimal. intro H.
  apply (f_equal NilEmpty.uint_of_string) in H.
  rewrite !NilEmpty.usu in H. injection H as H.
  now apply DecimalNat.Unsigned.to_uint_inj.
Qed.

(** Different counters give different names. *)
Lemma numbered_inj be j k : numbered be j = numbered be k -> j = k.
Proof.
  unfold numbered. intro H.
  apply append_inj_left in H. simpl in H. injection H as H.
  apply append_inj_right in H. now apply decimal_inj.
Qed.

Lemma numbered_NoDup be c n :
  NoDup (map (fun j => numbered be (c + j)) (seq 0 n)).
Proof.
  apply Finite.Injective_map_NoDup; [|apply seq_NoDup].
  intros j k H. apply numbered_inj in H. lia.
Qed.

(** Only as many numbered names can exist as there are paths. *)
Lemma numbered_pigeonhole fs be c n :
  (forall j, j < n -> path_exists fs (numbered be (c + j)) = true) ->
  n <= List.length fs.
Proof.
  intro H.
  rewrite <- (length_seq n 0), <- (length_map (fun j => numbered be (c + j))).
  apply NoDup_incl_length; [apply numbered_NoDup|].
  intros p Hp. apply in_map_iff in Hp. destruct Hp as (j & <- & Hj).
  apply path_exists_In, H. apply in_seq in Hj. lia.
Qed.

Variable w : BatchWorld.
Variable fs : paths.
Variable original : string.

Lemma unique_filename_none fuel : forall filename counter,
  unique_filename w fs original fuel filename counter = None ->
  forall j, j < fuel ->
    path_exists fs (numbered (splitext w original) (counter + j)) = true.
Proof.
  induction fuel as [|fuel IH]; intros filename counter H j Hj; [lia|].
  cbn [unique_filename] in H.
  destruct (path_exists fs filename); [|discriminate].
  destruct fuel as [|fuel'].
  - replace j with 0 by lia. rewrite Nat.add_0_r.
    cbn [unique_filename] in H.
    now destruct (path_exists fs (numbered (splitext w original) counter)).
  - destruct j as [|j].
    + rewrite Nat.add_0_r.
      cbn [unique_filename] in H.
      now destruct (path_exists fs (numbered (splitext w original) counter)).
    + replace (counter + S j) with (S counter + j) by lia.
      eapply IH; [exact H|lia].
Qed.

(** The name the loop ends with: the first free one among the name it
    started with and the numbered names from [counter] on. *)
Lemma unique_filename_some fuel : forall filename counter f,
  unique_filename w fs original fuel filename counter = Some f ->
  path_exists fs f = false
  /\ (f = filename
      \/ (path_exists fs filename = true
          /\ exists k, counter <= k
               /\ f = numbered (splitext w original) k
               /\ forall j, counter <= j < k ->
                    path_exists fs (numbered (splitext w original) j) = true)).
Proof.
  induction fuel as [|fuel IH]; intros filename counter f H;
    cbn [unique_filename] in H;
    destruct (path_exists fs filename) eqn:E; try discriminate.
  - injection H as <-. auto.
  - apply IH in H. destruct H as [Hfree [->|(Hex & k & Hk & -> & Hall)]].
    + split; [exact Hfree|]. right. split; [reflexivity|].
      exists counter. repeat split; auto. intros j Hj. lia.
    + split; [exact Hfree|]. right. split; [reflexivity|].
      exists k. repeat split; [lia|].
      intros j Hj. destruct (Nat.eq_dec j counter) as [->|]; [exact Hex|].
      apply Hall. lia.
  - injection H as <-. auto.
Qed.

Lemma unique_filename_total fuel counter :
  List.length fs < fuel ->
  exists f, unique_filename w fs original fuel original counter = Some f.
Proof.
  intro Hfuel.
  destruct (unique_filename w fs original fuel original counter) as [f|] eqn:E;
    [eauto|].
  pose proof (numbered_pigeonhole fs (splitext w original) counter fuel
                (unique_filename_none fuel original counter E)).
  lia.
Qed.

End FileNameFacts.

(* ================================================================== *)
(** * Lemmas on the batch *)
(* ================================================================== *)

Section BatchFacts.

Variable w : BatchWorld.

Lemma combine_snoc {A B} (l : list A) (r : list B) a b :
  List.length l = List.length r ->
  combine (l ++ [a]) (r ++ [b]) = combine l r ++ [(a, b)].
Proof.
  revert r. induction l as [|x l IH]; intros [|y r] H; try discriminate.
  - reflexivity.
  - simpl. f_equal. apply IH. now injection H.
Qed.

(** A print returns, or raises what the standard output answered. *)
Lemma py_print_cases text :
  py_print w text = Returned tt
  \/ exists msg, py_print w text = Raised msg /\ from_outside w msg.
Proof.
  unfold py_print. destruct (print_error w text) as [msg|] eqn:E; [|auto].
  right. exists msg. split; [reflexivity|]. right; right. eauto.
Qed.

Lemma paper_step_spec fs0 total i st paper :
  batch_inv fs0 st ->
  exists o, paper_step w total i st paper = Some o
    /\ match o with
       | Returned st' =>
           batch_inv fs0 st'
           /\ all_results st'
              = all_results st ++ successes (results_of w [paper])
       | Raised msg => from_outside w msg
       end.
Proof.
  intros (Hincl & Hcount & names & Hlen & Hw & Hnd & Hin & Hfresh).
  unfold paper_step, results_of. cbn [map successes].
  destruct (py_print_cases (processing_text i total paper))
    as [Ep|(msg & Ep & Hmsg)]; rewrite Ep;
    [|eexists; split; [reflexivity|exact Hmsg]].
  destruct (extract_parliament_questions (pages w) (link_url paper))
    as [result|message url].
  - cbv zeta.
    destruct (unique_filename_total w (fs_now st) (paper_filename result paper)
                (S (List.length (fs_now st))) 1 (Nat.lt_succ_diag_r _))
      as [f Hf].
    rewrite Hf.
    apply unique_filename_some in Hf. destruct Hf as [Hfree _].
    unfold write_file. rewrite Hfree.
    destruct (open_error w (fs_now st) f) as [msg|] eqn:Eo; cbn [bind].
    + eexists. split; [reflexivity|]. right; left. eauto.
    + destruct (py_print_cases (saved_text result f))
        as [Es|(msg & Es & Hmsg)]; rewrite Es; cbn [bind];
        (eexists; split; [reflexivity|]); [|exact Hmsg].
      assert (Hnot : ~ In f (fs_now st)).
      { intro Hf. apply path_exists_In in Hf. congruence. }
      split; [|reflexivity].
      unfold batch_inv. cbn [fs_now successful_count all_results written].
      split; [now apply incl_tl|].
      split; [rewrite List.length_app; simpl; lia|].
      exists (names ++ [f]). repeat split.
      * rewrite !List.length_app. simpl. lia.
      * rewrite map_app. cbn [map].
        rewrite combine_snoc by now rewrite length_map.
        now rewrite Hw.
      * apply NoDup_app; [exact Hnd|repeat constructor; intros []|].
        intros x Hx [<-|[]]. apply Hnot, Hin, Hx.
      * apply incl_app; [now apply incl_tl|].
        intros x [<-|[]]. now left.
      * intros x Hx. apply in_app_or in Hx. destruct Hx as [Hx|[<-|[]]];
          [now apply Hfresh|]. intro H0. apply Hnot, Hincl, H0.
  - destruct (py_print_cases (failed_text message))
      as [Ef|(msg & Ef & Hmsg)]; rewrite Ef; cbn [bind];
      (eexists; split; [reflexivity|]); [|exact Hmsg].
    split; [|now rewrite app_nil_r].
    unfold batch_inv. eauto 10.
Qed.

Lemma successes_app a b : successes (a ++ b) = successes a ++ successes b.
Proof.
  induction a as [|[d|m u] a IH]; cbn [app successes]; [reflexivity| |auto].
  now rewrite IH.
Qed.

Lemma for_papers_spec fs0 total papers : forall i st,
  batch_inv fs0 st ->
  exists o, for_papers w total i papers st = Some o
    /\ match o with
       | Returned st' =>
           batch_inv fs0 st'
           /\ all_results st'
              = all_results st ++ successes (results_of w papers)
       | Raised msg => from_outside w msg
       end.
Proof.
  induction papers as [|paper papers IH]; intros i st Hst; cbn [for_papers].
  - eexists. split; [reflexivity|]. split; [exact Hst|].
    cbn. now rewrite app_nil_r.
  - destruct (paper_step_spec fs0 total i st paper Hst) as (o & Ho & Hspec).
    rewrite Ho. destruct o as [st1|msg].
    + destruct Hspec as [Hinv1 Hres1].
      destruct (IH (S i) st1 Hinv1) as (o2 & Ho2 & Hspec2).
      exists o2. split; [exact Ho2|].
      destruct o2 as [st2|msg2]; [|exact Hspec2].
      destruct Hspec2 as [Hinv2 Hres2]. split; [exact Hinv2|].
      rewrite Hres2, Hres1.
      change (results_of w (paper :: papers))
        with (results_of w [paper] ++ results_of w papers).
      now rewrite successes_app, app_assoc.
    + eexists. split; [reflexivity|]. exact Hspec.
Qed.

(** The [int] of the year found in a date cannot fail. *)
Lemma years_of_returns results :
  exists ys, years_of w results = Returned ys.
Proof.
  induction results as [|r rest (more & IH)]; cbn [years_of]; [eauto|].
  rewrite IH.
  destruct (date (metadata r)) as [d|]; cbn [bind]; [|eauto].
  destruct (truthy d); cbn [bind]; [|eauto].
  destruct (re_search year_in_date d) as [m|] eqn:E; cbn [bind]; [|eauto].
  apply search_at_inv in E. destruct E as (pre & suf & p & _ & E).
  unfold year_in_date in E. apply smatch_grp_inv in E.
  destruct E as (y & s' & p' & g' & _ & Hy & Hk & _).
  injection Hk as <-. rewrite set_group_same.
  apply rep_exact_length in Hy. destruct Hy as [Hd Hl].
  unfold int_of. rewrite (four_digits_int y (conj Hl Hd)). cbn [bind]. eauto.
Qed.

Lemma print_summary_cases n st :
  print_summary w n st = Returned tt
  \/ exists msg, print_summary w n st = Raised msg /\ from_outside w msg.
Proof.
  unfold print_summary. cbv zeta.
  repeat match goal with
  | |- context [bind (py_print w ?t) _] =>
      destruct (py_print_cases t) as [->|(? & -> & ?)]; cbn [bind];
      [|right; eauto]
  end.
  assert (Hy : forall (k : unit -> outcome unit),
    (k tt = Returned tt
     \/ exists msg, k tt = Raised msg /\ from_outside w msg) ->
    bind (match all_results st with
          | [] => Returned tt
          | _ :: _ =>
              bind (years_of w (all_results st)) (fun years =>
              match years with
              | [] => Returned tt
              | y :: ys =>
                  py_print w (Wide.lit ("Date range covered: "
                                        ++ decimal_Z (min_of y ys) ++ " - "
                                        ++ decimal_Z (max_of y ys)))
              end)
          end) k = Returned tt
    \/ exists msg,
         bind (match all_results st with
               | [] => Returned tt
               | _ :: _ =>
                   bind (years_of w (all_results st)) (fun years =>
                   match years with
                   | [] => Returned tt
                   | y :: ys =>
                       py_print w (Wide.lit ("Date range covered: "
                                             ++ decimal_Z (min_of y ys) ++ " - "
                                             ++ decimal_Z (max_of y ys)))
                   end)
               end) k = Raised msg /\ from_outside w msg).
  { intros k Hk.
    destruct (all_results st) as [|r rs]; cbn [bind]; [exact Hk|].
    destruct (years_of_returns (r :: rs)) as (ys & ->). cbn [bind].
    destruct ys as [|y ys]; cbn [bind]; [exact Hk|].
    match goal with
    | |- context [py_print w ?t] =>
        destruct (py_print_cases t) as [->|(? & -> & ?)]; cbn [bind];
        [exact Hk|right; eauto]
    end. }
  apply Hy. apply py_print_cases.
Qed.

End BatchFacts.

Section ProcessFacts.

Variable w : BatchWorld.
Variable target_year : Z.
Variable fs : paths.

Lemma ensure_datasets_folder_incl fs1 :
  ensure_datasets_folder w fs = Returned fs1 -> incl fs fs1.
Proof.
  unfold ensure_datasets_folder.
  destruct (path_exists fs "datasets"); cbn [negb].
  - intros [= <-]. apply incl_refl.
  - destruct (makedirs_error w fs); [discriminate|].
    intros [= <-]. now apply incl_tl, incl_refl.
Qed.

(** Everything the batch does, in one statement. *)
Lemma process_spec :
  exists o, process_all_papers w target_year fs = Some o
    /\ match o with
       | Returned st =>
           exists papers names,
             get_order_paper_urls_all_pages (listing w) list_url target_year
             = Returned papers
             /\ all_results st = successes (results_of w papers)
             /\ successful_count st = List.length (all_results st)
             /\ List.length names = List.length (all_results st)
             /\ NoDup names
             /\ (forall f, In f names -> path_exists fs f = false)
             /\ ((papers = [] /\ written st = [])
                 \/ (papers <> []
                     /\ written st
                        = combine names (map PaperJson (all_results st))
                          ++ [(combined_filename,
                               CombinedJson (all_results st))]))
       | Raised msg => from_outside w msg
       end.
Proof.
  unfold process_all_papers.
  destruct (ensure_datasets_folder w fs) as [fs1|msg] eqn:Efs.
  2:{ eexists. split; [reflexivity|]. left.
      unfold ensure_datasets_folder in Efs.
      destruct (path_exists fs "datasets"); [discriminate|].
      cbn [negb] in Efs.
      destruct (makedirs_error w fs) eqn:E; [|discriminate].
      injection Efs as <-. eauto. }
  pose proof (ensure_datasets_folder_incl _ Efs) as Hincl.
  rewrite listing_result.
  set (papers := map snd (sort_desc _)).
  assert (Hinit : batch_inv fs1 (mkBatch fs1 [] [] 0)).
  { unfold batch_inv. cbn. split; [apply incl_refl|]. split; [reflexivity|].
    exists []. repeat split; auto using NoDup_nil, incl_nil_l. }
  destruct papers as [|p papers'] eqn:Ep.
  - destruct (py_print_cases w
                (Wide.lit "No papers found matching the criteria"))
      as [->|(msg & -> & Hmsg)]; cbn [bind];
      (eexists; split; [reflexivity|]); [|exact Hmsg].
    exists [], []. cbn. repeat split; auto using NoDup_nil.
    intros f [].
  - destruct (for_papers_spec w fs1 (List.length (p :: papers'))
                              (p :: papers') 1 _ Hinit)
      as (o & Ho & Hspec).
    rewrite Ho. destruct o as [st|msg].
    + destruct Hspec as [(Hi & Hc & names & Hlen & Hw & Hnd & Hin & Hfresh)
                           Hres].
      cbn [all_results app] in Hres.
      unfold write_file.
      destruct (open_error w (fs_now st) combined_filename) as [msg|] eqn:Eo;
        cbn [bind].
      * eexists. split; [reflexivity|]. right; left. eauto.
      * cbv zeta.
        match goal with
        | |- context [print_summary w ?n ?s] =>
            destruct (print_summary_cases w n s) as [->|(msg & -> & Hmsg)]
        end; cbn [bind]; (eexists; split; [reflexivity|]); [|exact Hmsg].
        exists (p :: papers'), names.
        cbn [all_results successful_count written].
        repeat split; auto.
        -- intros f Hf. destruct (path_exists fs f) eqn:E; [|reflexivity].
           apply path_exists_In in E. exfalso.
           apply (Hfresh f Hf), Hincl, E.
        -- right. split; [discriminate|]. now rewrite Hw.
    + eexists. split; [reflexivity|]. exact Hspec.
Qed.

End ProcessFacts.

(* ================================================================== *)
(** * [process_all_papers] *)
(* ================================================================== *)

(** X11: on a file system with finitely many paths, the loop that makes a
    file name unique ends within one pass more than there are paths.  The
    name it ends with does not exist; it is the original name when that is
    free, and otherwise [base_k ext] for the least counter [k], from 1 on,
    whose name is free. *)
Theorem X11_unique_filename_is_first_free
        (w : BatchWorld) (fs : paths) (original : string) (fuel : nat) :
  List.length fs < fuel ->
  exists f,
    unique_filename w fs original fuel original 1 = Some f
    /\ path_exists fs f = false
    /\ (f = original
        \/ (path_exists fs original = true
            /\ exists k, 1 <= k
                 /\ f = numbered (splitext w original) k
                 /\ forall j, 1 <= j < k ->
                      path_exists fs (numbered (splitext w original) j)
                      = true)).
Proof.
  intro Hfuel.
  destruct (unique_filename_total w fs original fuel 1 Hfuel) as [f Hf].
  exists f. split; [exact Hf|].
  now apply unique_filename_some in Hf.
Qed.

Lemma X11_unique_filename_is_first_free_witness :
  exists f,
    unique_filename demo_batch demo_fs
      "datasets/paper_FRIDAY_21ST_JUNE_2024.json" 3
      "datasets/paper_FRIDAY_21ST_JUNE_2024.json" 1 = Some f
    /\ path_exists demo_fs f = false
    /\ (f = "datasets/paper_FRIDAY_21ST_JUNE_2024.json"
        \/ (path_exists demo_fs "datasets/paper_FRIDAY_21ST_JUNE_2024.json"
            = true
            /\ exists k, 1 <= k
                 /\ f = numbered
                          (splitext demo_batch
                             "datasets/paper_FRIDAY_21ST_JUNE_2024.json") k
                 /\ forall j, 1 <= j < k ->
                      path_exists demo_fs
                        (numbered
                           (splitext demo_batch
                              "datasets/paper_FRIDAY_21ST_JUNE_2024.json") j)
                      = true)).
Proof.
  refine (X11_unique_filename_is_first_free
            demo_batch demo_fs
            "datasets/paper_FRIDAY_21ST_JUNE_2024.json" 3 _).
  simpl. lia.
Defined.

(** X12: when the batch returns, [all_results] holds the documents of
    exactly those listed papers whose extraction succeeded, in the order of
    the listing (newest first), and [successful_count] is their number: a
    paper whose extraction fails is passed over and the papers after it are
    still processed. *)
Theorem X12_batch_collects_the_successes
        (w : BatchWorld) (target_year : Z) (fs : paths) (st : batch_state) :
  process_all_papers w target_year fs = Some (Returned st) ->
  exists papers,
    get_order_paper_urls_all_pages (listing w) list_url target_year
    = Returned papers
    /\ all_results st = successes (results_of w papers)
    /\ successful_count st = List.length (all_results st).
Proof.
  intro H.
  destruct (process_spec w target_year fs) as (o & Ho & Hspec).
  rewrite H in Ho. injection Ho as <-.
  destruct Hspec as (papers & names & Hp & Hres & Hc & _).
  eauto.
Qed.

Lemma X12_batch_collects_the_successes_witness :
  exists papers,
    get_order_paper_urls_all_pages (listing demo_batch) list_url 2006%Z
    = Returned papers
    /\ all_results demo_batch_end = successes (results_of demo_batch papers)
    /\ successful_count demo_batch_end
       = List.length (all_results demo_batch_end).
Proof.
  refine (X12_batch_collects_the_successes
            demo_batch 2006%Z demo_fs demo_batch_end _).
  vm_compute. reflexivity.
Defined.

(** X13: when the batch returns, every successful document was written to
    a file of its own, in order, followed by the combined file with all of
    them; nothing at all is written exactly when the listing is empty.  The
    names of the per-paper files are pairwise different and none of them
    existed when the batch started: no paper overwrites an existing file or
    the file of another paper. *)
Theorem X13_paper_files_are_new_and_distinct
        (w : BatchWorld) (target_year : Z) (fs : paths) (st : batch_state) :
  process_all_papers w target_year fs = Some (Returned st) ->
  exists papers names,
    get_order_paper_urls_all_pages (listing w) list_url target_year
    = Returned papers
    /\ List.length names = List.length (all_results st)
    /\ NoDup names
    /\ (forall f, In f names -> path_exists fs f = false)
    /\ ((papers = [] /\ written st = [])
        \/ (papers <> []
            /\ written st
               = combine names (map PaperJson (all_results st))
                 ++ [(combined_filename, CombinedJson (all_results st))])).
Proof.
  intro H.
  destruct (process_spec w target_year fs) as (o & Ho & Hspec).
  rewrite H in Ho. injection Ho as <-.
  destruct Hspec as (papers & names & Hp & _ & _ & Hlen & Hnd & Hfresh & Hw).
  exists papers, names. repeat split; auto.
Qed.

Lemma X13_paper_files_are_new_and_distinct_witness :
  exists papers names,
    get_order_paper_urls_all_pages (listing demo_batch) list_url 2006%Z
    = Returned papers
    /\ List.length names = List.length (all_results demo_batch_end)
    /\ NoDup names
    /\ (forall f, In f names -> path_exists demo_fs f = false)
    /\ ((papers = [] /\ written demo_batch_end = [])
        \/ (papers <> []
            /\ written demo_batch_end
               = combine names (map PaperJson (all_results demo_batch_end))
                 ++ [(combined_filename,
                      CombinedJson (all_results demo_batch_end))])).
Proof.
  refine (X13_paper_files_are_new_and_distinct
            demo_batch 2006%Z demo_fs demo_batch_end _).
  vm_compute. reflexivity.
Defined.

(** X14: the batch always comes to an end, and the only exceptions that
    end it are those of creating the folder, of writing a file and of a
    print that the standard output refuses: when the file system accepts
    the folder and the files and the standard output accepts every text,
    it returns, whatever the listing and the paper pages answer. *)
Theorem X14_only_files_and_prints_can_stop_the_batch
        (w : BatchWorld) (target_year : Z) (fs : paths) :
  (exists o, process_all_papers w target_year fs = Some o)
  /\ (forall msg,
        process_all_papers w target_year fs = Some (Raised msg) ->
        (exists fs', makedirs_error w fs' = Some msg)
        \/ (exists fs' f, open_error w fs' f = Some msg)
        \/ (exists text, print_error w text = Some msg))
  /\ ((forall fs', makedirs_error w fs' = None) ->
      (forall fs' f, open_error w fs' f = None) ->
      (forall text, print_error w text = None) ->
      exists st, process_all_papers w target_year fs = Some (Returned st)).
Proof.
  destruct (process_spec w target_year fs) as (o & Ho & Hspec).
  split; [eauto|]. split.
  - intros msg H. rewrite H in Ho. injection Ho as <-. exact Hspec.
  - intros Hm Hopen Hprint. destruct o as [st|msg]; [eauto|].
    destruct Hspec as [(fs' & E)|[(fs' & f & E)|(text & E)]].
    + rewrite Hm in E. discriminate.
    + rewrite Hopen in E. discriminate.
    + rewrite Hprint in E. discriminate.
Qed.

Lemma X14_only_files_and_prints_can_stop_the_batch_witness :
  (exists st,
     process_all_papers demo_batch 2006%Z demo_fs = Some (Returned st))
  /\ ((exists fs', makedirs_error demo_batch_ascii_stdout fs'
                   = Some "UnicodeEncodeError")
      \/ (exists fs' f, open_error demo_batch_ascii_stdout fs' f
                        = Some "UnicodeEncodeError")
      \/ (exists text, print_error demo_batch_ascii_stdout text
                       = Some "UnicodeEncodeError")).
Proof.
  split.
  - refine (proj2 (proj2 (X14_only_files_and_prints_can_stop_the_batch
                            demo_batch 2006%Z demo_fs)) _ _ _);
      intros; reflexivity.
  - refine (proj1 (proj2 (X14_only_files_and_prints_can_stop_the_batch
                            demo_batch_ascii_stdout 2006%Z demo_fs))
                  "UnicodeEncodeError" _).
    vm_compute. reflexivity.
Defined.

(* ================================================================== *)
(** * Lemmas on lines *)
(* ================================================================== *)

Section LineFacts.

Lemma split_nl_cons s : exists f fs, split_nl s = f :: fs.
Proof.
  induction s as [|c s (f & fs & IH)]; cbn [split_nl]; [eauto|].
  destruct (nat_of_ascii c =? 10); [eauto|]. rewrite IH. eauto.
Qed.

Lemma split_nl_no_newline s f :
  In f (split_nl s) -> all_chars not_newline f = true.
Proof.
  revert f. induction s as [|c s IH]; cbn [split_nl]; intros f Hf.
  - destruct Hf as [<-|[]]. reflexivity.
  - destruct (nat_of_ascii c =? 10) eqn:Ec.
    + destruct Hf as [<-|Hf]; [reflexivity|auto].
    + destruct (split_nl_cons s) as (f0 & fs & E). rewrite E in *.
      destruct Hf as [<-|Hf].
      * cbn [all_chars]. unfold not_newline at 1. rewrite Ec.
        apply IH. now left.
      * apply IH. now right.
Qed.

Lemma lstrip_keeps p s : all_chars p s = true -> all_chars p (lstrip s) = true.
Proof.
  induction s as [|c s IH]; cbn [lstrip]; [auto|]. intro H.
  destruct (is_space c); [|exact H].
  cbn [all_chars] in H. apply andb_prop in H. now apply IH.
Qed.

Lemma rstrip_keeps p s : all_chars p s = true -> all_chars p (rstrip s) = true.
Proof.
  induction s as [|c s IH]; cbn [rstrip all_chars]; [auto|]. intro H.
  apply andb_prop in H. destruct H as [Hc Hs]. specialize (IH Hs).
  destruct (rstrip s).
  - destruct (is_space c); cbn [all_chars]; [reflexivity|].
    now rewrite Hc.
  - cbn [all_chars] in *. now rewrite Hc.
Qed.

Lemma rstrip_idem s : rstrip (rstrip s) = rstrip s.
Proof.
  induction s as [|c s IH]; cbn [rstrip]; [reflexivity|].
  destruct (rstrip s) as [|d r] eqn:E.
  - destruct (is_space c) eqn:Ec; cbn [rstrip]; [reflexivity|].
    now rewrite Ec.
  - cbn [rstrip] in *. now rewrite IH.
Qed.

Lemma lstrip_head s :
  lstrip s = EmptyString
  \/ exists c t, lstrip s = String c t /\ is_space c = false.
Proof.
  induction s as [|c s IH]; cbn [lstrip]; [auto|].
  destruct (is_space c) eqn:E; [exact IH|eauto].
Qed.

Lemma rstrip_head c t :
  is_space c = false -> exists r, rstrip (String c t) = String c r.
Proof.
  intro H. cbn [rstrip]. destruct (rstrip t); [|eauto].
  rewrite H. eauto.
Qed.

Lemma strip_idem s : strip (strip s) = strip s.
Proof.
  unfold strip.
  destruct (lstrip_head s) as [E|(c & t & E & Hc)]; rewrite E.
  - reflexivity.
  - destruct (rstrip_head c t Hc) as (r & Er). rewrite Er.
    cbn [lstrip]. rewrite Hc, <- Er. apply rstrip_idem.
Qed.

(** A string strips to something exactly when it has a character that is
    not white space. *)
Lemma strip_truthy s : truthy (strip s) = negb (all_chars is_space s).
Proof.
  unfold strip. induction s as [|c s IH]; [reflexivity|].
  cbn [lstrip all_chars]. destruct (is_space c) eqn:Ec; [exact IH|].
  destruct (rstrip_head c s Ec) as (r & Er). now rewrite Er.
Qed.

Lemma not_blank_app a b : not_blank b -> not_blank (a ++ b).
Proof.
  unfold not_blank. rewrite !strip_truthy, all_chars_app.
  intro H. apply negb_true_iff in H. rewrite H.
  now rewrite andb_false_r.
Qed.

Lemma extract_lines_spec text line :
  In line (extract_lines text) ->
  line <> EmptyString /\ strip line = line
  /\ all_chars not_newline line = true.
Proof.
  unfold extract_lines. intro H.
  apply in_map_iff in H. destruct H as (f & <- & Hf).
  apply filter_In in Hf. destruct Hf as [Hf Ht].
  repeat split.
  - intro E. rewrite E in Ht. discriminate.
  - apply strip_idem.
  - unfold strip. apply rstrip_keeps, lstrip_keeps.
    now apply split_nl_no_newline in Hf.
Qed.

Lemma extract_lines_not_blank text :
  Forall not_blank (extract_lines text).
Proof.
  rewrite Forall_forall. intros line H.
  apply extract_lines_spec in H. destruct H as (Hne & Hs & _).
  unfold not_blank. rewrite Hs. now destruct line.
Qed.

End LineFacts.

(** ** Properties of the questions that depend on the lines read *)

Section LineInvariant.

Variable L : string -> Prop.
Variable Q : option string -> Prop.
Variable P : Question -> Prop.

Hypothesis Q_start : forall line,
  L line -> is_section_start line = true -> Q (Some line).
Hypothesis P_opened : forall line m sec,
  L line -> Q sec -> re_match question_pattern line = Some m ->
  P (opened m sec).
Hypothesis P_part : forall q line,
  L line -> is_part_line line = true -> P q ->
  P (mkQuestion (question_number q) (asked_by q) (minister q) (section q)
                (parts q ++ [line]) (question_text q)).
Hypothesis P_continued : forall q line,
  L line -> P q ->
  P (mkQuestion (question_number q) (asked_by q) (minister q) (section q)
                (extend_last (parts q) line) (question_text q)).
Hypothesis P_text : forall q line,
  L line -> P q ->
  P (mkQuestion (question_number q) (asked_by q) (minister q) (section q)
                (parts q)
                (Some (match question_text q with
                       | Some t => t
                       | None => ""
                       end ++ " " ++ line)%string)).

Lemma classify_line_inv s line :
  L line -> Q (current_section s) -> state_inv P s ->
  state_inv P (classify s line).
Proof.
  intros Hl Hsec Hs. pose proof (flush_inv P s Hs) as Hf.
  destruct Hs as [Hq Hc]. unfold classify.
  destruct (re_match question_pattern line) as [m|] eqn:Hm.
  - split; simpl; [exact Hf|]. intros q [= <-]. eapply P_opened; eauto.
  - destruct (current_question s) as [q|] eqn:Hcur; [|split; auto; congruence].
    specialize (Hc q eq_refl).
    change (is_match (re_match part_pattern (lower line)))
      with (is_part_line line).
    destruct (is_part_line line) eqn:Hp.
    + split; simpl; auto. intros q' [= <-]. now apply P_part.
    + destruct (parts q) as [|p ps] eqn:Hps.
      * destruct (contains "to ask the" line); simpl.
        -- split; auto. intros q' Hq'. rewrite Hcur in Hq'.
           now injection Hq' as <-.
        -- split; simpl; auto. intros q' [= <-].
           rewrite <- Hps. now apply P_text.
      * rewrite <- Hps.
        split; cbn [with_current st_questions current_question]; auto.
        intros q' [= <-]. now apply P_continued.
Qed.

Lemma loop_body_line_inv s line s' :
  L line -> line_inv Q P s -> loop_body s line = Next s' -> line_inv Q P s'.
Proof.
  intros Hl [Hsec Hs]. unfold loop_body.
  destruct (is_section_start line) eqn:Est.
  - intros [= <-]. split; [|exact Hs]. cbn. intros _. now apply Q_start.
  - destruct (is_terminator line && in_questions_section s); [discriminate|].
    destruct (in_questions_section s) eqn:Ein; intros [= <-].
    + split.
      * intros _.
        assert (E : current_section (classify s line) = current_section s).
        { unfold classify.
          destruct (re_match question_pattern line); [reflexivity|].
          destruct (current_question s) as [q|]; [|reflexivity].
          destruct (is_match _); [reflexivity|].
          destruct (parts q); [|reflexivity].
          destruct (contains "to ask the" line); reflexivity. }
        rewrite E. now apply Hsec.
      * apply classify_line_inv; auto.
    + split; [|exact Hs]. intro H. congruence.
Qed.

Lemma for_lines_line_inv lines : forall s,
  Forall L lines -> line_inv Q P s ->
  line_inv Q P (fst (for_lines lines s)).
Proof.
  induction lines as [|l lines IH]; cbn [for_lines]; intros s Hl Hs;
    [exact Hs|].
  inversion Hl as [|? ? Hl1 Hl2]; subst.
  destruct (loop_body s l) as [s'|] eqn:E; [|exact Hs].
  apply IH; [exact Hl2|]. eapply loop_body_line_inv; eauto.
Qed.

(** The questions before the clean-up loop. *)
Lemma flushed_line_inv lines :
  Forall L lines ->
  let s := fst (for_lines lines initial_state) in
  Forall P (flush (st_questions s) (current_question s)).
Proof.
  intros Hl s. apply flush_inv.
  apply (for_lines_line_inv lines initial_state Hl).
  split; [discriminate|]. split; [constructor|discriminate].
Qed.

End LineInvariant.

Section MoreQuestionFacts.

Lemma clean_question_header q : header_of (clean_question q) = header_of q.
Proof.
  unfold clean_question. destruct (question_text q); [|reflexivity].
  destruct (negb _); reflexivity.
Qed.

Lemma clean_question_section q : section (clean_question q) = section q.
Proof.
  unfold clean_question. destruct (question_text q); [|reflexivity].
  destruct (negb _); reflexivity.
Qed.

(** The clean-up leaves a question with a text that is not blank as it
    is. *)
Lemma clean_question_id q : text_not_blank q -> clean_question q = q.
Proof.
  unfold text_not_blank, clean_question. intro H.
  destruct (question_text q) as [t|] eqn:E; [|reflexivity].
  now rewrite (H t eq_refl).
Qed.

Lemma map_clean_id qs :
  Forall text_not_blank qs -> map clean_question qs = qs.
Proof.
  induction 1 as [|q qs Hq _ IH]; cbn [map]; [reflexivity|].
  now rewrite IH, clean_question_id.
Qed.

(** With lines that are not blank, no [question_text] is blank. *)
Lemma flushed_text_not_blank lines :
  Forall not_blank lines ->
  let s := fst (for_lines lines initial_state) in
  Forall text_not_blank (flush (st_questions s) (current_question s)).
Proof.
  apply (flushed_line_inv not_blank (fun _ => True) text_not_blank);
    unfold text_not_blank; cbn [question_text]; auto; try discriminate.
  intros q line Hl _ t [= <-].
  fold (not_blank
          (match question_text q with Some t => t | None => "" end
           ++ " " ++ line)).
  apply not_blank_app. now apply (not_blank_app " ").
Qed.

(** A line that does not open a question leaves the header fields of the
    questions as they are. *)
Lemma classify_heads s line :
  map header_of (flush (st_questions (classify s line))
                       (current_question (classify s line)))
  = map header_of (flush (st_questions s) (current_question s))
    ++ match re_match question_pattern line with
       | Some m => [(group m 1, strip (group m 2), strip (group m 3))]
       | None => []
       end.
Proof.
  unfold classify.
  destruct (re_match question_pattern line) as [m|].
  - cbn [st_questions current_question]. unfold flush at 1.
    now rewrite map_app.
  - rewrite app_nil_r.
    destruct (current_question s) as [q|] eqn:Hcur;
      [|now rewrite Hcur].
    destruct (is_match _);
      [cbn [with_current st_questions current_question flush];
       now rewrite !map_app|].
    destruct (parts q).
    + destruct (contains "to ask the" line); cbn [negb];
        [now rewrite Hcur|].
      cbn [with_current st_questions current_question flush].
      now rewrite !map_app.
    + cbn [with_current st_questions current_question flush].
      now rewrite !map_app.
Qed.

Lemma finish_heads s :
  map header_of (finish s)
  = map header_of (flush (st_questions s) (current_question s)).
Proof.
  unfold finish. rewrite map_map.
  apply map_ext. apply clean_question_header.
Qed.

Lemma for_lines_heads lines : forall s,
  map header_of (finish (fst (for_lines lines s)))
  = map header_of (flush (st_questions s) (current_question s))
    ++ headers_read (in_questions_section s) lines.
Proof.
  induction lines as [|l lines IH]; intro s;
    cbn [for_lines headers_read fst].
  - now rewrite app_nil_r, finish_heads.
  - unfold loop_body.
    destruct (is_section_start l).
    + rewrite IH. reflexivity.
    + destruct (in_questions_section s) eqn:Ein.
      * destruct (is_terminator l); cbn [andb fst].
        -- now rewrite app_nil_r, finish_heads.
        -- rewrite IH, classify_heads.
           assert (E : in_questions_section (classify s l) = true).
           { rewrite <- Ein. unfold classify.
             destruct (re_match question_pattern l); [reflexivity|].
             destruct (current_question s) as [q|]; [|reflexivity].
             destruct (is_match _); [reflexivity|].
             destruct (parts q); [|reflexivity].
             destruct (contains "to ask the" l); reflexivity. }
           rewrite E.
           destruct (re_match question_pattern l);
             rewrite <- app_assoc; reflexivity.
      * rewrite andb_false_r. rewrite IH, Ein. reflexivity.
Qed.

(** The scan leaves the three keys set at creation alone. *)
Lemma scan_metadata_keeps m lines :
  title (scan_metadata m lines) = title m
  /\ source_url (scan_metadata m lines) = source_url m
  /\ document_type (scan_metadata m lines) = document_type m.
Proof.
  unfold scan_metadata. generalize (firstn 20 lines) as ls.
  intro ls. revert m.
  induction ls as [|l ls IH]; intro m; cbn [fold_left]; [auto|].
  destruct (IH (metadata_step m l)) as (H1 & H2 & H3).
  rewrite H1, H2, H3. unfold metadata_step.
  destruct (contains "NATIONAL ASSEMBLY OF ZAMBIA" l); [auto|].
  destruct (contains "SESSION OF THE" l && contains "ASSEMBLY" l); [auto|].
  destruct (contains "ORDER PAPER" l && has_weekday l); [auto|].
  destruct (contains "AT" l && contains "HOURS" l); auto.
Qed.

End MoreQuestionFacts.

(* ================================================================== *)
(** * More on [extract_parliament_questions] *)
(* ================================================================== *)

(** X15: every line the segmenter and the metadata scan are given is
    non-empty, has no white space at either end (stripping it again changes
    nothing) and holds no line feed. *)
Theorem X15_lines_are_trimmed_and_not_empty (text line : string) :
  In line (extract_lines text) ->
  line <> EmptyString
  /\ strip line = line
  /\ all_chars not_newline line = true.
Proof. apply extract_lines_spec. Qed.

Lemma X15_lines_are_trimmed_and_not_empty_witness :
  "13 Mrs Phiri - to ask the Minister of Education" <> EmptyString
  /\ strip "13 Mrs Phiri - to ask the Minister of Education"
     = "13 Mrs Phiri - to ask the Minister of Education"
  /\ all_chars not_newline
       "13 Mrs Phiri - to ask the Minister of Education" = true.
Proof.
  refine (X15_lines_are_trimmed_and_not_empty
            example_body
            "13 Mrs Phiri - to ask the Minister of Education" _).
  vm_compute. do 4 right. left. reflexivity.
Defined.

(** X16: a success result comes only from a page that was fetched and has
    the content container; its [source_url] is the URL asked for, its
    [document_type] is "Order Paper" and its [title] is the page title:
    the metadata scan never touches these three keys. *)
Theorem X16_success_keeps_url_title_and_type
        (w : World) (url : string) (d : Document) :
  extract_parliament_questions w url = Success d ->
  source_url (metadata d) = url
  /\ document_type (metadata d) = "Order Paper"
  /\ exists html text,
       requests_get w url = Returned html
       /\ find_title w html = Returned (title (metadata d))
       /\ find_body w html = Returned (Some text)
       /\ questions d = segment (extract_lines text).
Proof.
  unfold extract_parliament_questions, try_block, bind.
  destruct (requests_get w url) as [html|] eqn:Eg; [|discriminate].
  destruct (find_title w html) as [t|] eqn:Et; [|discriminate].
  destruct (find_body w html) as [[text|]|] eqn:Eb; try discriminate.
  intros [= <-]. cbn [metadata questions].
  destruct (scan_metadata_keeps
              (mkMetadata t url "Order Paper" None None None None)
              (extract_lines text)) as (H1 & H2 & H3).
  rewrite H1, H2, H3. cbn. eauto 10.
Qed.

Lemma X16_success_keeps_url_title_and_type_witness :
  source_url (metadata (mkDocument
     (mkMetadata (Some "T") "u" "Order Paper" None None None None)
     [question_12; question_13] 2)) = "u"
  /\ document_type (metadata (mkDocument
       (mkMetadata (Some "T") "u" "Order Paper" None None None None)
       [question_12; question_13] 2)) = "Order Paper"
  /\ exists html text,
       requests_get (serving (Some "T") (Some example_body)) "u"
       = Returned html
       /\ find_title (serving (Some "T") (Some example_body)) html
          = Returned (title (metadata (mkDocument
               (mkMetadata (Some "T") "u" "Order Paper" None None None None)
               [question_12; question_13] 2)))
       /\ find_body (serving (Some "T") (Some example_body)) html
          = Returned (Some text)
       /\ questions (mkDocument
            (mkMetadata (Some "T") "u" "Order Paper" None None None None)
            [question_12; question_13] 2)
          = segment (extract_lines text).
Proof.
  refine (X16_success_keeps_url_title_and_type
            (serving (Some "T") (Some example_body)) "u" _ _).
  vm_compute. reflexivity.
Defined.

(** X17: on the lines of a page the clean-up loop never removes a
    [question_text]: every text that is there holds a character that is
    not white space, and the questions returned are the questions as the
    segmenting loop left them. *)
Theorem X17_clean_up_removes_nothing (text : string) :
  let s := fst (for_lines (extract_lines text) initial_state) in
  segment (extract_lines text)
  = flush (st_questions s) (current_question s)
  /\ forall q t,
       In q (segment (extract_lines text)) ->
       question_text q = Some t -> truthy (strip t) = true.
Proof.
  intro s.
  pose proof (flushed_text_not_blank _ (extract_lines_not_blank text)) as H.
  cbv zeta in H. fold s in H.
  assert (E : segment (extract_lines text)
              = flush (st_questions s) (current_question s)).
  { unfold segment, finish. fold s. now apply map_clean_id. }
  split; [exact E|].
  intros q t Hq. rewrite E in Hq. rewrite Forall_forall in H.
  exact (H q Hq t).
Qed.

Lemma X17_clean_up_removes_nothing_witness :
  truthy (strip " whether the budget is ready") = true.
Proof.
  refine (proj2 (X17_clean_up_removes_nothing running_body)
                running_question " whether the budget is ready" _ _).
  - vm_compute. left. reflexivity.
  - reflexivity.
Defined.

(** X18: the [section] of every emitted question is set, and it is one of
    the input lines that contain "QUESTIONS FOR ORAL ANSWER". *)
Theorem X18_section_is_a_section_title
        (lines : list string) (q : Question) :
  In q (segment lines) ->
  exists l, section q = Some l /\ In l lines /\ is_section_start l = true.
Proof.
  intro Hq. unfold segment, finish in Hq.
  apply in_map_iff in Hq. destruct Hq as (q0 & <- & Hq0).
  rewrite clean_question_section.
  assert (H : Forall (fun q => section_title_of lines (section q))
                (flush (st_questions (fst (for_lines lines initial_state)))
                       (current_question
                          (fst (for_lines lines initial_state))))).
  { apply (flushed_line_inv
             (fun l => In l lines) (section_title_of lines)
             (fun q => section_title_of lines (section q))); auto.
    - intros line Hl Hs. exists line. auto.
    - rewrite Forall_forall. auto. }
  rewrite Forall_forall in H. exact (H q0 Hq0).
Qed.

Lemma X18_section_is_a_section_title_witness :
  exists l, section question_13 = Some l /\ In l spec_example
            /\ is_section_start l = true.
Proof.
  refine (X18_section_is_a_section_title spec_example question_13 _).
  vm_compute. right. left. reflexivity.
Defined.

(** X19: the questions come out one for each header line read, in the
    order of the lines, with the number, asker and minister of that line:
    lines that match the header pattern inside the questions section, up
    to the line that breaks the loop.  Whatever lies between the header
    lines changes neither how many questions there are nor these
    fields. *)
Theorem X19_one_question_per_header_read (lines : list string) :
  map header_of (segment lines) = headers_read false lines
  /\ List.length (segment lines) = List.length (headers_read false lines).
Proof.
  assert (E : map header_of (segment lines) = headers_read false lines).
  { unfold segment. rewrite for_lines_heads. reflexivity. }
  split; [exact E|]. now rewrite <- E, length_map.
Qed.

(** X20: every part of every emitted question starts with a whole sub-part
    line of the input, kept as it was read; text is only ever added after
    it. *)
Theorem X20_parts_start_with_a_sub_part_line
        (lines : list string) (q : Question) (p : string) :
  In q (segment lines) -> In p (parts q) ->
  exists line rest,
    In line lines /\ is_part_line line = true /\ p = (line ++ rest)%string.
Proof.
  intros Hq Hp. unfold segment, finish in Hq.
  apply in_map_iff in Hq. destruct Hq as (q0 & <- & Hq0).
  assert (Hparts : parts (clean_question q0) = parts q0).
  { unfold clean_question. destruct (question_text q0); [|reflexivity].
    destruct (negb _); reflexivity. }
  rewrite Hparts in Hp.
  assert (H : Forall (fun q => Forall (starts_with_part_line lines) (parts q))
                (flush (st_questions (fst (for_lines lines initial_state)))
                       (current_question
                          (fst (for_lines lines initial_state))))).
  { apply (flushed_line_inv
             (fun l => In l lines) (fun _ => True)
             (fun q => Forall (starts_with_part_line lines) (parts q)));
      cbn [parts]; auto.
    - intros q1 line Hl Hpl Hq1. apply Forall_app. split; [exact Hq1|].
      constructor; [|constructor].
      exists line, EmptyString. repeat split; auto.
      clear. induction line as [|c l IH]; simpl; [reflexivity|].
      now rewrite <- IH.
    - intros q1 line Hl Hq1.
      induction Hq1 as [|p0 ps (l0 & r0 & Hin & Hpl & ->) Hps IH];
        [constructor|].
      destruct ps as [|p1 ps].
      + cbn [extend_last]. constructor; [|constructor].
        exists l0, (r0 ++ " " ++ line)%string. repeat split; auto.
        now rewrite append_assoc.
      + change (extend_last ((l0 ++ r0)%string :: p1 :: ps) line)
          with ((l0 ++ r0)%string :: extend_last (p1 :: ps) line).
        constructor; [|exact IH]. exists l0, r0. auto.
    - rewrite Forall_forall. auto. }
  rewrite Forall_forall in H. specialize (H q0 Hq0).
  rewrite Forall_forall in H. exact (H p Hp).
Qed.

Lemma X20_parts_start_with_a_sub_part_line_witness :
  exists line rest,
    In line spec_example /\ is_part_line line = true
    /\ "(a) What is the budget? continued here" = (line ++ rest)%string.
Proof.
  refine (X20_parts_start_with_a_sub_part_line
            spec_example question_12
            "(a) What is the budget? continued here" _ _);
    vm_compute; left; reflexivity.
Defined.

(* ================================================================== *)
(** * Lemmas on the two date patterns and on file names *)
(* ================================================================== *)

Section ShapeFacts.

Lemma or_else_is_some {A} (a b : option A) :
  is_some (or_else a b) = is_some a || is_some b.
Proof. destruct a; reflexivity. Qed.

Lemma rep_greedy_is_some {A B} c hi : forall lo prev s
    (k1 : before -> string -> option A) (k2 : before -> string -> option B),
  (forall p s', is_some (k1 p s') = is_some (k2 p s')) ->
  is_some (rep_greedy c lo hi prev s k1)
  = is_some (rep_greedy c lo hi prev s k2).
Proof.
  induction hi as [|hi IH]; intros lo prev s k1 k2 Hk; cbn [rep_greedy].
  - destruct (lo =? 0); [apply Hk|reflexivity].
  - assert (Hstop : is_some (if lo =? 0 then k1 prev s else None)
                    = is_some (if lo =? 0 then k2 prev s else None)).
    { destruct (lo =? 0); [apply Hk|reflexivity]. }
    destruct s as [|a s]; [exact Hstop|].
    destruct (c a); [|exact Hstop].
    rewrite !or_else_is_some, Hstop. f_equal. now apply IH.
Qed.

Lemma many_greedy_is_some {A B} c s : forall
    (k1 : before -> string -> option A) (k2 : before -> string -> option B),
  (forall p s', is_some (k1 p s') = is_some (k2 p s')) ->
  is_some (many_greedy c s k1) = is_some (many_greedy c s k2).
Proof.
  induction s as [|a s IH]; intros k1 k2 Hk; cbn [many_greedy];
    [reflexivity|].
  destruct (c a); [|reflexivity].
  rewrite !or_else_is_some, Hk. f_equal. now apply IH.
Qed.

(** Whether a pattern matches does not depend on its groups. *)
Lemma smatch_ungroup r : forall prev s g1 g2 (k1 k2 : kont),
  (forall p s' h1 h2, is_some (k1 p s' h1) = is_some (k2 p s' h2)) ->
  is_some (smatch r prev s g1 k1)
  = is_some (smatch (ungroup r) prev s g2 k2).
Proof.
  induction r as [t|lo hi c|c|r1 IH1 r2 IH2|n r1 IH|r1 IH1 r2 IH2|];
    intros prev s g1 g2 k1 k2 Hk; cbn [smatch ungroup].
  - destruct (strip_prefix t s); [apply Hk|reflexivity].
  - apply rep_greedy_is_some. intros. apply Hk.
  - apply many_greedy_is_some. intros. apply Hk.
  - rewrite !or_else_is_some. f_equal; auto.
  - apply IH. intros. apply Hk.
  - apply IH1. intros. apply IH2. exact Hk.
  - destruct (at_word_boundary prev s); [apply Hk|reflexivity].
Qed.

Lemma search_at_ungroup r1 r2 s : forall prev,
  ungroup r1 = ungroup r2 ->
  is_some (search_at r1 prev s) = is_some (search_at r2 prev s).
Proof.
  induction s as [|a s IH]; intros prev E; cbn [search_at];
    rewrite !or_else_is_some.
  - rewrite (smatch_ungroup r1 prev EmptyString no_captures no_captures
                            accept accept) by reflexivity.
    rewrite (smatch_ungroup r2 prev EmptyString no_captures no_captures
                            accept accept) by reflexivity.
    now rewrite E.
  - rewrite (smatch_ungroup r1 prev (String a s) no_captures no_captures
                            accept accept) by reflexivity.
    rewrite (smatch_ungroup r2 prev (String a s) no_captures no_captures
                            accept accept) by reflexivity.
    rewrite E. f_equal. now apply IH.
Qed.

(** Replacing a character leaves none of it behind, when the replacement
    has none. *)
Lemma replace_char_gone c new s k :
  all_chars (fun a => negb (Ascii.eqb a c)) new = true ->
  all_chars (fun a => negb (Ascii.eqb a c))
            (replace_from (String c EmptyString) new k s) = true.
Proof.
  intro Hnew. revert k.
  induction s as [|a s IH]; intro k; cbn [replace_from]; [reflexivity|].
  destruct k as [|k]; [|apply IH].
  unfold starts_with. cbn [strip_prefix String.length Nat.sub].
  destruct (Ascii.eqb_spec c a) as [<-|Hne].
  - rewrite all_chars_app, Hnew. apply IH.
  - cbn [all_chars]. rewrite IH, andb_true_r.
    apply negb_true_iff, Ascii.eqb_neq. congruence.
Qed.

(** Replacing keeps a property of all characters that the replacement
    has. *)
Lemma replace_keeps p old new s : forall k,
  all_chars p new = true -> all_chars p s = true ->
  all_chars p (replace_from old new k s) = true.
Proof.
  induction s as [|a s IH]; intros k Hnew Hs; cbn [replace_from];
    [reflexivity|].
  cbn [all_chars] in Hs. apply andb_prop in Hs. destruct Hs as [Ha Hs].
  destruct k as [|k]; [|now apply IH].
  destruct (starts_with old (String a s)).
  - rewrite all_chars_app, Hnew. now apply IH.
  - cbn [all_chars]. rewrite Ha. now apply IH.
Qed.

Lemma keep_chars_all p q s :
  (forall c, q c = true -> p c = true) ->
  all_chars p (keep_chars q s) = true.
Proof.
  intro H. induction s as [|c s IH]; cbn [keep_chars]; [reflexivity|].
  destruct (q c) eqn:E; [|exact IH].
  cbn [all_chars]. now rewrite (H c E), IH.
Qed.

Lemma all_chars_impl (p q : ascii -> bool) s :
  (forall c, p c = true -> q c = true) ->
  all_chars p s = true -> all_chars q s = true.
Proof.
  intro H. induction s as [|c s IH]; cbn [all_chars]; [auto|].
  intro Hs. apply andb_prop in Hs. destruct Hs as [Hc Hs].
  now rewrite (H c Hc), IH.
Qed.

Lemma all_chars_and p q s :
  all_chars p s = true -> all_chars q s = true ->
  all_chars (fun c => p c && q c) s = true.
Proof.
  induction s as [|c s IH]; cbn [all_chars]; [auto|].
  intros Hp Hq. apply andb_prop in Hp. apply andb_prop in Hq.
  destruct Hp as [Hp1 Hp2], Hq as [Hq1 Hq2].
  now rewrite Hp1, Hq1, IH.
Qed.

End ShapeFacts.

(** X21: a title that passes the listing's date test
    ([\d{1,2}(st|nd|rd|th) [A-Za-z]+, \d{4}]) always has a year: the first
    year pattern finds a match in it, so such a link is never dropped by
    the [if not year] test. *)
Theorem X21_dated_title_always_has_a_year (title : string) :
  is_match (re_search listing_date_pattern title) = true ->
  exists y,
    extract_year_from_title title = Some y
    /\ String.length y = 4 /\ all_chars is_digit y = true.
Proof.
  intro H.
  assert (E : is_some (re_search year_pattern_1 title) = true).
  { unfold re_search.
    rewrite (search_at_ungroup year_pattern_1 listing_date_pattern)
      by reflexivity.
    unfold re_search in H.
    now destruct (search_at listing_date_pattern None title). }
  destruct (extract_year_from_title title) as [y|] eqn:Ey.
  - exists y. apply extract_year_four_digits in Ey.
    destruct Ey. auto.
  - unfold extract_year_from_title, patterns in Ey. cbn [first_year] in Ey.
    destruct (re_search year_pattern_1 title); discriminate.
Qed.

Lemma X21_dated_title_always_has_a_year_witness :
  exists y,
    extract_year_from_title "Order Paper - Friday, 21st June, 2024" = Some y
    /\ String.length y = 4 /\ all_chars is_digit y = true.
Proof.
  refine (X21_dated_title_always_has_a_year
            "Order Paper - Friday, 21st June, 2024" _).
  vm_compute. reflexivity.
Defined.

(** X22: for a paper whose year is all digits (as every listed paper's
    is), the file name chosen for its result, before it is made unique,
    starts with "datasets/paper_", ends with ".json" and holds neither a
    space nor a comma, whether it is built from the date of the result or
    from the title and year of the paper. *)
Theorem X22_paper_filename_has_no_space_or_comma
        (result : Document) (paper : PaperLink) :
  all_chars is_digit (link_year paper) = true ->
  exists stem,
    paper_filename result paper
    = ("datasets/paper_" ++ stem ++ ".json")%string
    /\ all_chars plain_char (paper_filename result paper) = true.
Proof.
  intros Hy. unfold paper_filename. cbv zeta.
  set (d := replace " " "_" (replace "," "" _)).
  assert (Hd : all_chars plain_char d = true).
  { unfold d, replace, plain_char. apply all_chars_and.
    - now apply replace_char_gone.
    - apply replace_keeps; [reflexivity|]. now apply replace_char_gone. }
  assert (Hf : all_chars plain_char
                 (replace " " "_"
                    (keep_chars is_safe_char (link_title paper))
                  ++ "_" ++ link_year paper) = true).
  { rewrite all_chars_app. apply andb_true_intro. split.
    - unfold replace, plain_char. apply all_chars_and.
      + now apply replace_char_gone.
      + apply replace_keeps; [reflexivity|].
        apply keep_chars_all. intros c Hc.
        destruct (Ascii.eqb_spec c ","); [subst; discriminate Hc|reflexivity].
    - cbn [append all_chars]. cbn.
      eapply all_chars_impl; [|exact Hy].
      intros c Hc. unfold plain_char.
      destruct (Ascii.eqb_spec c " ") as [->|]; [discriminate Hc|].
      destruct (Ascii.eqb_spec c ",") as [->|]; [discriminate Hc|].
      reflexivity. }
  eexists. split; [reflexivity|].
  rewrite !all_chars_app.
  destruct (negb (truthy d)); [rewrite Hf|rewrite Hd]; reflexivity.
Qed.

Lemma X22_paper_filename_has_no_space_or_comma_witness :
  exists stem,
    paper_filename
      (mkDocument (mkMetadata None "u" "Order Paper" None None
                              (Some "FRIDAY, 21ST JUNE, 2024") None) [] 0)
      paper_2024
    = ("datasets/paper_" ++ stem ++ ".json")%string
    /\ all_chars plain_char
         (paper_filename
            (mkDocument (mkMetadata None "u" "Order Paper" None None
                                    (Some "FRIDAY, 21ST JUNE, 2024") None)
                        [] 0)
            paper_2024) = true.
Proof.
  refine (X22_paper_filename_has_no_space_or_comma _ paper_2024 _).
  reflexivity.
Defined.

(* ================================================================== *)
(** * Lemmas on the segmenter over all code points *)
(* ================================================================== *)

Section WideFacts.

Variable is_decimal : Wide.char -> bool.
Variable is_space : Wide.char -> bool.
Variable lower : Wide.text -> Wide.text.

Lemma wide_taken_app (pre s' : Wide.text) : Wide.taken (pre ++ s') s' = pre.
Proof.
  unfold Wide.taken. rewrite List.length_app.
  replace (List.length pre + List.length s' - List.length s')
    with (List.length pre) by lia.
  rewrite firstn_app, firstn_all, Nat.sub_diag. cbn [firstn].
  apply app_nil_r.
Qed.

Lemma wide_plus_greedy_inv {A} c s (k : Wide.text -> option A) r :
  Wide.plus_greedy c s k = Some r ->
  exists pre s', s = pre ++ s' /\ pre <> [] /\
                 forallb c pre = true /\ k s' = Some r.
Proof.
  revert r. induction s as [|a s IH]; cbn [Wide.plus_greedy]; intros r H;
    [discriminate|].
  destruct (c a) eqn:Ca; [|discriminate].
  apply or_else_Some in H. destruct H as [H|H].
  - destruct (IH _ H) as (pre & s' & -> & _ & Hall & Hk).
    exists (a :: pre), s'. cbn [forallb app]. rewrite Ca, Hall.
    repeat split; auto; discriminate.
  - exists [a], s. cbn [forallb app]. rewrite Ca.
    repeat split; auto; discriminate.
Qed.

Lemma wide_plus_lazy_inv {A} c s (k : Wide.text -> option A) r :
  Wide.plus_lazy c s k = Some r ->
  exists pre s', s = pre ++ s' /\ pre <> [] /\
                 forallb c pre = true /\ k s' = Some r.
Proof.
  revert r. induction s as [|a s IH]; cbn [Wide.plus_lazy]; intros r H;
    [discriminate|].
  destruct (c a) eqn:Ca; [|discriminate].
  apply or_else_Some in H. destruct H as [H|H].
  - exists [a], s. cbn [forallb app]. rewrite Ca.
    repeat split; auto; discriminate.
  - destruct (IH _ H) as (pre & s' & -> & _ & Hall & Hk).
    exists (a :: pre), s'. cbn [forallb app]. rewrite Ca, Hall.
    repeat split; auto; discriminate.
Qed.

(** A successful match of [r] reaches its continuation, and on the way only
    the groups of [r] are written. *)
Lemma wide_rmatch_frame r : forall s g k res,
  Wide.rmatch r s g k = Some res ->
  exists s' g', k s' g' = Some res /\
                forall n, ~ In n (Wide.groups_of r) -> g' n = g n.
Proof.
  induction r as [t|c|b c|a|n r1 IH|r1 IH1 r2 IH2|];
    cbn [Wide.rmatch Wide.groups_of]; intros s g k res H.
  - destruct (Wide.strip_prefix t s) as [s'|]; [|discriminate]. eauto.
  - destruct s as [|a s']; [discriminate|].
    destruct (c a); [|discriminate]. eauto.
  - destruct b.
    + apply wide_plus_greedy_inv in H.
      destruct H as (_ & s' & _ & _ & _ & Hk). eauto.
    + apply wide_plus_lazy_inv in H.
      destruct H as (_ & s' & _ & _ & _ & Hk). eauto.
  - destruct s as [|b s']; [eauto|].
    destruct (N.eqb a b); [|eauto].
    apply or_else_Some in H. destruct H; eauto.
  - apply IH in H. destruct H as (s' & g' & Hk & Hg).
    exists s', (Wide.set_group n (Wide.taken s s') g'). split; [exact Hk|].
    intros m Hm. unfold Wide.set_group.
    destruct (Nat.eqb_spec m n) as [->|Hne]; [exfalso; apply Hm; now left|].
    apply Hg. intro Hin. apply Hm. now right.
  - apply IH1 in H. destruct H as (s1 & g1 & H & Hg1).
    apply IH2 in H. destruct H as (s2 & g2 & H & Hg2).
    exists s2, g2. split; [exact H|].
    intros n Hn. rewrite Hg2, Hg1; auto; intro Hin; apply Hn;
      apply in_or_app; auto.
  - destruct (Wide.at_end s); [|discriminate]. eauto.
Qed.

(** When a pattern opens with a group around [X+] whose number no later
    group reuses, that group of a match is a non-empty run of [X]. *)
Lemma wide_leading_group_run n b c tail s m :
  ~ In n (Wide.groups_of tail) ->
  Wide.re_match (Wide.Cat (Wide.Grp n (Wide.Plus b c)) tail) s = Some m ->
  Wide.group m n <> [] /\ forallb c (Wide.group m n) = true.
Proof.
  intros Hn H. unfold Wide.re_match in H. cbn [Wide.rmatch] in H.
  assert (Hrun : exists pre s', s = pre ++ s' /\ pre <> [] /\
             forallb c pre = true /\
             Wide.rmatch tail s'
               (Wide.set_group n (Wide.taken s s') Wide.no_captures)
               (fun _ g => Some g) = Some m).
  { destruct b;
      [apply wide_plus_greedy_inv in H | apply wide_plus_lazy_inv in H];
      destruct H as (pre & s' & E & Hne & Hall & H); eauto 8. }
  destruct Hrun as (pre & s' & -> & Hne & Hall & Ht).
  rewrite wide_taken_app in Ht.
  apply wide_rmatch_frame in Ht. destruct Ht as (s2 & g2 & Hk & Hg).
  injection Hk as <-.
  unfold Wide.group. rewrite (Hg n Hn). unfold Wide.set_group.
  rewrite Nat.eqb_refl. auto.
Qed.

(** Group 1 of a header match is a non-empty run of [\d]. *)
Lemma wide_question_pattern_group1 line m :
  Wide.re_match (Wide.question_pattern is_decimal is_space) line = Some m ->
  Wide.group m 1 <> [] /\ forallb is_decimal (Wide.group m 1) = true.
Proof.
  unfold Wide.question_pattern. apply wide_leading_group_run.
  cbn [Wide.groups_of app]. intros [H|[H|[]]]; discriminate.
Qed.

Lemma wide_classify_numbers s line :
  Wide.numbers_are_decimal is_decimal s ->
  Wide.numbers_are_decimal is_decimal
    (Wide.classify is_decimal is_space lower s line).
Proof.
  intros [Hq Hc]. unfold Wide.classify.
  destruct (Wide.re_match (Wide.question_pattern is_decimal is_space) line)
    as [m|] eqn:Hm.
  - split; cbn [Wide.st_questions Wide.current_question].
    + unfold Wide.flush. destruct (Wide.current_question s) as [q|]; auto.
      apply Forall_app. split; auto.
    + intros q [= <-]. unfold Wide.number_is_decimal.
      cbn [Wide.question_number].
      now apply wide_question_pattern_group1 in Hm.
  - destruct (Wide.current_question s) as [q|] eqn:Hcur;
      [|split; auto; congruence].
    specialize (Hc q eq_refl).
    destruct (Wide.is_match _).
    + split; cbn; auto. intros q' [= <-]. exact Hc.
    + destruct (Wide.parts q).
      * destruct (Wide.contains _ line); cbn [negb].
        -- split; auto. intros q' Hq'. rewrite Hcur in Hq'.
           now injection Hq' as <-.
        -- split; cbn; auto. intros q' [= <-]. exact Hc.
      * split; cbn; auto. intros q' [= <-]. exact Hc.
Qed.

Lemma wide_for_lines_numbers lines : forall s,
  Wide.numbers_are_decimal is_decimal s ->
  Wide.numbers_are_decimal is_decimal
    (fst (Wide.for_lines is_decimal is_space lower lines s)).
Proof.
  induction lines as [|l lines IH]; cbn [Wide.for_lines]; intros s Hs;
    [exact Hs|].
  unfold Wide.loop_body.
  destruct (Wide.is_section_start l).
  - apply IH. destruct Hs. split; auto.
  - destruct (Wide.is_terminator l && Wide.in_questions_section s);
      [exact Hs|].
    destruct (Wide.in_questions_section s); apply IH; [|exact Hs].
    now apply wide_classify_numbers.
Qed.

(** Every emitted question has a non-empty number of [\d] characters. *)
Lemma wide_segment_numbers lines q :
  In q (Wide.segment is_decimal is_space lower lines) ->
  Wide.number_is_decimal is_decimal q.
Proof.
  unfold Wide.segment, Wide.finish. intro Hin.
  apply in_map_iff in Hin. destruct Hin as (q0 & <- & Hin).
  assert (H0 : Wide.number_is_decimal is_decimal q0).
  { pose proof (wide_for_lines_numbers lines Wide.initial_state) as H.
    destruct H as [Hq Hc].
    { split; cbn; [constructor|discriminate]. }
    unfold Wide.flush in Hin.
    destruct (Wide.current_question
                (fst (Wide.for_lines is_decimal is_space lower lines
                                     Wide.initial_state))) as [c|] eqn:E.
    - apply in_app_or in Hin. rewrite Forall_forall in Hq.
      destruct Hin as [Hin|[<-|[]]]; auto.
    - rewrite Forall_forall in Hq. auto. }
  unfold Wide.clean_question. destruct (Wide.question_text q0); [|exact H0].
  destruct (negb _); exact H0.
Qed.

End WideFacts.

(* ================================================================== *)
(** * Question numbers *)
(* ================================================================== *)

(** C9, as the code behaves: whatever the tables of [\d], [\s] and
    [str.lower] are, the question number of every emitted question is a
    non-empty run of characters of [\d], the decimal digits of any script:
    it is the text the first group of the header pattern matched, stored
    with no conversion. *)
Theorem C9_question_number_is_decimal_digits
        (is_decimal is_space : Wide.char -> bool)
        (lower : Wide.text -> Wide.text)
        (lines : list Wide.text) (q : Wide.Question) :
  In q (Wide.segment is_decimal is_space lower lines) ->
  Wide.question_number q <> []
  /\ forallb is_decimal (Wide.question_number q) = true.
Proof.
  apply wide_segment_numbers.
Qed.

Lemma C9_question_number_is_decimal_digits_witness :
  Wide.question_number Wide.arabic_indic_question <> []
  /\ forallb Wide.two_scripts_decimal
             (Wide.question_number Wide.arabic_indic_question) = true.
Proof.
  refine (C9_question_number_is_decimal_digits
            Wide.two_scripts_decimal Wide.basic_space Wide.basic_lower
            Wide.arabic_indic_lines Wide.arabic_indic_question _).
  vm_compute. left. reflexivity.
Defined.

(** C9, as stated, fails: for no tables and no line sequence does the
    segmenter emit a question whose number is empty or holds a character
    that [\d] does not take. *)
Lemma C9_no_input_gives_a_number_outside_decimal_digits :
  ~ exists (is_decimal is_space : Wide.char -> bool)
           (lower : Wide.text -> Wide.text)
           (lines : list Wide.text) (q : Wide.Question),
      In q (Wide.segment is_decimal is_space lower lines)
      /\ (Wide.question_number q = []
          \/ forallb is_decimal (Wide.question_number q) = false).
Proof.
  intros (is_decimal & is_space & lower & lines & q & Hin & Hbad).
  destruct (wide_segment_numbers is_decimal is_space lower lines q Hin)
    as [Hne Hd].
  destruct Hbad as [Hbad|Hbad]; [contradiction | congruence].
Qed.
